(** * Strategic Account Intelligence Agent: access codes and credit accounting

    A shallow embedding of the state-handling part of [main.py]: the time
    helpers, the key helpers, the operations on the key-value store (user
    records, access codes, run history), the webhook wrapper and the credit
    path of the agent page, followed by the properties proved about them. *)

From Stdlib Require Import ZArith Lia Bool List String Ascii.
From stdpp Require Import base option list strings gmap fin_maps pretty.

Local Open Scope string_scope.
Local Open Scope Z_scope.

(** ** Calendar arithmetic of [datetime]

    A date is represented by its proleptic Gregorian ordinal
    ([date.toordinal()]: day 1 is 0001-01-01, a Monday), which is how
    [datetime] itself adds a [timedelta] and computes week days.  The
    functions below follow the arithmetic of the standard [datetime]
    module. *)
Module Calendar.

Definition MAXORDINAL : Z := 3652059.

Definition is_leap (year : Z) : bool :=
  (year mod 4 =? 0) && (negb (year mod 100 =? 0) || (year mod 400 =? 0)).

Definition days_before_year (year : Z) : Z :=
  let y := year - 1 in
  y * 365 + y / 4 - y / 100 + y / 400.

Definition days_before_month (year month : Z) : Z :=
  let cum := nth (Z.to_nat (month - 1))
                 [0; 31; 59; 90; 120; 151; 181; 212; 243; 273; 304; 334] 0 in
  cum + (if (month >? 2) && is_leap year then 1 else 0).

Definition ymd2ord (year month day : Z) : Z :=
  days_before_year year + days_before_month year month + day.

(** The year component of [_ord2ymd]. *)
Definition ord2year (n : Z) : Z :=
  let n := n - 1 in
  let n400 := n / 146097 in
  let n := n mod 146097 in
  let year := n400 * 400 + 1 in
  let n100 := n / 36524 in
  let n := n mod 36524 in
  let n4 := n / 1461 in
  let n := n mod 1461 in
  let n1 := n / 365 in
  let year := year + n100 * 100 + n4 * 4 + n1 in
  if (n1 =? 4) || (n100 =? 4) then year - 1 else year.

Definition days_in_month (year month : Z) : Z :=
  if (month =? 2) && is_leap year then 29
  else nth (Z.to_nat (month - 1)) [31; 28; 31; 30; 31; 30; 31; 31; 30; 31; 30; 31] 0.

(** [_ord2ymd]: the (year, month, day) of an ordinal. *)
Definition ord2ymd (n : Z) : Z * Z * Z :=
  let n := n - 1 in
  let n400 := n / 146097 in
  let n := n mod 146097 in
  let year := n400 * 400 + 1 in
  let n100 := n / 36524 in
  let n := n mod 36524 in
  let n4 := n / 1461 in
  let n := n mod 1461 in
  let n1 := n / 365 in
  let n := n mod 365 in
  let year := year + n100 * 100 + n4 * 4 + n1 in
  if (n1 =? 4) || (n100 =? 4) then (year - 1, 12, 31)
  else
    let leapyear := (n1 =? 3) && (negb (n4 =? 24) || (n100 =? 3)) in
    let month := Z.shiftr (n + 50) 5 in
    let preceding :=
      nth (Z.to_nat (month - 1))
          [0; 31; 59; 90; 120; 151; 181; 212; 243; 273; 304; 334] 0
      + (if (month >? 2) && leapyear then 1 else 0) in
    if preceding >? n then
      let month := month - 1 in
      let preceding :=
        preceding
        - (nth (Z.to_nat (month - 1)) [31; 28; 31; 30; 31; 30; 31; 31; 30; 31; 30; 31] 0
           + (if (month =? 2) && leapyear then 1 else 0)) in
      (year, month, n - preceding + 1)
    else (year, month, n - preceding + 1).

Definition isoweek1monday (year : Z) : Z :=
  let firstday := ymd2ord year 1 1 in
  let firstweekday := (firstday + 6) mod 7 in
  let week1monday := firstday - firstweekday in
  if firstweekday >? 3 then week1monday + 7 else week1monday.

(** [date.isoweekday()]: Monday is 1, Sunday is 7. *)
Definition isoweekday_ord (o : Z) : Z :=
  if o mod 7 =? 0 then 7 else o mod 7.

(** [date.isocalendar()] as (ISO year, ISO week, ISO week day). *)
Definition isocalendar_ord (today : Z) : Z * Z * Z :=
  let year := ord2year today in
  let week1monday := isoweek1monday year in
  let week := (today - week1monday) / 7 in
  let day := (today - week1monday) mod 7 in
  if week <? 0 then
    let year := year - 1 in
    let week1monday := isoweek1monday year in
    let week := (today - week1monday) / 7 in
    let day := (today - week1monday) mod 7 in
    (year, week + 1, day + 1)
  else if (week >=? 52) && (today >=? isoweek1monday (year + 1)) then
    (year + 1, 1, day + 1)
  else
    (year, week + 1, day + 1).

End Calendar.

(** ** Strings

    Text is modelled on ASCII strings: [lower] maps the letters A-Z to a-z and
    [strip] removes the characters Python's [str.isspace] accepts in that
    range (tab, line feed, vertical tab, form feed, carriage return, the
    separators 28-31 and the space). *)
Module PyStr.

Definition lower_ascii (c : ascii) : ascii :=
  let n := N_of_ascii c in
  if ((65 <=? n) && (n <=? 90))%N then ascii_of_N (n + 32) else c.

Fixpoint lower (s : string) : string :=
  match s with
  | EmptyString => EmptyString
  | String c r => String (lower_ascii c) (lower r)
  end.

Definition isspace (c : ascii) : bool :=
  let n := N_of_ascii c in
  (((9 <=? n) && (n <=? 13)) || ((28 <=? n) && (n <=? 32)))%N.

Fixpoint lstrip (s : string) : string :=
  match s with
  | EmptyString => EmptyString
  | String c r => if isspace c then lstrip r else s
  end.

Fixpoint rstrip (s : string) : string :=
  match s with
  | EmptyString => EmptyString
  | String c r =>
      match rstrip r with
      | EmptyString => if isspace c then EmptyString else String c EmptyString
      | r' => String c r'
      end
  end.

Definition strip (s : string) : string := rstrip (lstrip s).

(** Truth value of a string: non-empty. *)
Definition truthy (s : string) : bool :=
  match s with EmptyString => false | _ => true end.

(** [f"{w:02d}"] for a non-negative [w]. *)
Definition pad2 (w : Z) : string :=
  if w <? 10 then "0" ++ pretty w else pretty w.

End PyStr.

(** ** Exceptions and results

    [Raise] carries an exception caught by [except Exception]; [Stopped] is
    the script being halted by [st.stop()], which no [except Exception]
    clause intercepts. *)
Inductive exn : Type := Exn (cls : string) (msg : string).

Definition exn_str (e : exn) : string := let 'Exn _ msg := e in msg.

Inductive Res (A : Type) : Type :=
  | Ok (a : A)
  | Raise (e : exn)
  | Stopped.
Arguments Ok {A} a.
Arguments Raise {A} e.
Arguments Stopped {A}.

Definition TypeError (msg : string) : exn := Exn "TypeError" msg.
Definition OverflowError (msg : string) : exn := Exn "OverflowError" msg.
Definition ValueError (msg : string) : exn := Exn "ValueError" msg.

(** ** Datetimes *)
Inductive tzinfo : Type :=
  | Naive                       (* no tzinfo *)
  | ZoneET                      (* the module's TZ = ZoneInfo("America/New_York") *)
  | FixedOffset (seconds : Z).  (* what fromisoformat builds from "+hh:mm" *)

Record datetime : Type := mkDatetime {
  ordinal : Z;       (* toordinal() of the date part *)
  hour : Z;
  minute : Z;
  second : Z;
  microsecond : Z;
  tz : tzinfo
}.

Definition valid_datetime (dt : datetime) : Prop :=
  1 <= ordinal dt <= Calendar.MAXORDINAL /\
  0 <= hour dt < 24 /\ 0 <= minute dt < 60 /\ 0 <= second dt < 60 /\
  0 <= microsecond dt < 1000000.

Definition isoweekday (dt : datetime) : Z := Calendar.isoweekday_ord (ordinal dt).

Definition isocalendar (dt : datetime) : Z * Z * Z :=
  Calendar.isocalendar_ord (ordinal dt).

(** [dt + timedelta(days=days)]: the date moves by whole days, the time of day
    and the tzinfo are kept, and a date outside 0001-01-01 .. 9999-12-31
    raises OverflowError. *)
Definition add_days (dt : datetime) (days : Z) : Res datetime :=
  let o := ordinal dt + days in
  if (0 <? o) && (o <=? Calendar.MAXORDINAL) then
    Ok (mkDatetime o (hour dt) (minute dt) (second dt) (microsecond dt) (tz dt))
  else Raise (OverflowError "date value out of range").

(** [dt.replace(hour=h, minute=m, second=s, microsecond=us)]. *)
Definition replace_time (dt : datetime) (h m s us : Z) : datetime :=
  mkDatetime (ordinal dt) h m s us (tz dt).

(** Comparison of the naive fields, as Python compares the tuples
    (year, month, day, hour, minute, second, microsecond). *)
Fixpoint lex_lt (a b : list Z) : bool :=
  match a, b with
  | x :: a', y :: b' => (x <? y) || ((x =? y) && lex_lt a' b')
  | _, _ => false
  end.

Definition wall_fields (dt : datetime) : list Z :=
  [ordinal dt; hour dt; minute dt; second dt; microsecond dt].

Definition wall_lt (a b : datetime) : bool := lex_lt (wall_fields a) (wall_fields b).

(** Microseconds since the start of day 0, for instants. *)
Definition wall_micros (dt : datetime) : Z :=
  (((ordinal dt * 24 + hour dt) * 60 + minute dt) * 60 + second dt) * 1000000
  + microsecond dt.

(** ** Time helpers of the program *)

Definition iso_week_id (dt : datetime) : string :=
  let '(y, w, _) := isocalendar dt in
  pretty y ++ "W" ++ PyStr.pad2 w.

Definition week_expiry_sunday_235959 (dt : datetime) : Res datetime :=
  let days_to_sun := 7 - isoweekday dt in
  match add_days dt days_to_sun with
  | Ok sunday => Ok (replace_time sunday 23 59 59 0)
  | Raise e => Raise e
  | Stopped => Stopped
  end.

(** ** Constants *)

Definition SEED_CODES : list (string * string) :=
  [ ("REC-2026W02-7H3Q9A", "recruiter");
    ("REC-2026W02-N4D2KP", "recruiter");
    ("REC-2026W02-V8M1TZ", "recruiter");
    ("GEN-2026W02-2J9L4C", "general");
    ("GEN-2026W02-Q6R7W3", "general");
    ("GEN-2026W02-X1P8FS", "general");
    ("VIP-2026W02-5K2Y9N", "vip");
    ("VIP-2026W02-H7T1RD", "vip");
    ("VIP-2026W02-M3C6UZ", "vip") ].

Definition DEFAULT_FREE_CREDITS : Z := 2.

(** ** Key helpers *)

Definition k_user (email : string) : string :=
  "user:" ++ PyStr.lower (PyStr.strip email).

Definition k_code (code : string) : string :=
  "code:" ++ PyStr.strip code.

Definition k_history (email : string) : string :=
  "history:" ++ PyStr.lower (PyStr.strip email).

Definition k_cache (hash_key : string) : string :=
  "cache:" ++ hash_key.

(** ** Data models

    The dicts the program stores have a fixed set of keys; they are modelled
    as records with the fields of the dataclasses [CodeRecord] and
    [UserRecord]. *)

Record CodeRecord : Type := mkCode {
  code_code : string;
  code_email : string;       (* bound email, or "" if not bound yet *)
  code_tier : string;
  code_week_id : string;
  code_expires_at : string;
  code_created_at : string
}.

Record UserRecord : Type := mkUser {
  user_email : string;
  user_credits : Z;
  user_tier : string;
  user_created_at : string;
  user_last_login : string
}.

(** A brief is the JSON document returned by the search API; every brief the
    program stores carries the "_api_meta" entry, so it is a non-empty dict. *)
Definition Brief : Type := string.

(** The [run_record] dict of the agent page. *)
Record RunRecord : Type := mkRun {
  run_ran_at : string;
  run_company : string;
  run_persona : string;
  run_model : string;
  run_credits_remaining_after : Z;
  run_brief : Brief
}.

(** Values held by the key-value store. *)
Inductive dbval : Type :=
  | DUser (rec : UserRecord)
  | DCode (rec : CodeRecord)
  | DHistory (hist : list RunRecord)
  | DCache (brief : Brief).

Definition set_user_credits (rec : UserRecord) (n : Z) : UserRecord :=
  mkUser (user_email rec) n (user_tier rec) (user_created_at rec) (user_last_login rec).

Definition set_user_last_login (rec : UserRecord) (now : string) : UserRecord :=
  mkUser (user_email rec) (user_credits rec) (user_tier rec) (user_created_at rec) now.

Definition set_user_tier (rec : UserRecord) (tier : string) : UserRecord :=
  mkUser (user_email rec) (user_credits rec) tier (user_created_at rec) (user_last_login rec).

Definition set_code_email (rec : CodeRecord) (email : string) : CodeRecord :=
  mkCode (code_code rec) email (code_tier rec) (code_week_id rec)
         (code_expires_at rec) (code_created_at rec).

(** ** The world: the store and the number of clock readings made so far *)

Record World : Type := mkWorld {
  db : gmap string dbval;
  ticks : nat
}.

(** Computations that read and write the world and may raise. The world
    reached when an exception is raised is kept: writes made before the
    exception stay in the store. *)
Definition M (A : Type) : Type := World -> Res A * World.

Definition ret {A} (a : A) : M A := fun w => (Ok a, w).

Definition bind {A B} (m : M A) (k : A -> M B) : M B :=
  fun w =>
    match m w with
    | (Ok a, w') => k a w'
    | (Raise e, w') => (Raise e, w')
    | (Stopped, w') => (Stopped, w')
    end.

Definition raise {A} (e : exn) : M A := fun w => (Raise e, w).

Definition lift {A} (r : Res A) : M A := fun w => (r, w).

(** [try: body  except Exception as e: handler e]. *)
Definition try_except {A} (body : M A) (handler : exn -> M A) : M A :=
  fun w =>
    match body w with
    | (Raise e, w') => handler e w'
    | r => r
    end.

Declare Scope py_scope.
Delimit Scope py_scope with py.
Notation "'do' x <- m ; k" := (bind m (fun x => k))
  (at level 10, x name, m at level 100, k at level 200) : py_scope.
Notation "m ;; k" := (bind m (fun _ => k))
  (at level 100, k at level 200, right associativity) : py_scope.
Local Open Scope py_scope.

(** ** DB operations *)

Definition db_contains (key : string) : M bool :=
  fun w => (Ok (bool_decide (is_Some (db w !! key))), w).

(** [db_get(key)] with the default [None]. *)
Definition db_get (key : string) : M (option dbval) :=
  fun w => (Ok (db w !! key), w).

Definition db_set (key : string) (value : dbval) : M unit :=
  fun w => (Ok tt, mkWorld (<[key := value]> (db w)) (ticks w)).

(** ** The environment of the program

    What the program takes from outside: the clock behind [datetime.now(TZ)]
    (its n-th reading), the text format of [datetime.isoformat] and
    [datetime.fromisoformat] ([None] when the text is rejected), the UTC
    offset of the zone America/New_York at a wall-clock time (in seconds),
    and the digest [hashlib.sha256(json.dumps(d, sort_keys=True)).hexdigest()]
    of a dict of strings. *)
Section Program.

Variable clock : nat -> datetime.
Variable to_iso : datetime -> string.
Variable parse_iso : string -> option datetime.
Variable et_utcoffset : datetime -> Z.
Variable sha256_json : list (string * string) -> string.

Definition now_et : M datetime :=
  fun w => (Ok (clock (ticks w)), mkWorld (db w) (S (ticks w))).

Definition utcoffset (dt : datetime) : option Z :=
  match tz dt with
  | Naive => None
  | ZoneET => Some (et_utcoffset dt)
  | FixedOffset s => Some s
  end.

Definition same_tzinfo (a b : tzinfo) : bool :=
  match a, b with
  | Naive, Naive => true
  | ZoneET, ZoneET => true
  | _, _ => false
  end.

(** [a < b] on datetimes: the naive fields are compared when both carry the
    same tzinfo object or the same offset, the instants otherwise, and a
    naive datetime cannot be ordered against an aware one. *)
Definition dt_lt (a b : datetime) : Res bool :=
  if same_tzinfo (tz a) (tz b) then Ok (wall_lt a b)
  else
    match utcoffset a, utcoffset b with
    | Some oa, Some ob =>
        if oa =? ob then Ok (wall_lt a b)
        else Ok (wall_micros a - oa * 1000000 <? wall_micros b - ob * 1000000)
    | _, _ => Raise (TypeError "can't compare offset-naive and offset-aware datetimes")
    end.

(** The code uses a value read under a user key as a user dict, one read
    under a code key as a code dict, and so on. A value of another shape
    makes the first use fail; it is modelled as a TypeError raised at the
    read. The program never stores such a value (see [store_typed]). *)
Definition as_user (v : dbval) : M UserRecord :=
  match v with
  | DUser rec => ret rec
  | _ => raise (TypeError "not a user record")
  end.

Definition as_code (v : dbval) : M CodeRecord :=
  match v with
  | DCode rec => ret rec
  | _ => raise (TypeError "not a code record")
  end.

Definition as_history (v : dbval) : M (list RunRecord) :=
  match v with
  | DHistory hist => ret hist
  | _ => raise (TypeError "not a history list")
  end.

Definition as_brief (v : dbval) : M Brief :=
  match v with
  | DCache brief => ret brief
  | _ => raise (TypeError "not a cached brief")
  end.

Definition ensure_user (email : string) (tier : string) : M UserRecord :=
  let key := k_user email in
  do t <- now_et;
  let now := to_iso t in
  do present <- db_contains key;
  (if negb present then
     let rec := mkUser (PyStr.lower email) DEFAULT_FREE_CREDITS tier now now in
     db_set key (DUser rec)
   else
     do v <- db_get key;
     do rec <- match v with
               | Some v => as_user v
               | None => raise (TypeError "NoneType does not support item assignment")
               end;
     let rec := set_user_last_login rec now in
     let rec := if PyStr.truthy tier && negb (PyStr.truthy (user_tier rec))
                then set_user_tier rec tier else rec in
     db_set key (DUser rec)) ;;
  do v <- db_get key;
  match v with
  | Some v => as_user v
  | None => raise (TypeError "argument after ** must be a mapping")
  end.

Definition update_user_credits (email : string) (new_credits : Z) : M unit :=
  let key := k_user email in
  do v <- db_get key;
  do rec <- match v with
            | Some v => as_user v
            | None =>
                do t1 <- now_et;
                do t2 <- now_et;
                ret (mkUser (PyStr.lower email) new_credits "general"
                            (to_iso t1) (to_iso t2))
            end;
  let rec := set_user_credits rec new_credits in
  db_set key (DUser rec).

Definition decrement_credit (email : string) : M Z :=
  let key := k_user email in
  do v <- db_get key;
  do rec <- match v with
            | Some v => as_user v
            | None =>
                do t1 <- now_et;
                do t2 <- now_et;
                ret (mkUser (PyStr.lower email) DEFAULT_FREE_CREDITS "general"
                            (to_iso t1) (to_iso t2))
            end;
  let rec := set_user_credits rec (Z.max 0 (user_credits rec - 1)) in
  db_set key (DUser rec) ;;
  ret (user_credits rec).

Definition save_history (email : string) (payload : RunRecord) : M unit :=
  let key := k_history email in
  do v <- db_get key;
  do hist <- match v with
             | Some v => as_history v
             | None => ret []
             end;
  let hist := payload :: hist in
  let hist := firstn 25 hist in
  db_set key (DHistory hist).

Definition get_history (email : string) : M (list RunRecord) :=
  do v <- db_get (k_history email);
  match v with
  | Some v => as_history v
  | None => ret []
  end.

(** ** Code issuance and validation *)

(** [token] stands for [secrets.token_hex(3).upper()]. *)
Definition create_code_for_email (token : string) (email : string) (tier : string)
  : M CodeRecord :=
  do dt <- now_et;
  let week_id := iso_week_id dt in
  do expires <- lift (week_expiry_sunday_235959 dt);
  let prefix := if String.eqb tier "recruiter" then "REC"
                else if String.eqb tier "vip" then "VIP"
                else "GEN" in
  let code := prefix ++ "-" ++ week_id ++ "-" ++ token in
  let rec := mkCode code (PyStr.strip (PyStr.lower email)) tier week_id
                    (to_iso expires) (to_iso dt) in
  db_set (k_code code) (DCode rec) ;;
  ret rec.

(** The loop of [seed_demo_codes_if_missing] over the remaining items of
    [SEED_CODES], with the counter [created]. *)
Fixpoint seed_loop (items : list (string * string)) (dt : datetime)
    (week_id : string) (expires : datetime) (created : Z) : M Z :=
  match items with
  | [] => ret created
  | (code, tier) :: rest =>
      let key := k_code code in
      do present <- db_contains key;
      if present then seed_loop rest dt week_id expires created
      else
        let rec := mkCode code "" tier week_id (to_iso expires) (to_iso dt) in
        db_set key (DCode rec) ;;
        seed_loop rest dt week_id expires (created + 1)
  end.

Definition seed_demo_codes_if_missing : M (Z * string * string) :=
  do dt <- now_et;
  let week_id := iso_week_id dt in
  do expires <- lift (week_expiry_sunday_235959 dt);
  do created <- seed_loop SEED_CODES dt week_id expires 0;
  ret (created, week_id, to_iso expires).

Definition bind_unbound_code_to_email (code : string) (email : string)
  : M (bool * string) :=
  let key := k_code code in
  do v <- db_get key;
  match v with
  | None => ret (false, "Code not found.")
  | Some v =>
      do rec <- as_code v;
      if PyStr.truthy (code_email rec) then
        ret (false, "Code already bound to an email.")
      else
        let rec := set_code_email rec (PyStr.strip (PyStr.lower email)) in
        db_set key (DCode rec) ;;
        ret (true, "Bound successfully.")
  end.

(** The pair returned by [validate_login_code]: [(False, message)] or
    [(True, record)]. *)
Inductive login_result : Type :=
  | LoginFailed (msg : string)
  | LoginOk (rec : CodeRecord).

(** The guarded expression [parse_iso(rec.get("expires_at")) < dt]. *)
Definition expiry_passed (expires_at : string) (dt : datetime) : Res bool :=
  match parse_iso expires_at with
  | None => Raise (ValueError "Invalid isoformat string")
  | Some e => dt_lt e dt
  end.

Definition validate_login_code (email : string) (code : string) : M login_result :=
  let email := PyStr.strip (PyStr.lower email) in
  let code := PyStr.strip code in
  do v <- db_get (k_code code);
  match v with
  | None => ret (LoginFailed "Invalid code.")
  | Some v =>
      do rec <- as_code v;
      (* Weekly expiry check *)
      do dt <- now_et;
      let current_week := iso_week_id dt in
      if negb (String.eqb (code_week_id rec) current_week) then
        ret (LoginFailed "Code expired (week changed). Request a new code.")
      else
        (* Time expiry check *)
        match expiry_passed (code_expires_at rec) dt with
        | Ok true =>
            ret (LoginFailed "Code expired (time window ended). Request a new code.")
        | Raise _ =>
            ret (LoginFailed "Code expiry is malformed. Ask the owner for a new code.")
        | Stopped => lift Stopped
        | Ok false =>
            (* Email binding rules *)
            if PyStr.truthy (code_email rec) then
              if negb (String.eqb (code_email rec) email) then
                ret (LoginFailed
                  "Code does not match this email. Use the email you requested access with.")
              else ret (LoginOk rec)
            else
              (* First valid use binds the code to that email *)
              let rec := set_code_email rec email in
              db_set (k_code code) (DCode rec) ;;
              ret (LoginOk rec)
        end
  end.

(** ** Webhook posting *)

Definition Payload : Type := list (string * string).

(** What [requests.post] does with a request: it completes with a response,
    or raises. *)
Inductive http_outcome : Type :=
  | HttpResponse (status_code : Z) (text : string)
  | HttpRaises (e : exn).

Definition post_webhook (requests_post : string -> Payload -> http_outcome)
    (url : string) (payload : Payload) : M (Z * string) :=
  try_except
    (match requests_post url payload with
     | HttpResponse status_code text => ret (status_code, text)
     | HttpRaises e => raise e
     end)
    (fun e => ret (0, exn_str e)).

(** ** The agent page *)

(** The fields of the form "agent_inputs" and whether it was submitted. *)
Record AgentInputs : Type := mkInputs {
  in_company : string;
  in_website : string;
  in_persona : string;
  in_value_prop : string;
  in_initiative : string;
  in_region : string;
  in_competitor : string;
  in_model : string;
  in_run : bool
}.

(** The fields of the form "contact_owner_form" and whether it was submitted. *)
Record ContactInputs : Type := mkContact {
  contact_from_email : string;
  contact_message : string;
  contact_submit : bool
}.

(** What one rendering of the agent page ends with. *)
Inductive agent_view : Type :=
  | ViewNoCredits (sent : option (Z * string))  (* refusal, and the webhook reply if sent *)
  | ViewForm                                    (* form shown, not submitted *)
  | ViewMissingFields
  | ViewFailed (msg : string)                   (* "Agent failed: ..." after the refund *)
  | ViewBrief (brief : Brief).                  (* the run completed *)

(** The dict hashed into the cache key of a run. *)
Definition cache_raw (form : AgentInputs) (week : string) : list (string * string) :=
  [ ("company", PyStr.strip (in_company form));
    ("website", PyStr.strip (in_website form));
    ("persona", PyStr.strip (in_persona form));
    ("value_prop", PyStr.strip (in_value_prop form));
    ("initiative", PyStr.strip (in_initiative form));
    ("region", PyStr.strip (in_region form));
    ("competitor", PyStr.strip (in_competitor form));
    ("model", in_model form);
    ("week", week) ].

(** [any(not x.strip() for x in required)]. *)
Definition required_missing (form : AgentInputs) : bool :=
  let required := [in_company form; in_website form; in_persona form;
                   in_value_prop form] in
  existsb (fun x => negb (PyStr.truthy (PyStr.strip x))) required.

(** The call [perplexity_brief(company=company.strip(), ...)] of the page. *)
Definition call_perplexity
    (perplexity_brief :
       string -> string -> string -> string -> string -> string -> string -> string ->
       Res Brief)
    (form : AgentInputs) : Res Brief :=
  perplexity_brief
    (PyStr.strip (in_company form)) (PyStr.strip (in_website form))
    (PyStr.strip (in_persona form)) (PyStr.strip (in_value_prop form))
    (PyStr.strip (in_initiative form)) (PyStr.strip (in_region form))
    (PyStr.strip (in_competitor form)) (in_model form).

(** [perplexity_brief] is the call to the search API: it returns a brief,
    raises, or stops the script when its secret is missing. *)
Definition render_agent
    (requests_post : string -> Payload -> http_outcome)
    (perplexity_brief :
       string -> string -> string -> string -> string -> string -> string -> string ->
       Res Brief)
    (make_contact_url : string)
    (session_email session_tier : string)
    (contact : ContactInputs) (form : AgentInputs) : M agent_view :=
  let email := session_email in
  do user <- ensure_user email session_tier;
  if user_credits user <=? 0 then
    if contact_submit contact then
      do t <- now_et;
      let payload := [ ("email", PyStr.strip (contact_from_email contact));
                       ("message", PyStr.strip (contact_message contact));
                       ("submitted_at", to_iso t) ] in
      do reply <- post_webhook requests_post make_contact_url payload;
      ret (ViewNoCredits (Some reply))
    else ret (ViewNoCredits None)
  else if negb (in_run form) then ret ViewForm
  else if required_missing form then ret ViewMissingFields
  else
    (* Cache key *)
    do t <- now_et;
    let raw := cache_raw form (iso_week_id t) in
    let h := sha256_json raw in
    let cache_key := k_cache h in
    do remaining_after <- decrement_credit email;
    try_except
      (do cached <- db_get cache_key;
       do brief <- match cached with
                   | Some v => as_brief v
                   | None =>
                       do brief <- lift (call_perplexity perplexity_brief form);
                       db_set cache_key (DCache brief) ;;
                       ret brief
                   end;
       do t <- now_et;
       let run_record := mkRun (to_iso t) (PyStr.strip (in_company form))
                               (PyStr.strip (in_persona form)) (in_model form)
                               remaining_after brief in
       save_history email run_record ;;
       ret (ViewBrief brief))
      (fun e =>
         (* Refund credit on failure *)
         update_user_credits email (remaining_after + 1) ;;
         ret (ViewFailed (exn_str e))).

(** One rendering of the agent page for a logged-in user: what the session
    and the forms hold, and what the outside world answers during it. *)
Record AgentVisit : Type := mkVisit {
  visit_tier : string;
  visit_contact : ContactInputs;
  visit_form : AgentInputs;
  visit_requests_post : string -> Payload -> http_outcome;
  visit_perplexity :
    string -> string -> string -> string -> string -> string -> string -> string ->
    Res Brief
}.

Definition visit (make_contact_url email : string) (v : AgentVisit) : M agent_view :=
  render_agent (visit_requests_post v) (visit_perplexity v) make_contact_url
               email (visit_tier v) (visit_contact v) (visit_form v).

(** The number of renderings, in a sequence of them, that show a brief. Each
    rendering is a script run of its own and starts from the world the
    previous one left, however it ended. *)
Fixpoint briefs_shown (make_contact_url email : string) (visits : list AgentVisit)
    (w : World) : nat :=
  match visits with
  | [] => O
  | v :: rest =>
      let '(r, w') := visit make_contact_url email v w in
      ((match r with Ok (ViewBrief _) => 1 | _ => 0 end)
       + briefs_shown make_contact_url email rest w')%nat
  end.

End Program.

(** ** Notions used in the statements *)

(** The Thursday of the Monday-to-Sunday week of an ordinal; ISO 8601 numbers
    a week within the year that holds its Thursday. *)
Definition thursday_of (o : Z) : Z := o - Calendar.isoweekday_ord o + 4.

(** [dt.replace(microsecond=us)]. *)
Definition replace_microsecond (dt : datetime) (us : Z) : datetime :=
  mkDatetime (ordinal dt) (hour dt) (minute dt) (second dt) us (tz dt).

(** What [ensure_user] writes back for an existing record. *)
Definition touched (rec : UserRecord) (tier now : string) : UserRecord :=
  let rec := set_user_last_login rec now in
  if PyStr.truthy tier && negb (PyStr.truthy (user_tier rec))
  then set_user_tier rec tier else rec.

(** The credit balance stored for an email, if a user record is stored. *)
Definition stored_credits (m : gmap string dbval) (email : string) : option Z :=
  match m !! k_user email with
  | Some (DUser rec) => Some (user_credits rec)
  | _ => None
  end.

(** The history stored for an email ([get_history] on the store). *)
Definition stored_history (m : gmap string dbval) (email : string) : list RunRecord :=
  match m !! k_history email with
  | Some (DHistory hist) => hist
  | _ => []
  end.

(** The history key of an email is free or holds a list. *)
Definition history_slot_ok (m : gmap string dbval) (email : string) : Prop :=
  match m !! k_history email with
  | None | Some (DHistory _) => True
  | Some _ => False
  end.

(** Every key holds a value of the shape its prefix announces, which is how
    the program writes the store. *)
Definition entry_typed (k : string) (v : dbval) : bool :=
  match v with
  | DUser _ => String.prefix "user:" k
  | DCode _ => String.prefix "code:" k
  | DHistory _ => String.prefix "history:" k
  | DCache _ => String.prefix "cache:" k
  end.

Definition store_typed (m : gmap string dbval) : Prop :=
  map_Forall (fun k v => entry_typed k v = true) m.

(** The key under which an item of [SEED_CODES] is stored. *)
Definition seed_key (item : string * string) : string := k_code (fst item).

(** The record [seed_demo_codes_if_missing] writes for an item of
    [SEED_CODES] at time [dt], with the expiry [e] of that week. *)
Definition seed_record (to_iso : datetime -> string) (dt e : datetime)
    (item : string * string) : CodeRecord :=
  mkCode (fst item) "" (snd item) (iso_week_id dt) (to_iso e) (to_iso dt).

(** The value seeding gives to a key that was free: the record of the first
    item with that key, if any. *)
Definition seed_entry (to_iso : datetime -> string) (dt e : datetime)
    (items : list (string * string)) (k : string) : option dbval :=
  match find (fun item => bool_decide (k_code (fst item) = k)) items with
  | Some item => Some (DCode (seed_record to_iso dt e item))
  | None => None
  end.

(** The seed codes whose key is absent from a store. *)
Definition missing_seeds (m : gmap string dbval) : list (string * string) :=
  filter (fun item => m !! k_code (fst item) = None) SEED_CODES.

(** ** A reference environment

    A concrete instance of the environment, to run the program model on
    concrete inputs: [isoformat] writes YYYY-MM-DDTHH:MM:SS[.ffffff][+HH:MM],
    [fromisoformat] reads that format back, the zone is taken at its standard
    offset (UTC-5), and the clock starts on Wednesday 2026-01-07 at 10:00:00
    and advances by one second per reading. *)
Module Ref.

Fixpoint zeros (n : nat) : string :=
  match n with O => "" | S n => "0" ++ zeros n end.

Definition zpad (width : nat) (n : Z) : string :=
  let s := pretty n in zeros (width - String.length s) ++ s.

Definition offset_text (off : option Z) : string :=
  match off with
  | None => ""
  | Some s =>
      let a := Z.abs s in
      (if s <? 0 then "-" else "+") ++ zpad 2 (a / 3600) ++ ":" ++ zpad 2 (a mod 3600 / 60)
  end.

Definition et_utcoffset (dt : datetime) : Z := -18000.

Definition offset_of (dt : datetime) : option Z :=
  match tz dt with
  | Naive => None
  | ZoneET => Some (et_utcoffset dt)
  | FixedOffset s => Some s
  end.

Definition isoformat (dt : datetime) : string :=
  let '(y, m, d) := Calendar.ord2ymd (ordinal dt) in
  zpad 4 y ++ "-" ++ zpad 2 m ++ "-" ++ zpad 2 d ++ "T" ++
  zpad 2 (hour dt) ++ ":" ++ zpad 2 (minute dt) ++ ":" ++ zpad 2 (second dt) ++
  (if microsecond dt =? 0 then "" else "." ++ zpad 6 (microsecond dt)) ++
  offset_text (offset_of dt).

Fixpoint digits_val (s : string) (acc : Z) : option Z :=
  match s with
  | EmptyString => Some acc
  | String c r =>
      let n := N_of_ascii c in
      if ((48 <=? n) && (n <=? 57))%N
      then digits_val r (acc * 10 + Z.of_N (n - 48))
      else None
  end.

Definition num (s : string) (start len : nat) : option Z :=
  let t := substring start len s in
  if Nat.eqb (String.length t) len then digits_val t 0 else None.

Definition lit (s : string) (start : nat) (c : string) : option unit :=
  if String.eqb (substring start 1 s) c then Some tt else None.

Definition parse_offset (s : string) : option tzinfo :=
  if String.eqb s "" then Some Naive
  else
    sign ← (if String.eqb (substring 0 1 s) "+" then Some 1
            else if String.eqb (substring 0 1 s) "-" then Some (-1) else None);
    hh ← num s 1 2;
    _ ← lit s 3 ":";
    mm ← num s 4 2;
    if Nat.eqb (String.length s) 6 && (hh <? 24) && (mm <? 60)
    then Some (FixedOffset (sign * (hh * 3600 + mm * 60))) else None.

Definition fromisoformat (s : string) : option datetime :=
  y ← num s 0 4;
  _ ← lit s 4 "-";
  m ← num s 5 2;
  _ ← lit s 7 "-";
  d ← num s 8 2;
  _ ← lit s 10 "T";
  hh ← num s 11 2;
  _ ← lit s 13 ":";
  mi ← num s 14 2;
  _ ← lit s 16 ":";
  ss ← num s 17 2;
  let rest := substring 19 (String.length s - 19) s in
  '(us, rest) ← (if String.eqb (substring 0 1 rest) "."
                 then us ← num rest 1 6;
                      Some (us, substring 7 (String.length rest - 7) rest)
                 else Some (0, rest));
  zone ← parse_offset rest;
  if (1 <=? y) && (y <=? 9999) && (1 <=? m) && (m <=? 12) && (1 <=? d)
     && (d <=? Calendar.days_in_month y m) && (hh <? 24) && (mi <? 60) && (ss <? 60)
  then Some (mkDatetime (Calendar.ymd2ord y m d) hh mi ss us zone)
  else None.

Definition clock (n : nat) : datetime :=
  let s := Z.of_nat n in
  mkDatetime 739623 10 (s / 60 mod 60) (s mod 60) 0 ZoneET.

(** A stand-in for the SHA-256 digest: the concatenated values. *)
Definition sha256_json (d : list (string * string)) : string :=
  String.concat "|" (map snd d).

Definition sunday_2026_01_11 : datetime := mkDatetime 739627 23 59 59 1 ZoneET.
Definition monday_9999_12_27 : datetime := mkDatetime 3652055 12 0 0 0 ZoneET.

(** A user, a code issued to nobody yet, and worlds that hold them. *)
Definition alice : string := " Alice@Example.com".

Definition alice_record : UserRecord :=
  mkUser "alice@example.com" 2 "general"
         "2026-01-05T09:00:00-05:00" "2026-01-05T09:00:00-05:00".

Definition open_code : CodeRecord :=
  mkCode "GEN-2026W02-2J9L4C" "" "general" "2026W02"
         "2026-01-11T23:59:59-05:00" "2026-01-05T09:00:00-05:00".

Definition stale_code : CodeRecord :=
  mkCode "GEN-2026W01-0A1B2C" "" "general" "2026W01"
         "2026-01-04T23:59:59-05:00" "2025-12-29T09:00:00-05:00".

Definition bob_code : CodeRecord :=
  mkCode "VIP-2026W02-5K2Y9N" "bob@example.com" "vip" "2026W02"
         "2026-01-11T23:59:59-05:00" "2026-01-05T09:00:00-05:00".

Definition world_empty : World := mkWorld ∅ 0.

Definition world_alice : World :=
  mkWorld (<[k_user alice := DUser alice_record]> ∅) 0.

Definition world_codes : World :=
  mkWorld (<[k_code "GEN-2026W02-2J9L4C" := DCode open_code]>
           (<[k_code "GEN-2026W01-0A1B2C" := DCode stale_code]>
            (<[k_code "VIP-2026W02-5K2Y9N" := DCode bob_code]> ∅))) 0.

Definition form : AgentInputs :=
  mkInputs "BioMarin" "https://www.biomarin.com" "CIO"
           "We provide AI-driven logistics optimization." "" "" "" "sonar" true.

Definition no_contact : ContactInputs := mkContact "" "" false.

Definition api_down (company website persona value_prop initiative region competitor
                     model : string) : Res Brief :=
  Raise (ValueError "Perplexity error 500: unavailable").

Definition api_up (company website persona value_prop initiative region competitor
                   model : string) : Res Brief :=
  Ok ("{company: " ++ company ++ "}").

(** The API-key secret is missing: [must_env] stops the script at the first
    statement of [perplexity_brief]. *)
Definition api_no_key (company website persona value_prop initiative region competitor
                       model : string) : Res Brief :=
  Stopped.

Definition post_accepted (url : string) (payload : Payload) : http_outcome :=
  HttpResponse 200 "Accepted".

Definition post_unreachable (url : string) (payload : Payload) : http_outcome :=
  HttpRaises (Exn "ConnectionError" "Max retries exceeded").

Definition run_visit : AgentVisit :=
  mkVisit "general" no_contact form post_accepted api_up.

Definition run_record : RunRecord :=
  mkRun "2026-01-07T10:00:02-05:00" "BioMarin" "CIO" "sonar" 1 "{company: BioMarin}".

End Ref.

(** ** Text wrapping for the PDF

    [str.split()] cuts a text at runs of whitespace and keeps no empty piece;
    [" ".join] is [String.concat " "]; [len] is the number of characters. *)

Fixpoint split_from (s : string) (word : string) : list string :=
  match s with
  | EmptyString => if PyStr.truthy word then [word] else []
  | String c r =>
      if PyStr.isspace c then
        if PyStr.truthy word then word :: split_from r EmptyString
        else split_from r EmptyString
      else split_from r (word ++ String c EmptyString)
  end.

Definition str_split (s : string) : list string := split_from s EmptyString.

Definition str_join (words : list string) : string := String.concat " " words.

Definition str_len (s : string) : Z := Z.of_nat (String.length s).

Definition nonempty {A} (l : list A) : bool :=
  match l with [] => false | _ => true end.

(** The loop of [wrap_text] over the remaining words, with the lines
    emitted so far, the words of the current line and their width. *)
Fixpoint wrap_loop (words : list string) (max_chars : Z)
    (lines : list string) (cur : list string) (count : Z) : list string :=
  match words with
  | [] => if nonempty cur then lines ++ [str_join cur] else lines
  | w :: rest =>
      let add := str_len w + (if nonempty cur then 1 else 0) in
      if count + add >? max_chars then
        wrap_loop rest max_chars (lines ++ [str_join cur]) [w] (str_len w)
      else
        wrap_loop rest max_chars lines (cur ++ [w]) (count + add)
  end.

Definition wrap_text (text : string) (max_chars : Z) : list string :=
  let words := str_split text in
  wrap_loop words max_chars [] [] 0.

(** A word: not empty and free of whitespace. *)
Fixpoint no_space (s : string) : bool :=
  match s with
  | EmptyString => true
  | String c r => negb (PyStr.isspace c) && no_space r
  end.

Definition is_word (s : string) : Prop :=
  PyStr.truthy s = true /\ no_space s = true.

(** ** Emails that differ in letter case or padding

    These notions are stated on the characters themselves, without [lower]
    and [strip]. Two characters are the same letter when they are equal or
    are the capital (codes 65-90) and the small form (32 higher) of one
    letter. *)
Definition same_letter (c d : ascii) : bool :=
  let n := N_of_ascii c in
  let m := N_of_ascii d in
  ((n =? m) || (((65 <=? n) && (n <=? 90)) && (m =? n + 32))
            || (((65 <=? m) && (m <=? 90)) && (n =? m + 32)))%N.

Fixpoint same_ignoring_case (a b : string) : bool :=
  match a, b with
  | EmptyString, EmptyString => true
  | String c r, String d r' => same_letter c d && same_ignoring_case r r'
  | _, _ => false
  end.

(** Tab, line feed, vertical tab, form feed, carriage return, the four
    separators and the space. *)
Definition whitespace : list ascii :=
  map ascii_of_nat [9; 10; 11; 12; 13; 28; 29; 30; 31; 32]%nat.

Definition is_whitespace (c : ascii) : bool := existsb (Ascii.eqb c) whitespace.

Fixpoint is_padding (s : string) : bool :=
  match s with
  | EmptyString => true
  | String c r => is_whitespace c && is_padding r
  end.

Definition is_capital (c : ascii) : bool :=
  let n := N_of_ascii c in ((65 <=? n) && (n <=? 90))%N.

(** A text without capital letter and without whitespace. *)
Fixpoint plain (s : string) : bool :=
  match s with
  | EmptyString => true
  | String c r => negb (is_capital c) && negb (is_whitespace c) && plain r
  end.

(** The Monday that opens the Monday-to-Sunday week of an ordinal. *)
Definition monday_of (o : Z) : Z := o - Calendar.isoweekday_ord o + 1.

(** ** Sequences of operations *)

(** Whether a rendering of the agent page kept the credit it took: it did
    when it showed a brief and when the script was stopped inside the run. *)
Definition takes_credit (r : Res agent_view) : nat :=
  match r with
  | Ok (ViewBrief _) => 1
  | Stopped => 1
  | _ => 0
  end.

(** The number of credits taken over a sequence of renderings, and the world
    it leaves. *)
Fixpoint visits_outcome (clock : nat -> datetime) (to_iso : datetime -> string)
    (sha256_json : list (string * string) -> string)
    (make_contact_url email : string) (visits : list AgentVisit) (w : World)
  : nat * World :=
  match visits with
  | [] => (O, w)
  | v :: rest =>
      let '(r, w') := visit clock to_iso sha256_json make_contact_url email v w in
      let '(n, w'') := visits_outcome clock to_iso sha256_json make_contact_url email
                                      rest w' in
      ((takes_credit r + n)%nat, w'')
  end.

(** [save_history] called for each payload of a list, in order. *)
Fixpoint save_all (email : string) (payloads : list RunRecord) : M unit :=
  match payloads with
  | [] => ret tt
  | p :: rest => save_history email p ;; save_all email rest
  end.

(** ** Session state and the remaining pages *)

(** The four entries of [st.session_state] the program uses. *)
Record Session : Type := mkSession {
  logged_in : bool;
  sess_email : string;
  sess_tier : string;
  is_admin : bool
}.

Definition fresh_session : Session := mkSession false "" "general" false.

(** [init_state]: the defaults are set only where nothing is set yet. *)
Definition init_state (state : option Session) : Session :=
  match state with
  | None => fresh_session
  | Some s => s
  end.

Definition logout (s : Session) : Session := mkSession false "" "general" false.

(** What one rendering of the login form ends with; [LoginRerun] is
    [st.success(msg)] followed by [st.rerun()]. *)
Inductive login_view : Type :=
  | LoginIdle
  | LoginError (msg : string)
  | LoginRerun (msg : string).

(** What one rendering of the request-access form ends with. *)
Inductive access_view : Type :=
  | AccessIdle
  | AccessMissing
  | AccessSubmitted
  | AccessFailed (status : Z) (body : string).

Record AccessInputs : Type := mkAccess {
  acc_first : string;
  acc_last : string;
  acc_email : string;
  acc_company : string;
  acc_title : string;
  acc_linkedin : string;
  acc_reason : string;
  acc_submitted : bool
}.

(** The widgets of the admin page: the password, the seed button, and the
    three forms with their submit buttons; [adm_token] stands for the token
    drawn if a code is created. *)
Record AdminInputs : Type := mkAdmin {
  adm_pw : string;
  adm_seed : bool;
  adm_create_email : string;
  adm_create_tier : string;
  adm_create_submit : bool;
  adm_token : string;
  adm_bind_code : string;
  adm_bind_email : string;
  adm_bind_submit : bool;
  adm_credits_email : string;
  adm_credits : Z;
  adm_credits_submit : bool;
  adm_lookup : string
}.

(** What the admin page displays, in order. *)
Inductive admin_event : Type :=
  | AdminLocked
  | AdminSeeded (created : Z) (week_id expires : string)
  | AdminEmailRequired
  | AdminCodeCreated (code : string)
  | AdminBound (ok : bool) (msg : string)
  | AdminCreditsUpdated
  | AdminLookup (found : option dbval).

Section Pages.

Variable clock : nat -> datetime.
Variable to_iso : datetime -> string.
Variable parse_iso : string -> option datetime.
Variable et_utcoffset : datetime -> Z.

Definition render_request_access
    (requests_post : string -> Payload -> http_outcome)
    (make_signup_url : string) (inp : AccessInputs) : M access_view :=
  if negb (acc_submitted inp) then ret AccessIdle
  else
    let required := [acc_first inp; acc_last inp; acc_email inp; acc_company inp;
                     acc_title inp; acc_linkedin inp; acc_reason inp] in
    if existsb (fun x => negb (PyStr.truthy (PyStr.strip x))) required then
      ret AccessMissing
    else
      do t <- now_et clock;
      let payload := [ ("first_name", PyStr.strip (acc_first inp));
                       ("last_name", PyStr.strip (acc_last inp));
                       ("email", PyStr.strip (acc_email inp));
                       ("company", PyStr.strip (acc_company inp));
                       ("title", PyStr.strip (acc_title inp));
                       ("linkedin", PyStr.strip (acc_linkedin inp));
                       ("reason", PyStr.strip (acc_reason inp));
                       ("submitted_at", to_iso t) ] in
      do reply <- post_webhook requests_post make_signup_url payload;
      let '(code, body) := reply in
      if negb (code =? 0) && ((200 <=? code) && (code <? 300)) then ret AccessSubmitted
      else ret (AccessFailed code body).

(** [render_login]: the session is threaded beside the world, so that what
    was assigned before a failure stays assigned. *)
Definition render_login (owner_email owner_code : string)
    (email_input code_input : string) (submitted : bool)
    (s : Session) (w : World) : Res login_view * Session * World :=
  let email := PyStr.lower (PyStr.strip email_input) in
  let code := PyStr.strip code_input in
  if negb submitted then (Ok LoginIdle, s, w)
  else if negb (PyStr.truthy email) || negb (PyStr.truthy code) then
    (Ok (LoginError "Please enter both email and access code."), s, w)
  else if String.eqb email (PyStr.strip (PyStr.lower owner_email))
          && String.eqb code owner_code then
    (* Owner bypass (admin) *)
    let s1 := mkSession true email "owner" true in
    match ensure_user clock to_iso email "owner" w with
    | (Ok _, w1) => (Ok (LoginRerun "Logged in as owner/admin."), s1, w1)
    | (Raise e, w1) => (Raise e, s1, w1)
    | (Stopped, w1) => (Stopped, s1, w1)
    end
  else
    match validate_login_code clock parse_iso et_utcoffset email code w with
    | (Ok (LoginFailed msg), w1) => (Ok (LoginError msg), s, w1)
    | (Ok (LoginOk code_rec), w1) =>
        let tier := code_tier code_rec in
        match ensure_user clock to_iso email tier w1 with
        | (Ok user, w2) =>
            (Ok (LoginRerun "Logged in."), mkSession true email (user_tier user) false, w2)
        | (Raise e, w2) => (Raise e, s, w2)
        | (Stopped, w2) => (Stopped, s, w2)
        end
    | (Raise e, w1) => (Raise e, s, w1)
    | (Stopped, w1) => (Stopped, s, w1)
    end.

Definition render_admin (admin_password : string) (inp : AdminInputs)
  : M (list admin_event) :=
  if negb (String.eqb (adm_pw inp) admin_password) then ret [AdminLocked]
  else
    (* 1) Seed this week's demo codes *)
    do ev1 <- (if adm_seed inp then
                 do r <- seed_demo_codes_if_missing clock to_iso;
                 let '(created, week_id, expires) := r in
                 ret [AdminSeeded created week_id expires]
               else ret []);
    (* 2) Create a new code for a specific email *)
    do ev2 <- (if adm_create_submit inp then
                 if negb (PyStr.truthy (PyStr.strip (adm_create_email inp))) then
                   ret [AdminEmailRequired]
                 else
                   do rec <- create_code_for_email clock to_iso (adm_token inp)
                               (PyStr.strip (adm_create_email inp)) (adm_create_tier inp);
                   ret [AdminCodeCreated (code_code rec)]
               else ret []);
    (* 3) Bind an unbound seeded code to an email *)
    do ev3 <- (if adm_bind_submit inp then
                 do r <- bind_unbound_code_to_email (PyStr.strip (adm_bind_code inp))
                           (PyStr.strip (adm_bind_email inp));
                 let '(ok, msg) := r in
                 ret [AdminBound ok msg]
               else ret []);
    (* 4) Add credits to a user (manual override) *)
    do ev4 <- (if adm_credits_submit inp then
                 update_user_credits clock to_iso (PyStr.strip (adm_credits_email inp))
                                     (adm_credits inp) ;;
                 ret [AdminCreditsUpdated]
               else ret []);
    (* 5) Quick lookup *)
    do ev5 <- (if PyStr.truthy (PyStr.strip (adm_lookup inp)) then
                 do rec <- db_get (k_user (PyStr.lower (PyStr.strip (adm_lookup inp))));
                 ret [AdminLookup rec]
               else ret []);
    ret (ev1 ++ ev2 ++ ev3 ++ ev4 ++ ev5)%list.

End Pages.

(** ** The script

    [os.getenv] is a function from names to optional values. [must_env]
    stops the script on a name that is unset or set to the empty string;
    [None] stands for that stop. *)
Definition must_env (getenv : string -> option string) (key : string) : option string :=
  match getenv key with
  | Some val => if PyStr.truthy val then Some val else None
  | None => None
  end.

Definition optional_env (getenv : string -> option string) (key default : string)
  : string :=
  match getenv key with
  | Some val => val
  | None => default
  end.

(** The five secrets [main] requires, read in the order of the source. *)
Record Secrets : Type := mkSecrets {
  MAKE_WEBHOOK_SIGNUP_URL : string;
  MAKE_WEBHOOK_CONTACT_URL : string;
  OWNER_EMAIL : string;
  OWNER_ACCESS_CODE : string;
  ADMIN_PASSWORD : string
}.

Definition required_secrets (getenv : string -> option string) : option Secrets :=
  match must_env getenv "MAKE_WEBHOOK_SIGNUP_URL" with
  | None => None
  | Some signup =>
  match must_env getenv "MAKE_WEBHOOK_CONTACT_URL" with
  | None => None
  | Some contact =>
  match must_env getenv "OWNER_EMAIL" with
  | None => None
  | Some owner =>
  match must_env getenv "OWNER_ACCESS_CODE" with
  | None => None
  | Some code =>
  match must_env getenv "ADMIN_PASSWORD" with
  | None => None
  | Some pw => Some (mkSecrets signup contact owner code pw)
  end end end end end.

(** The widgets of one script run: the logout button, the admin widgets,
    the two forms of the agent page, the request-access form and the login
    form. *)
Record MainInputs : Type := mkMain {
  ui_logout : bool;
  ui_admin : AdminInputs;
  ui_contact : ContactInputs;
  ui_form : AgentInputs;
  ui_access : AccessInputs;
  ui_login_email : string;
  ui_login_code : string;
  ui_login_submit : bool
}.

(** What one script run displays. *)
Inductive main_view : Type :=
  | MainLoggedOut                       (* [logout()] and [st.rerun()] *)
  | MainApp (admin : option (list admin_event)) (agent : agent_view)
            (history : list RunRecord)
  | MainGate (access : access_view) (login : login_view).

(** A computation writes only keys of [P] when, however it ends, every other
    key holds what it held before. *)
Definition writes_only {A} (P : string -> Prop) (m : M A) : Prop :=
  forall w r w', m w = (r, w') -> forall k, ~ P k -> db w' !! k = db w !! k.

(** The keys a logged-in user's pages may write. *)
Definition own_key (email : string) (k : string) : Prop :=
  k = k_user email \/ k = k_history email \/ String.prefix "cache:" k = true.

Section Script.

Variable clock : nat -> datetime.
Variable to_iso : datetime -> string.
Variable parse_iso : string -> option datetime.
Variable et_utcoffset : datetime -> Z.
Variable sha256_json : list (string * string) -> string.
Variable getenv : string -> option string.
Variable requests_post : string -> Payload -> http_outcome.
Variable perplexity_brief :
  string -> string -> string -> string -> string -> string -> string -> string ->
  Res Brief.

(** [render_history] displays the list [get_history] returns. *)
Definition render_history (email : string) : M (list RunRecord) :=
  get_history email.

(** The three tabs of a logged-in session, in the order they are rendered. *)
Definition app_pages (secrets : Secrets) (s : Session) (ui : MainInputs)
  : M main_view :=
  do admin <- (if is_admin s then
                 do events <- render_admin clock to_iso (ADMIN_PASSWORD secrets)
                                           (ui_admin ui);
                 ret (Some events)
               else ret None);
  do agent <- render_agent clock to_iso sha256_json requests_post perplexity_brief
                (MAKE_WEBHOOK_CONTACT_URL secrets) (sess_email s) (sess_tier s)
                (ui_contact ui) (ui_form ui);
  do history <- render_history (sess_email s);
  ret (MainApp admin agent history).

Definition main (state : option Session) (ui : MainInputs) (w : World)
  : Res main_view * Session * World :=
  let s := init_state state in
  match required_secrets getenv with
  | None => (Stopped, s, w)
  | Some secrets =>
      if logged_in s then
        if ui_logout ui then (Ok MainLoggedOut, logout s, w)
        else
          let '(r, w') := app_pages secrets s ui w in
          (r, s, w')
      else
        match render_request_access clock to_iso requests_post
                (MAKE_WEBHOOK_SIGNUP_URL secrets) (ui_access ui) w with
        | (Ok access, w1) =>
            let '(r, s', w2) :=
              render_login clock to_iso parse_iso et_utcoffset
                (OWNER_EMAIL secrets) (OWNER_ACCESS_CODE secrets)
                (ui_login_email ui) (ui_login_code ui) (ui_login_submit ui) s w1 in
            (match r with
             | Ok login => Ok (MainGate access login)
             | Raise e => Raise e
             | Stopped => Stopped
             end, s', w2)
        | (Raise e, w1) => (Raise e, s, w1)
        | (Stopped, w1) => (Stopped, s, w1)
        end
  end.

End Script.

(** ** More reference data *)
Module Demo.

Definition owner_email : string := "Owner@Example.com".
Definition owner_code : string := "KBUILDSAI2026".
Definition admin_password : string := "s3cret".

Definition broken_code : CodeRecord :=
  mkCode "GEN-2026W02-BADEXP" "" "general" "2026W02" "next sunday"
         "2026-01-05T09:00:00-05:00".

Definition world_broken : World :=
  mkWorld (<[k_code "GEN-2026W02-BADEXP" := DCode broken_code]> ∅) 0.

(** Alice's account with the codes of [Ref.world_codes]. *)
Definition world_login : World :=
  mkWorld (<[k_user Ref.alice := DUser Ref.alice_record]> (db Ref.world_codes)) 0.

Definition failing_visit : AgentVisit :=
  mkVisit "general" Ref.no_contact Ref.form Ref.post_accepted Ref.api_down.

Definition older_run : RunRecord :=
  mkRun "2026-01-06T09:00:00-05:00" "Acme" "CFO" "sonar" 1 "{company: Acme}".

Definition no_admin_action : AdminInputs :=
  mkAdmin "s3cret" false "" "general" true "A1B2C3" "" "" false "" 2 false "alice@example.com".

Definition set_credits_action : AdminInputs :=
  mkAdmin "s3cret" false "" "general" false "A1B2C3" "" "" false " Alice@Example.com" 5 true "".

Definition access_request : AccessInputs :=
  mkAccess "Ada" "Lovelace" "ada@example.com" "Analytical Engines" "Engineer"
           "https://linkedin.example/ada" "Evaluating the agent." true.

Definition blank_request : AccessInputs :=
  mkAccess "Ada" "  " "ada@example.com" "Analytical Engines" "Engineer"
           "https://linkedin.example/ada" "Evaluating the agent." true.

(** An environment with the five required secrets, and one without the
    admin password. *)
Definition getenv (key : string) : option string :=
  if String.eqb key "MAKE_WEBHOOK_SIGNUP_URL" then Some "https://hook.example/signup"
  else if String.eqb key "MAKE_WEBHOOK_CONTACT_URL" then Some "https://hook.example/contact"
  else if String.eqb key "OWNER_EMAIL" then Some owner_email
  else if String.eqb key "OWNER_ACCESS_CODE" then Some owner_code
  else if String.eqb key "ADMIN_PASSWORD" then Some admin_password
  else None.

Definition getenv_blank_password (key : string) : option string :=
  if String.eqb key "ADMIN_PASSWORD" then Some "" else getenv key.

Definition alice_session : Session := mkSession true "alice@example.com" "general" false.

(** Alice runs the agent; the widgets of the pages she cannot see hold an
    admin action and a login. *)
Definition run_click : MainInputs :=
  mkMain false set_credits_action Ref.no_contact Ref.form access_request
         "bob@example.com" "VIP-2026W02-5K2Y9N" true.

(** A visitor submits the access request and a code bound to Bob under
    Alice's email. *)
Definition visitor_click : MainInputs :=
  mkMain false set_credits_action Ref.no_contact Ref.form access_request
         "alice@example.com" "VIP-2026W02-5K2Y9N" true.

End Demo.


(** * Properties *)

(** ** The model on known values *)

Example ordinal_2026_01_11 : Calendar.ymd2ord 2026 1 11 = 739627.
Proof. reflexivity. Qed.

Example ymd_of_ordinal_739627 : Calendar.ord2ymd 739627 = (2026, 1, 11).
Proof. reflexivity. Qed.

Example last_ordinal : Calendar.ymd2ord 9999 12 31 = Calendar.MAXORDINAL.
Proof. reflexivity. Qed.

Example isocalendar_2026_01_11 :
  Calendar.isocalendar_ord (Calendar.ymd2ord 2026 1 11) = (2026, 2, 7).
Proof. reflexivity. Qed.

Example isocalendar_2027_01_01 :
  Calendar.isocalendar_ord (Calendar.ymd2ord 2027 1 1) = (2026, 53, 5).
Proof. reflexivity. Qed.

Example isocalendar_2024_12_30 :
  Calendar.isocalendar_ord (Calendar.ymd2ord 2024 12 30) = (2025, 1, 1).
Proof. reflexivity. Qed.

Example iso_week_id_first_week :
  iso_week_id (mkDatetime (Calendar.ymd2ord 2024 12 30) 8 0 0 0 ZoneET) = "2025W01".
Proof. reflexivity. Qed.

Example k_user_normalises : k_user "  Alice@Example.COM " = "user:alice@example.com".
Proof. reflexivity. Qed.

Example isoformat_round_trip :
  Ref.fromisoformat (Ref.isoformat (Ref.clock 3))
  = Some (mkDatetime 739623 10 0 3 0 (FixedOffset (-18000))).
Proof. reflexivity. Qed.

(** ** Calendar facts *)
Section CalendarFacts.
Import Calendar.

Lemma year_length (y : Z) :
  365 <= days_before_year (y + 1) - days_before_year y <= 366.
Proof.
  unfold days_before_year. cbv zeta.
  replace (y + 1 - 1) with (y - 1 + 1) by lia.
  generalize (y - 1). intros z.
  Z.div_mod_to_equations. lia.
Qed.

Lemma days_before_year_mono (a b : Z) :
  a <= b -> days_before_year a <= days_before_year b.
Proof.
  intros Hab. unfold days_before_year. cbv zeta.
  Z.div_mod_to_equations. lia.
Qed.

(** The year computed from an ordinal is the year whose days contain it. *)
Lemma ord2year_spec (n : Z) :
  days_before_year (ord2year n) < n <= days_before_year (ord2year n + 1).
Proof.
  unfold ord2year, days_before_year. cbv zeta.
  destruct ((_ =? 4) || (_ =? 4)) eqn:E.
  - apply orb_true_iff in E. rewrite !Z.eqb_eq in E.
    Z.div_mod_to_equations. lia.
  - apply orb_false_iff in E. rewrite !Z.eqb_neq in E.
    Z.div_mod_to_equations. lia.
Qed.

Lemma ord2year_unique (n y : Z) :
  days_before_year y < n <= days_before_year (y + 1) -> ord2year n = y.
Proof.
  intros H. pose proof (ord2year_spec n) as S.
  destruct (Z.lt_trichotomy (ord2year n) y) as [L | [E | G]]; [| exact E |].
  - pose proof (days_before_year_mono (ord2year n + 1) y ltac:(lia)). lia.
  - pose proof (days_before_year_mono (y + 1) (ord2year n) ltac:(lia)). lia.
Qed.

Lemma ord2ymd_year (n : Z) : fst (fst (ord2ymd n)) = ord2year n.
Proof.
  unfold ord2ymd, ord2year. cbv zeta.
  destruct ((_ =? 4) || (_ =? 4)); [reflexivity |].
  destruct (_ >? _); reflexivity.
Qed.

Lemma first_day (y : Z) : ymd2ord y 1 1 = days_before_year y + 1.
Proof. unfold ymd2ord, days_before_month. simpl. lia. Qed.

Ltac split_ifs :=
  repeat match goal with
  | |- context [if ?b then _ else _] =>
      let E := fresh "E" in destruct b eqn:E
  end;
  repeat match goal with
  | H : (_ =? _) = true |- _ => apply Z.eqb_eq in H
  | H : (_ =? _) = false |- _ => apply Z.eqb_neq in H
  | H : (_ >? _) = true |- _ => rewrite Z.gtb_ltb in H; apply Z.ltb_lt in H
  | H : (_ >? _) = false |- _ => rewrite Z.gtb_ltb in H; apply Z.ltb_ge in H
  | H : (_ <? _) = true |- _ => apply Z.ltb_lt in H
  | H : (_ <? _) = false |- _ => apply Z.ltb_ge in H
  end.

(** Where the Thursday of a day's week lies with respect to the year of the
    day, case by case as [isocalendar] distinguishes them. *)
Lemma thursday_position (o : Z) :
  let y := ord2year o in
  let T := thursday_of o in
  let week := (o - isoweek1monday y) / 7 in
  (days_before_year (y - 1) < T <= days_before_year y /\ week < 0 /\
     (T - (days_before_year (y - 1) + 1)) / 7 = (o - isoweek1monday (y - 1)) / 7)
  \/ (days_before_year y < T <= days_before_year (y + 1) /\ 0 <= week /\
     (week < 52 \/ o < isoweek1monday (y + 1)) /\
     (T - (days_before_year y + 1)) / 7 = week)
  \/ (days_before_year (y + 1) < T <= days_before_year (y + 1 + 1) /\ 52 <= week /\
     isoweek1monday (y + 1) <= o /\
     (T - (days_before_year (y + 1) + 1)) / 7 = 0).
Proof.
  intros y T week. subst T week.
  pose proof (ord2year_spec o) as S. fold y in S.
  pose proof (year_length (y - 1)) as L0.
  pose proof (year_length y) as L1.
  pose proof (year_length (y + 1)) as L2.
  replace (y - 1 + 1) with y in L0 by lia.
  unfold thursday_of, isoweekday_ord, isoweek1monday. rewrite !first_day.
  revert S L0 L1 L2.
  generalize (days_before_year (y - 1)) (days_before_year y)
             (days_before_year (y + 1)) (days_before_year (y + 1 + 1)).
  intros D0 D1 D2 D3 S L0 L1 L2. cbv zeta.
  split_ifs; Z.div_mod_to_equations; lia.
Qed.

(** [isocalendar] returns the year that holds the Thursday of the week and
    the rank of that Thursday among the Thursdays of the year. *)
Lemma isocalendar_by_thursday (o : Z) :
  fst (isocalendar_ord o) =
  (ord2year (thursday_of o),
   (thursday_of o - ymd2ord (ord2year (thursday_of o)) 1 1) / 7 + 1).
Proof.
  pose proof (thursday_position o) as P. cbv zeta in P.
  unfold isocalendar_ord. cbv zeta.
  set (y := ord2year o) in *.
  set (week := (o - isoweek1monday y) / 7) in *.
  destruct P as [(HT & Hw & Hq) | [(HT & Hw & Hor & Hq) | (HT & Hw & Hge & Hq)]].
  - replace (y - 1 + 1) with y in * by lia.
    rewrite (ord2year_unique _ (y - 1)) by (replace (y - 1 + 1) with y by lia; exact HT).
    rewrite first_day.
    destruct (Z.ltb_spec week 0); [| lia]. simpl. rewrite Hq. reflexivity.
  - rewrite (ord2year_unique _ y HT), first_day.
    destruct (Z.ltb_spec week 0); [lia |].
    destruct ((week >=? 52) && (o >=? isoweek1monday (y + 1))) eqn:E.
    + apply andb_true_iff in E. destruct E as [E1 E2].
      rewrite Z.geb_leb in E1, E2. apply Z.leb_le in E1, E2. lia.
    + simpl. rewrite Hq. reflexivity.
  - rewrite (ord2year_unique _ (y + 1) HT), first_day.
    destruct (Z.ltb_spec week 0); [lia |].
    destruct ((week >=? 52) && (o >=? isoweek1monday (y + 1))) eqn:E.
    + simpl. rewrite Hq. reflexivity.
    + apply andb_false_iff in E. rewrite !Z.geb_leb in E.
      destruct E as [E | E]; apply Z.leb_gt in E; lia.
Qed.

Lemma isoweekday_range (o : Z) : 1 <= isoweekday_ord o <= 7.
Proof. unfold isoweekday_ord. split_ifs; Z.div_mod_to_equations; lia. Qed.

Lemma sunday_isoweekday (o : Z) :
  isoweekday_ord (o + (7 - isoweekday_ord o)) = 7.
Proof. unfold isoweekday_ord. split_ifs; Z.div_mod_to_equations; lia. Qed.

Lemma sunday_thursday (o : Z) :
  thursday_of (o + (7 - isoweekday_ord o)) = thursday_of o.
Proof. unfold thursday_of. rewrite sunday_isoweekday. lia. Qed.

(** The Sunday that closes a day's week has the ISO year and week of the day. *)
Lemma sunday_same_iso_week (o : Z) :
  fst (isocalendar_ord (o + (7 - isoweekday_ord o))) = fst (isocalendar_ord o).
Proof. rewrite !isocalendar_by_thursday, sunday_thursday. reflexivity. Qed.

End CalendarFacts.

(** ** Week expiry and code issuance *)
Section ExpiryClaims.

Variable clock : nat -> datetime.
Variable to_iso : datetime -> string.
Variable et_utcoffset : datetime -> Z.

Lemma dt_lt_same_tz (a b : datetime) :
  tz a = tz b -> dt_lt et_utcoffset a b = Ok (wall_lt a b).
Proof.
  intros H. unfold dt_lt, utcoffset. rewrite H.
  destruct (tz b); simpl; try reflexivity.
  rewrite Z.eqb_refl. reflexivity.
Qed.

Lemma week_expiry_value (dt : datetime) :
  1 <= ordinal dt ->
  ordinal dt + (7 - isoweekday dt) <= Calendar.MAXORDINAL ->
  week_expiry_sunday_235959 dt =
  Ok (mkDatetime (ordinal dt + (7 - isoweekday dt)) 23 59 59 0 (tz dt)).
Proof.
  intros H1 H2. unfold week_expiry_sunday_235959, add_days.
  pose proof (isoweekday_range (ordinal dt)) as R. fold (isoweekday dt) in R.
  destruct (Z.ltb_spec 0 (ordinal dt + (7 - isoweekday dt))); [| lia].
  destruct (Z.leb_spec (ordinal dt + (7 - isoweekday dt)) Calendar.MAXORDINAL); [| lia].
  reflexivity.
Qed.

(** Beyond the last representable Sunday the addition overflows. *)
Lemma week_expiry_overflow (dt : datetime) :
  Calendar.MAXORDINAL < ordinal dt + (7 - isoweekday dt) ->
  week_expiry_sunday_235959 dt = Raise (OverflowError "date value out of range").
Proof.
  intros H. unfold week_expiry_sunday_235959, add_days.
  destruct (Z.leb_spec (ordinal dt + (7 - isoweekday dt)) Calendar.MAXORDINAL); [lia |].
  rewrite andb_false_r. reflexivity.
Qed.

Lemma iso_week_id_of_year_week (a b : datetime) :
  fst (isocalendar a) = fst (isocalendar b) -> iso_week_id a = iso_week_id b.
Proof.
  unfold iso_week_id. destruct (isocalendar a) as [[ya wa] da].
  destruct (isocalendar b) as [[yb wb] db0]. simpl. intros [= -> ->]. reflexivity.
Qed.

Lemma create_code_run (token email tier : string) (w : World) (e : datetime) :
  week_expiry_sunday_235959 (clock (ticks w)) = Ok e ->
  let dt := clock (ticks w) in
  let prefix := if String.eqb tier "recruiter" then "REC"
                else if String.eqb tier "vip" then "VIP" else "GEN" in
  let code := prefix ++ "-" ++ iso_week_id dt ++ "-" ++ token in
  let rec := mkCode code (PyStr.strip (PyStr.lower email)) tier (iso_week_id dt)
                    (to_iso e) (to_iso dt) in
  create_code_for_email clock to_iso token email tier w =
  (Ok rec, mkWorld (<[k_code code := DCode rec]> (db w)) (S (ticks w))).
Proof.
  intros H. unfold create_code_for_email, bind, now_et, lift, db_set, ret. simpl.
  rewrite H. reflexivity.
Qed.

Lemma wall_lt_iff (a b : datetime) :
  wall_lt a b = true <->
  ordinal a < ordinal b \/ (ordinal a = ordinal b /\
  (hour a < hour b \/ (hour a = hour b /\
  (minute a < minute b \/ (minute a = minute b /\
  (second a < second b \/ (second a = second b /\
   microsecond a < microsecond b))))))).
Proof.
  unfold wall_lt, wall_fields. cbn [lex_lt].
  repeat first [ rewrite orb_true_iff | rewrite andb_true_iff
               | rewrite Z.ltb_lt | rewrite Z.eqb_eq ].
  intuition (try discriminate; auto).
Qed.

(** C5 (amended). For a datetime whose week ends on a representable date,
    [week_expiry_sunday_235959] returns the Sunday of the same ISO week (same
    ISO year and week number, hence same week id) at 23:59:59 with zero
    microseconds and the same tzinfo. That expiry is not earlier than the
    datetime with its microseconds dropped; it is earlier than the datetime
    itself exactly within the last second of the Sunday, when the
    microseconds are not zero. A code created at that time carries this
    expiry, the week id of the issuing week and the issuing time. *)
Theorem week_expiry_is_sunday_of_iso_week (dt : datetime) :
  valid_datetime dt ->
  ordinal dt + (7 - isoweekday dt) <= Calendar.MAXORDINAL ->
  exists e,
    week_expiry_sunday_235959 dt = Ok e /\
    isoweekday e = 7 /\
    fst (isocalendar e) = fst (isocalendar dt) /\
    iso_week_id e = iso_week_id dt /\
    (hour e, minute e, second e, microsecond e) = (23, 59, 59, 0) /\
    tz e = tz dt /\
    dt_lt et_utcoffset e (replace_microsecond dt 0) = Ok false /\
    (dt_lt et_utcoffset e dt = Ok true <->
       isoweekday dt = 7 /\ hour dt = 23 /\ minute dt = 59 /\ second dt = 59 /\
       0 < microsecond dt) /\
    forall (token email tier : string) (w : World),
      clock (ticks w) = dt ->
      exists rec w',
        create_code_for_email clock to_iso token email tier w = (Ok rec, w') /\
        code_expires_at rec = to_iso e /\
        code_week_id rec = iso_week_id dt /\
        code_week_id rec = iso_week_id e /\
        code_created_at rec = to_iso dt /\
        db w' !! k_code (code_code rec) = Some (DCode rec).
Proof.
  intros (Hord & Hh & Hm & Hs & Hus) Hmax.
  pose proof (isoweekday_range (ordinal dt)) as R. fold (isoweekday dt) in R.
  eexists. split; [apply week_expiry_value; lia |].
  assert (Hweek : fst (isocalendar (mkDatetime (ordinal dt + (7 - isoweekday dt))
                                               23 59 59 0 (tz dt)))
                  = fst (isocalendar dt)).
  { unfold isocalendar, isoweekday. simpl. apply sunday_same_iso_week. }
  split; [unfold isoweekday; simpl; apply sunday_isoweekday |].
  split; [exact Hweek |].
  split; [apply iso_week_id_of_year_week; exact Hweek |].
  split; [reflexivity |]. split; [reflexivity |].
  split.
  { rewrite dt_lt_same_tz by reflexivity. f_equal.
    apply not_true_is_false. rewrite wall_lt_iff.
    cbn [replace_microsecond ordinal hour minute second microsecond]. lia. }
  split.
  { rewrite dt_lt_same_tz by reflexivity.
    split.
    - intros [= Hlt]. apply wall_lt_iff in Hlt.
      cbn [ordinal hour minute second microsecond] in Hlt. lia.
    - intros Hlast. f_equal. apply wall_lt_iff.
      cbn [ordinal hour minute second microsecond]. lia. }
  intros token email tier w Hclock.
  eexists _, _. split.
  { apply create_code_run. rewrite Hclock. apply week_expiry_value; lia. }
  simpl. rewrite Hclock.
  repeat split; try reflexivity.
  - symmetry. apply iso_week_id_of_year_week. exact Hweek.
  - apply lookup_insert_eq.
Qed.

End ExpiryClaims.

(** C5 as stated fails on two datetimes: one microsecond after Sunday
    2026-01-11 23:59:59 the expiry computed for that datetime precedes it,
    and on Monday 9999-12-27 the Sunday of the week is past the last date, so
    no expiry is returned. *)
Lemma week_expiry_can_precede_dt :
  valid_datetime Ref.sunday_2026_01_11 /\
  (exists e, week_expiry_sunday_235959 Ref.sunday_2026_01_11 = Ok e /\
             dt_lt Ref.et_utcoffset e Ref.sunday_2026_01_11 = Ok true) /\
  valid_datetime Ref.monday_9999_12_27 /\
  week_expiry_sunday_235959 Ref.monday_9999_12_27 =
    Raise (OverflowError "date value out of range").
Proof.
  split; [unfold valid_datetime; vm_compute; intuition discriminate |].
  split; [eexists; split; reflexivity |].
  split; [unfold valid_datetime; vm_compute; intuition discriminate |].
  reflexivity.
Qed.

(** The amended statement at Wednesday 2026-01-07 10:00:00. *)
Lemma week_expiry_is_sunday_of_iso_week_witness :
  valid_datetime (Ref.clock 0) /\
  ordinal (Ref.clock 0) + (7 - isoweekday (Ref.clock 0)) <= Calendar.MAXORDINAL /\
  exists e,
    week_expiry_sunday_235959 (Ref.clock 0) = Ok e /\ isoweekday e = 7 /\
    iso_week_id e = "2026W02".
Proof.
  assert (V : valid_datetime (Ref.clock 0)).
  { unfold valid_datetime. vm_compute. intuition discriminate. }
  assert (B : ordinal (Ref.clock 0) + (7 - isoweekday (Ref.clock 0))
              <= Calendar.MAXORDINAL).
  { vm_compute. discriminate. }
  split; [exact V |]. split; [exact B |].
  destruct (week_expiry_is_sunday_of_iso_week Ref.clock Ref.isoformat Ref.et_utcoffset
              (Ref.clock 0) V B)
    as (e & He & Hsun & _ & Hid & _).
  exists e. split; [exact He |]. split; [exact Hsun |].
  rewrite Hid. reflexivity.
Defined.

(** ** Strings and keys *)
Section StringFacts.
Import PyStr.

Lemma lstrip_head (s : string) :
  lstrip s = EmptyString \/
  exists c r, lstrip s = String c r /\ isspace c = false.
Proof.
  induction s as [| c r IH]; simpl; [left; reflexivity |].
  destruct (isspace c) eqn:E; [exact IH |].
  right. exists c, r. split; [reflexivity | exact E].
Qed.

Lemma lstrip_fixed (c : ascii) (r : string) :
  isspace c = false -> lstrip (String c r) = String c r.
Proof. intros E. simpl. rewrite E. reflexivity. Qed.

Lemma rstrip_head (c : ascii) (r : string) :
  isspace c = false -> exists r', rstrip (String c r) = String c r'.
Proof.
  intros E. simpl. destruct (rstrip r) as [| d r''].
  - rewrite E. exists EmptyString. reflexivity.
  - exists (String d r''). reflexivity.
Qed.

Lemma rstrip_idempotent (s : string) : rstrip (rstrip s) = rstrip s.
Proof.
  induction s as [| c r IH]; simpl; [reflexivity |].
  destruct (rstrip r) as [| d r''] eqn:Er.
  - destruct (isspace c) eqn:E; simpl; [reflexivity |]. rewrite E. reflexivity.
  - change (rstrip (String c (String d r''))) with
      (match rstrip (String d r'') with
       | EmptyString => if isspace c then EmptyString else String c EmptyString
       | r' => String c r'
       end).
    rewrite IH. reflexivity.
Qed.

Lemma strip_idempotent (s : string) : strip (strip s) = strip s.
Proof.
  unfold strip. destruct (lstrip_head s) as [E | (c & r & E & Hc)]; rewrite E.
  - reflexivity.
  - destruct (rstrip_head c r Hc) as [r' Hr]. rewrite Hr.
    rewrite (lstrip_fixed c r' Hc), <- Hr. apply rstrip_idempotent.
Qed.

Lemma isspace_lower (c : ascii) : isspace (lower_ascii c) = isspace c.
Proof. destruct c as [[] [] [] [] [] [] [] []]; reflexivity. Qed.

Lemma lstrip_lower (s : string) : lstrip (lower s) = lower (lstrip s).
Proof.
  induction s as [| c r IH]; [reflexivity |].
  cbn [lower lstrip]. rewrite isspace_lower.
  destruct (isspace c); [exact IH | reflexivity].
Qed.

Lemma rstrip_lower (s : string) : rstrip (lower s) = lower (rstrip s).
Proof.
  induction s as [| c r IH]; [reflexivity |].
  cbn [lower rstrip]. rewrite IH, isspace_lower.
  destruct (rstrip r); cbn [lower]; [destruct (isspace c) |]; reflexivity.
Qed.

(** The two orders in which the program normalises an email agree:
    [email.lower().strip()] and [email.strip().lower()]. *)
Lemma strip_lower (s : string) : strip (lower s) = lower (strip s).
Proof. unfold strip. rewrite lstrip_lower, rstrip_lower. reflexivity. Qed.

Lemma k_code_strip (code : string) : k_code (strip code) = k_code code.
Proof. unfold k_code. rewrite strip_idempotent. reflexivity. Qed.

Lemma k_user_typed (email : string) (v : dbval) :
  entry_typed (k_user email) v = true -> exists rec, v = DUser rec.
Proof. destruct v; simpl; try discriminate. eauto. Qed.

Lemma k_code_typed (code : string) (v : dbval) :
  entry_typed (k_code code) v = true -> exists rec, v = DCode rec.
Proof. destruct v; simpl; try discriminate. eauto. Qed.

Lemma k_history_typed (email : string) (v : dbval) :
  entry_typed (k_history email) v = true -> exists hist, v = DHistory hist.
Proof. destruct v; simpl; try discriminate. eauto. Qed.

Lemma k_cache_typed (h : string) (v : dbval) :
  entry_typed (k_cache h) v = true -> exists brief, v = DCache brief.
Proof. destruct v; simpl; try discriminate. eauto. Qed.

Lemma prefix_empty (s : string) : String.prefix "" s = true.
Proof. destruct s; reflexivity. Qed.

Lemma k_user_entry (email : string) (rec : UserRecord) :
  entry_typed (k_user email) (DUser rec) = true.
Proof. unfold entry_typed, k_user. simpl. apply prefix_empty. Qed.

Lemma k_code_entry (code : string) (rec : CodeRecord) :
  entry_typed (k_code code) (DCode rec) = true.
Proof. unfold entry_typed, k_code. simpl. apply prefix_empty. Qed.

Lemma k_history_entry (email : string) (hist : list RunRecord) :
  entry_typed (k_history email) (DHistory hist) = true.
Proof. unfold entry_typed, k_history. simpl. apply prefix_empty. Qed.

Lemma k_cache_entry (h : string) (brief : Brief) :
  entry_typed (k_cache h) (DCache brief) = true.
Proof. unfold entry_typed, k_cache. simpl. apply prefix_empty. Qed.

Lemma k_user_ne_k_cache (email h : string) : k_user email <> k_cache h.
Proof. discriminate. Qed.

Lemma k_user_ne_k_history (email email' : string) : k_user email <> k_history email'.
Proof. discriminate. Qed.

Lemma k_history_ne_k_cache (email h : string) : k_history email <> k_cache h.
Proof. discriminate. Qed.

End StringFacts.

(** ** Running computations *)
Section MonadFacts.

Lemma bind_ok {A B} (m : M A) (k : A -> M B) (w w' : World) (a : A) :
  m w = (Ok a, w') -> bind m k w = k a w'.
Proof. intros H. unfold bind. rewrite H. reflexivity. Qed.

Lemma bind_raise {A B} (m : M A) (k : A -> M B) (w w' : World) (e : exn) :
  m w = (Raise e, w') -> bind m k w = (Raise e, w').
Proof. intros H. unfold bind. rewrite H. reflexivity. Qed.

Lemma bind_stopped {A B} (m : M A) (k : A -> M B) (w w' : World) :
  m w = (Stopped, w') -> bind m k w = (Stopped, w').
Proof. intros H. unfold bind. rewrite H. reflexivity. Qed.

Lemma try_except_ok {A} (body : M A) (handler : exn -> M A) (w w' : World) (a : A) :
  body w = (Ok a, w') -> try_except body handler w = (Ok a, w').
Proof. intros H. unfold try_except. rewrite H. reflexivity. Qed.

Lemma try_except_raise {A} (body : M A) (handler : exn -> M A) (w w' : World) (e : exn) :
  body w = (Raise e, w') -> try_except body handler w = handler e w'.
Proof. intros H. unfold try_except. rewrite H. reflexivity. Qed.

Lemma try_except_stopped {A} (body : M A) (handler : exn -> M A) (w w' : World) :
  body w = (Stopped, w') -> try_except body handler w = (Stopped, w').
Proof. intros H. unfold try_except. rewrite H. reflexivity. Qed.

Lemma store_typed_insert (m : gmap string dbval) (k : string) (v : dbval) :
  store_typed m -> entry_typed k v = true -> store_typed (<[k := v]> m).
Proof. intros Hm Hv. apply map_Forall_insert_2; assumption. Qed.

Lemma store_typed_lookup (m : gmap string dbval) (k : string) (v : dbval) :
  store_typed m -> m !! k = Some v -> entry_typed k v = true.
Proof. intros Hm Hk. exact (Hm k v Hk). Qed.

End MonadFacts.

(** ** User records and credits *)
Section UserFacts.

Variable clock : nat -> datetime.
Variable to_iso : datetime -> string.

Lemma ensure_user_new (email tier : string) (w : World) :
  db w !! k_user email = None ->
  let now := to_iso (clock (ticks w)) in
  let rec := mkUser (PyStr.lower email) DEFAULT_FREE_CREDITS tier now now in
  ensure_user clock to_iso email tier w =
  (Ok rec, mkWorld (<[k_user email := DUser rec]> (db w)) (S (ticks w))).
Proof.
  intros H. unfold ensure_user, bind, now_et, db_contains, db_get, db_set, ret.
  cbn [db ticks]. rewrite H.
  change (bool_decide (is_Some (@None dbval))) with false.
  cbn [negb db ticks]. rewrite lookup_insert_eq. reflexivity.
Qed.

Lemma ensure_user_existing (email tier : string) (w : World) (rec : UserRecord) :
  db w !! k_user email = Some (DUser rec) ->
  let rec' := touched rec tier (to_iso (clock (ticks w))) in
  ensure_user clock to_iso email tier w =
  (Ok rec', mkWorld (<[k_user email := DUser rec']> (db w)) (S (ticks w))).
Proof.
  intros H. unfold ensure_user, bind, now_et, db_contains, db_get, db_set, ret.
  cbn [db ticks]. rewrite H.
  change (bool_decide (is_Some (Some (DUser rec)))) with true.
  cbn [negb db ticks]. rewrite H.
  cbn [as_user ret db ticks]. rewrite lookup_insert_eq. reflexivity.
Qed.

Lemma decrement_credit_existing (email : string) (w : World) (rec : UserRecord) :
  db w !! k_user email = Some (DUser rec) ->
  let c := Z.max 0 (user_credits rec - 1) in
  decrement_credit clock to_iso email w =
  (Ok c, mkWorld (<[k_user email := DUser (set_user_credits rec c)]> (db w)) (ticks w)).
Proof.
  intros H. unfold decrement_credit, bind, db_get, db_set, ret.
  rewrite H. reflexivity.
Qed.

Lemma decrement_credit_missing (email : string) (w : World) :
  db w !! k_user email = None ->
  let c := Z.max 0 (DEFAULT_FREE_CREDITS - 1) in
  let rec := mkUser (PyStr.lower email) c "general"
                    (to_iso (clock (ticks w))) (to_iso (clock (S (ticks w)))) in
  decrement_credit clock to_iso email w =
  (Ok c, mkWorld (<[k_user email := DUser rec]> (db w)) (S (S (ticks w)))).
Proof.
  intros H. unfold decrement_credit, bind, db_get, db_set, ret, now_et.
  rewrite H. reflexivity.
Qed.

Lemma update_user_credits_existing (email : string) (n : Z) (w : World)
    (rec : UserRecord) :
  db w !! k_user email = Some (DUser rec) ->
  update_user_credits clock to_iso email n w =
  (Ok tt, mkWorld (<[k_user email := DUser (set_user_credits rec n)]> (db w)) (ticks w)).
Proof.
  intros H. unfold update_user_credits, bind, db_get, db_set, ret.
  rewrite H. reflexivity.
Qed.

Lemma stored_credits_insert (m : gmap string dbval) (email : string) (rec : UserRecord) :
  stored_credits (<[k_user email := DUser rec]> m) email = Some (user_credits rec).
Proof. unfold stored_credits. rewrite lookup_insert_eq. reflexivity. Qed.

(** C4. On an existing user record with [c] credits, [decrement_credit]
    stores and returns [max 0 (c - 1)], which is not negative, and touches no
    other field and no other key; on an email without a record it stores a
    fresh record whose credits are [max 0 (DEFAULT_FREE_CREDITS - 1)] and
    returns that value. *)
Theorem decrement_credit_floor (email : string) (w : World) :
  (forall rec, db w !! k_user email = Some (DUser rec) ->
     let c := user_credits rec in
     exists w',
       decrement_credit clock to_iso email w = (Ok (Z.max 0 (c - 1)), w') /\
       db w' = <[k_user email := DUser (set_user_credits rec (Z.max 0 (c - 1)))]> (db w) /\
       stored_credits (db w') email = Some (Z.max 0 (c - 1)) /\
       0 <= Z.max 0 (c - 1)) /\
  (db w !! k_user email = None ->
     exists w' rec',
       decrement_credit clock to_iso email w =
         (Ok (Z.max 0 (DEFAULT_FREE_CREDITS - 1)), w') /\
       db w' = <[k_user email := DUser rec']> (db w) /\
       user_credits rec' = Z.max 0 (DEFAULT_FREE_CREDITS - 1) /\
       user_email rec' = PyStr.lower email /\
       user_tier rec' = "general" /\
       stored_credits (db w') email = Some 1).
Proof.
  split.
  - intros rec H c. eexists. split; [apply decrement_credit_existing; exact H |].
    cbn [db]. split; [reflexivity |].
    split; [apply stored_credits_insert | lia].
  - intros H. eexists _, _. split; [apply decrement_credit_missing; exact H |].
    cbn [db]. split; [reflexivity |].
    repeat split. apply stored_credits_insert.
Qed.

(** C6. On an email that has a user record, [ensure_user] rewrites the
    record with a new [last_login], and with the given tier only when the
    stored tier is empty and the given one is not; credits, email and
    [created_at] are kept, every other key is untouched, and the returned
    record is the one stored under [k_user email]. *)
Theorem ensure_user_existing_frame (email tier : string) (w : World) (rec : UserRecord) :
  db w !! k_user email = Some (DUser rec) ->
  exists rec' w',
    ensure_user clock to_iso email tier w = (Ok rec', w') /\
    db w' !! k_user email = Some (DUser rec') /\
    (forall k, k <> k_user email -> db w' !! k = db w !! k) /\
    user_credits rec' = user_credits rec /\
    user_email rec' = user_email rec /\
    user_created_at rec' = user_created_at rec /\
    user_last_login rec' = to_iso (clock (ticks w)) /\
    user_tier rec' =
      (if PyStr.truthy tier && negb (PyStr.truthy (user_tier rec))
       then tier else user_tier rec).
Proof.
  intros H. eexists _, _. split; [apply ensure_user_existing; exact H |].
  cbn [db]. split; [apply lookup_insert_eq |].
  split; [intros k Hk; apply lookup_insert_ne; congruence |].
  unfold touched. cbn.
  destruct (PyStr.truthy tier && negb (PyStr.truthy (user_tier rec)));
    repeat split; reflexivity.
Qed.

End UserFacts.

(** ** Run history *)
Section HistoryFacts.

Lemma history_slot (m : gmap string dbval) (email : string) :
  history_slot_ok m email ->
  m !! k_history email = None \/
  m !! k_history email = Some (DHistory (stored_history m email)).
Proof.
  unfold history_slot_ok, stored_history.
  destruct (m !! k_history email) as [[] |]; intros H; try contradiction; auto.
Qed.

Lemma history_slot_typed (m : gmap string dbval) (email : string) :
  store_typed m -> history_slot_ok m email.
Proof.
  intros Hm. unfold history_slot_ok.
  destruct (m !! k_history email) as [v |] eqn:E; [| exact I].
  destruct (k_history_typed email v (store_typed_lookup _ _ _ Hm E)) as [hist ->].
  exact I.
Qed.

Lemma save_history_run (email : string) (payload : RunRecord) (w : World) :
  history_slot_ok (db w) email ->
  save_history email payload w =
  (Ok tt,
   mkWorld (<[k_history email :=
                DHistory (payload :: firstn 24 (stored_history (db w) email))]> (db w))
           (ticks w)).
Proof.
  intros Hm. unfold save_history, bind, db_get, db_set.
  destruct (history_slot (db w) email Hm) as [E | E]; rewrite E.
  - unfold stored_history. rewrite E. reflexivity.
  - reflexivity.
Qed.

Lemma stored_history_insert (m : gmap string dbval) (email : string)
    (hist : list RunRecord) :
  stored_history (<[k_history email := DHistory hist]> m) email = hist.
Proof. unfold stored_history. rewrite lookup_insert_eq. reflexivity. Qed.

Lemma history_slot_insert (m : gmap string dbval) (email : string)
    (hist : list RunRecord) :
  history_slot_ok (<[k_history email := DHistory hist]> m) email.
Proof. unfold history_slot_ok. rewrite lookup_insert_eq. exact I. Qed.

Lemma get_history_run (email : string) (w : World) :
  history_slot_ok (db w) email ->
  get_history email w = (Ok (stored_history (db w) email), w).
Proof.
  intros Hm. unfold get_history, bind, db_get.
  destruct (history_slot (db w) email Hm) as [E | E]; rewrite E.
  - unfold stored_history. rewrite E. reflexivity.
  - reflexivity.
Qed.

(** C9. Whenever the history key of the email is free or holds a list,
    [save_history] returns, and the stored history then starts with the new
    payload and continues with the first 24 entries of the previous history,
    in their order; it holds at most 25 entries, whatever the previous
    length, so the bound is kept by every call. [get_history] reads that
    list, no other key changes, and a well-shaped store stays so. *)
Theorem save_history_keeps_last_25 (email : string) (payload : RunRecord) (w : World) :
  history_slot_ok (db w) email ->
  exists w',
    save_history email payload w = (Ok tt, w') /\
    stored_history (db w') email = payload :: firstn 24 (stored_history (db w) email) /\
    hd_error (stored_history (db w') email) = Some payload /\
    (length (stored_history (db w') email) <= 25)%nat /\
    history_slot_ok (db w') email /\
    get_history email w' = (Ok (stored_history (db w') email), w') /\
    (forall k, k <> k_history email -> db w' !! k = db w !! k) /\
    (store_typed (db w) -> store_typed (db w')).
Proof.
  intros Hm. eexists. split; [apply save_history_run; exact Hm |].
  cbn [db]. rewrite stored_history_insert.
  split; [reflexivity |]. split; [reflexivity |].
  split.
  { cbn [length]. pose proof (firstn_le_length 24 (stored_history (db w) email)). lia. }
  split; [apply history_slot_insert |].
  split.
  { rewrite get_history_run by apply history_slot_insert. cbn [db].
    rewrite stored_history_insert. reflexivity. }
  split.
  { intros k Hk. apply lookup_insert_ne. congruence. }
  intros Ht. apply store_typed_insert; [exact Ht | apply k_history_entry].
Qed.

End HistoryFacts.

(** ** The credit path of the agent page *)
Section AgentFacts.

Variable clock : nat -> datetime.
Variable to_iso : datetime -> string.
Variable sha256_json : list (string * string) -> string.
Variable requests_post : string -> Payload -> http_outcome.
Variable perplexity_brief :
  string -> string -> string -> string -> string -> string -> string -> string ->
  Res Brief.
Variable make_contact_url : string.

Local Abbreviation agent :=
  (render_agent clock to_iso sha256_json requests_post perplexity_brief
                make_contact_url).

Lemma touched_credits (rec : UserRecord) (tier now : string) :
  user_credits (touched rec tier now) = user_credits rec.
Proof.
  unfold touched. cbn.
  destruct (PyStr.truthy tier && negb (PyStr.truthy (user_tier rec))); reflexivity.
Qed.

Lemma post_webhook_total (url : string) (payload : Payload) (w : World) :
  post_webhook requests_post url payload w =
  (Ok match requests_post url payload with
      | HttpResponse status_code text => (status_code, text)
      | HttpRaises e => (0, exn_str e)
      end, w).
Proof.
  unfold post_webhook, try_except. destruct (requests_post url payload); reflexivity.
Qed.

(** With no credit left the page refuses: nothing but [last_login] (and an
    empty tier) is written, and the search API is not called. *)
Lemma agent_refuses (email tier : string) (contact : ContactInputs) (form : AgentInputs)
    (w : World) (rec : UserRecord) :
  db w !! k_user email = Some (DUser rec) ->
  user_credits rec <= 0 ->
  exists sent w',
    agent email tier contact form w = (Ok (ViewNoCredits sent), w') /\
    db w' = <[k_user email :=
                DUser (touched rec tier (to_iso (clock (ticks w))))]> (db w).
Proof.
  intros H Hc. unfold render_agent.
  erewrite bind_ok by (apply ensure_user_existing; exact H).
  rewrite touched_credits.
  destruct (Z.leb_spec (user_credits rec) 0); [| lia].
  destruct (contact_submit contact).
  - unfold bind, now_et. cbn [db ticks]. rewrite post_webhook_total.
    eexists _, _. split; reflexivity.
  - eexists _, _. split; reflexivity.
Qed.

(** A submitted run whose brief is not cached and whose API call raises:
    the page reports the failure and the record holds the credits again. *)
Lemma agent_failed_run (email tier : string) (contact : ContactInputs)
    (form : AgentInputs) (w : World) (rec : UserRecord) (e : exn) :
  db w !! k_user email = Some (DUser rec) ->
  1 <= user_credits rec ->
  in_run form = true ->
  required_missing form = false ->
  db w !! k_cache (sha256_json (cache_raw form (iso_week_id (clock (S (ticks w))))))
    = None ->
  call_perplexity perplexity_brief form = Raise e ->
  let user := touched rec tier (to_iso (clock (ticks w))) in
  agent email tier contact form w =
  (Ok (ViewFailed (exn_str e)),
   mkWorld (<[k_user email := DUser (set_user_credits user (user_credits rec))]> (db w))
           (S (S (ticks w)))).
Proof.
  intros H Hc Hrun Hreq Hmiss Hapi user. unfold render_agent.
  erewrite bind_ok by (apply ensure_user_existing; exact H).
  rewrite touched_credits.
  destruct (Z.leb_spec (user_credits rec) 0); [lia |].
  rewrite Hrun, Hreq. cbn [negb].
  unfold bind at 1. unfold now_et at 1. cbn [db ticks].
  erewrite bind_ok by (apply decrement_credit_existing; apply lookup_insert_eq).
  erewrite try_except_raise.
  2:{ unfold bind at 1. unfold db_get at 1. cbn [db ticks].
      rewrite lookup_insert_ne by apply k_user_ne_k_cache.
      rewrite lookup_insert_ne by apply k_user_ne_k_cache.
      rewrite Hmiss. unfold bind at 1. unfold bind at 1. unfold lift at 1.
      rewrite Hapi. reflexivity. }
  erewrite bind_ok by (apply update_user_credits_existing; apply lookup_insert_eq).
  unfold ret. cbn [db ticks]. rewrite !insert_insert_eq.
  rewrite touched_credits. f_equal. f_equal. f_equal. f_equal.
  unfold set_user_credits. cbn. f_equal. lia.
Qed.

(** A submitted run on a well-shaped store, with credit left and an API
    call that returns if it is made: the page shows a brief (the cached one
    if there is one) and the record holds one credit less. *)
Lemma agent_completed_run (email tier : string) (contact : ContactInputs)
    (form : AgentInputs) (w : World) (rec : UserRecord) (b : Brief) :
  store_typed (db w) ->
  db w !! k_user email = Some (DUser rec) ->
  1 <= user_credits rec ->
  in_run form = true ->
  required_missing form = false ->
  (db w !! k_cache (sha256_json (cache_raw form (iso_week_id (clock (S (ticks w))))))
     = None ->
   call_perplexity perplexity_brief form = Ok b) ->
  exists brief w',
    agent email tier contact form w = (Ok (ViewBrief brief), w') /\
    store_typed (db w') /\
    db w' !! k_user email =
      Some (DUser (set_user_credits (touched rec tier (to_iso (clock (ticks w))))
                                    (user_credits rec - 1))) /\
    hd_error (stored_history (db w') email) =
      Some (mkRun (to_iso (clock (S (S (ticks w))))) (PyStr.strip (in_company form))
                  (PyStr.strip (in_persona form)) (in_model form)
                  (user_credits rec - 1) brief).
Proof.
  intros Hm H Hc Hrun Hreq Hapi. unfold render_agent.
  erewrite bind_ok by (apply ensure_user_existing; exact H).
  rewrite touched_credits.
  destruct (Z.leb_spec (user_credits rec) 0); [lia |].
  rewrite Hrun, Hreq. cbn [negb].
  unfold bind at 1. unfold now_et at 1. cbn [db ticks].
  erewrite bind_ok by (apply decrement_credit_existing; apply lookup_insert_eq).
  cbn [db ticks]. rewrite insert_insert_eq, touched_credits.
  replace (Z.max 0 (user_credits rec - 1)) with (user_credits rec - 1) by lia.
  set (user := set_user_credits _ _).
  set (kc := k_cache _) in *.
  assert (Hm2 : store_typed (<[k_user email := DUser user]> (db w))).
  { apply store_typed_insert; [exact Hm | apply k_user_entry]. }
  destruct (db w !! kc) as [v |] eqn:Ecache.
  - destruct (k_cache_typed _ v (store_typed_lookup _ _ _ Hm Ecache)) as [b0 ->].
    eexists b0, _. split.
    { apply try_except_ok.
      unfold bind at 1. unfold db_get at 1. cbn [db ticks].
      rewrite lookup_insert_ne by apply k_user_ne_k_cache. rewrite Ecache.
      unfold as_brief, ret at 1. unfold bind at 1.
      unfold bind at 1. unfold now_et at 1. cbn [db ticks].
      erewrite bind_ok by (apply save_history_run, history_slot_typed; exact Hm2).
      reflexivity. }
    cbn [db]. split.
    { apply store_typed_insert; [exact Hm2 | apply k_history_entry]. }
    split.
    { rewrite lookup_insert_ne by (apply not_eq_sym, k_user_ne_k_history).
      apply lookup_insert_eq. }
    rewrite stored_history_insert. reflexivity.
  - specialize (Hapi eq_refl).
    assert (Hm3 : store_typed (<[kc := DCache b]> (<[k_user email := DUser user]> (db w)))).
    { apply store_typed_insert; [exact Hm2 | apply k_cache_entry]. }
    eexists b, _. split.
    { apply try_except_ok.
      unfold bind at 1. unfold db_get at 1. cbn [db ticks].
      rewrite lookup_insert_ne by apply k_user_ne_k_cache. rewrite Ecache.
      unfold bind at 1. unfold bind at 1. unfold lift at 1. rewrite Hapi.
      unfold bind at 1. unfold db_set at 1. cbn [db ticks].
      unfold ret at 1.
      unfold bind at 1. unfold now_et at 1. cbn [db ticks].
      erewrite bind_ok by (apply save_history_run, history_slot_typed; exact Hm3).
      reflexivity. }
    cbn [db]. split.
    { apply store_typed_insert; [exact Hm3 | apply k_history_entry]. }
    split.
    { rewrite lookup_insert_ne by (apply not_eq_sym, k_user_ne_k_history).
      rewrite lookup_insert_ne by (apply not_eq_sym, k_user_ne_k_cache).
      apply lookup_insert_eq. }
    rewrite stored_history_insert. reflexivity.
Qed.

(** A submitted run whose API call stops the script: the credit taken
    before the call stays taken. *)
Lemma agent_stopped_run (email tier : string) (contact : ContactInputs)
    (form : AgentInputs) (w : World) (rec : UserRecord) :
  db w !! k_user email = Some (DUser rec) ->
  1 <= user_credits rec ->
  in_run form = true ->
  required_missing form = false ->
  db w !! k_cache (sha256_json (cache_raw form (iso_week_id (clock (S (ticks w))))))
    = None ->
  call_perplexity perplexity_brief form = Stopped ->
  let user := touched rec tier (to_iso (clock (ticks w))) in
  agent email tier contact form w =
  (Stopped,
   mkWorld (<[k_user email := DUser (set_user_credits user (user_credits rec - 1))]> (db w))
           (S (S (ticks w)))).
Proof.
  intros H Hc Hrun Hreq Hmiss Hapi user. unfold render_agent.
  erewrite bind_ok by (apply ensure_user_existing; exact H).
  rewrite touched_credits.
  destruct (Z.leb_spec (user_credits rec) 0); [lia |].
  rewrite Hrun, Hreq. cbn [negb].
  unfold bind at 1. unfold now_et at 1. cbn [db ticks].
  erewrite bind_ok by (apply decrement_credit_existing; apply lookup_insert_eq).
  cbn [db ticks]. rewrite insert_insert_eq, touched_credits.
  replace (Z.max 0 (user_credits rec - 1)) with (user_credits rec - 1) by lia.
  apply try_except_stopped.
  unfold bind at 1. unfold db_get at 1. cbn [db ticks].
  rewrite lookup_insert_ne by apply k_user_ne_k_cache.
  rewrite Hmiss. unfold bind at 1. unfold bind at 1. unfold lift at 1.
  rewrite Hapi. reflexivity.
Qed.

(** With credit left, a page that is not submitted, or is submitted with a
    required field blank, only refreshes the login time. *)
Lemma agent_idle (email tier : string) (contact : ContactInputs)
    (form : AgentInputs) (w : World) (rec : UserRecord) :
  db w !! k_user email = Some (DUser rec) ->
  1 <= user_credits rec ->
  in_run form = false \/ required_missing form = true ->
  agent email tier contact form w =
  (Ok (if negb (in_run form) then ViewForm else ViewMissingFields),
   mkWorld (<[k_user email := DUser (touched rec tier (to_iso (clock (ticks w))))]> (db w))
           (S (ticks w))).
Proof.
  intros H Hc Hidle. unfold render_agent.
  erewrite bind_ok by (apply ensure_user_existing; exact H).
  rewrite touched_credits.
  destruct (Z.leb_spec (user_credits rec) 0); [lia |].
  destruct (in_run form); cbn [negb]; [| reflexivity].
  destruct Hidle as [[=] | ->]. reflexivity.
Qed.

(** C7. [post_webhook] never raises and leaves the world alone: a request
    that completes yields its status code and body text, a request that
    raises yields 0 and the message of the exception. *)
Theorem post_webhook_never_raises (url : string) (payload : Payload) (w : World) :
  exists status body,
    post_webhook requests_post url payload w = (Ok (status, body), w) /\
    (forall status_code text,
       requests_post url payload = HttpResponse status_code text ->
       (status, body) = (status_code, text)) /\
    (forall e,
       requests_post url payload = HttpRaises e ->
       (status, body) = (0, exn_str e)).
Proof.
  rewrite post_webhook_total.
  destruct (requests_post url payload) as [status_code text | e].
  - exists status_code, text. split; [reflexivity |].
    split; [intros ? ? [= <- <-]; reflexivity | intros ? [=]].
  - exists 0, (exn_str e). split; [reflexivity |].
    split; [intros ? ? [=] | intros ? [= <-]; reflexivity].
Qed.


End AgentFacts.

(** ** Sequences of page renderings *)
Section VisitFacts.

Variable clock : nat -> datetime.
Variable to_iso : datetime -> string.
Variable sha256_json : list (string * string) -> string.

Local Abbreviation visit_page := (visit clock to_iso sha256_json).

(** One rendering keeps the store well shaped and the user record in place;
    it takes one credit when it shows a brief and never adds any. *)
Lemma visit_step (url email : string) (v : AgentVisit) (w w' : World)
    (rec : UserRecord) (r : Res agent_view) :
  store_typed (db w) ->
  db w !! k_user email = Some (DUser rec) ->
  visit_page url email v w = (r, w') ->
  store_typed (db w') /\
  exists rec',
    db w' !! k_user email = Some (DUser rec') /\
    match r with
    | Ok (ViewBrief _) =>
        1 <= user_credits rec /\ user_credits rec' = user_credits rec - 1
    | _ => user_credits rec' <= user_credits rec
    end.
Proof.
  intros Hm H Hv. unfold visit in Hv.
  assert (Hins : forall u, store_typed (<[k_user email := DUser u]> (db w))).
  { intros u. apply store_typed_insert; [exact Hm | apply k_user_entry]. }
  destruct (Z.leb_spec (user_credits rec) 0) as [Hz | Hpos].
  { destruct (agent_refuses clock to_iso sha256_json (visit_requests_post v)
                (visit_perplexity v) url email (visit_tier v) (visit_contact v)
                (visit_form v) w rec H Hz) as (sent & w1 & E & Hdb).
    rewrite E in Hv. injection Hv as <- <-. rewrite Hdb.
    split; [apply Hins |]. eexists. split; [apply lookup_insert_eq |].
    rewrite touched_credits. lia. }
  assert (Hc : 1 <= user_credits rec) by lia.
  destruct (in_run (visit_form v)) eqn:Hrun;
    [destruct (required_missing (visit_form v)) eqn:Hreq |].
  2:{ destruct (db w !! k_cache (sha256_json (cache_raw (visit_form v)
                   (iso_week_id (clock (S (ticks w))))))) as [c0 |] eqn:Ecache;
        [| destruct (call_perplexity (visit_perplexity v) (visit_form v))
             as [b | e |] eqn:Hapi].
      - destruct (agent_completed_run clock to_iso sha256_json (visit_requests_post v)
                    (visit_perplexity v) url email (visit_tier v) (visit_contact v)
                    (visit_form v) w rec "" Hm H Hc Hrun Hreq)
          as (brief & w1 & E & Hm1 & Hrec & _).
        { intros Hnone. rewrite Hnone in Ecache. discriminate. }
        rewrite E in Hv. injection Hv as <- <-.
        split; [exact Hm1 |]. eexists. split; [exact Hrec |].
        split; [exact Hc | reflexivity].
      - destruct (agent_completed_run clock to_iso sha256_json (visit_requests_post v)
                    (visit_perplexity v) url email (visit_tier v) (visit_contact v)
                    (visit_form v) w rec b Hm H Hc Hrun Hreq)
          as (brief & w1 & E & Hm1 & Hrec & _).
        { intros _. exact Hapi. }
        rewrite E in Hv. injection Hv as <- <-.
        split; [exact Hm1 |]. eexists. split; [exact Hrec |].
        split; [exact Hc | reflexivity].
      - rewrite (agent_failed_run clock to_iso sha256_json (visit_requests_post v)
                   (visit_perplexity v) url email (visit_tier v) (visit_contact v)
                   (visit_form v) w rec e H Hc Hrun Hreq Ecache Hapi) in Hv.
        injection Hv as <- <-. cbn [db].
        split; [apply Hins |]. eexists. split; [apply lookup_insert_eq |].
        cbn. lia.
      - rewrite (agent_stopped_run clock to_iso sha256_json (visit_requests_post v)
                   (visit_perplexity v) url email (visit_tier v) (visit_contact v)
                   (visit_form v) w rec H Hc Hrun Hreq Ecache Hapi) in Hv.
        injection Hv as <- <-. cbn [db].
        split; [apply Hins |]. eexists. split; [apply lookup_insert_eq |].
        cbn. lia. }
  all: rewrite (agent_idle clock to_iso sha256_json (visit_requests_post v)
                  (visit_perplexity v) url email (visit_tier v) (visit_contact v)
                  (visit_form v) w rec H Hc) in Hv by (rewrite ?Hrun, ?Hreq; auto);
       injection Hv as <- <-; cbn [db];
       (split; [apply Hins |]); eexists; (split; [apply lookup_insert_eq |]);
       rewrite Hrun; cbn [negb]; rewrite touched_credits; lia.
Qed.

(** Over any sequence of renderings the briefs shown do not outnumber the
    credits the user started with. *)
Lemma briefs_bounded_by_credits (url email : string) (visits : list AgentVisit) :
  forall (w : World) (rec : UserRecord),
    store_typed (db w) ->
    db w !! k_user email = Some (DUser rec) ->
    (briefs_shown clock to_iso sha256_json url email visits w
     <= Z.to_nat (user_credits rec))%nat.
Proof.
  induction visits as [| v rest IH]; intros w rec Hm H; cbn [briefs_shown]; [lia |].
  destruct (visit clock to_iso sha256_json url email v w) as [r w'] eqn:Ev.
  destruct (visit_step url email v w w' rec r Hm H Ev) as (Hm' & rec' & H' & Hcred).
  specialize (IH w' rec' Hm' H').
  destruct r as [[sent | | | msg | brief] | e |]; lia.
Qed.

Lemma stored_credits_lookup (m : gmap string dbval) (email : string) (rec : UserRecord) :
  m !! k_user email = Some (DUser rec) ->
  stored_credits m email = Some (user_credits rec).
Proof. intros H. unfold stored_credits. rewrite H. reflexivity. Qed.

(** C8. [ensure_user] on an email without a record stores and returns a
    record with [DEFAULT_FREE_CREDITS = 2] credits, the given tier, the
    lowercased email and [created_at] equal to [last_login]. From there the
    agent page refuses whenever the stored balance is not positive, any
    sequence of renderings shows at most two briefs, and two submitted runs
    whose API calls return are both served, after which the page refuses. *)
Theorem new_user_gets_two_free_runs (url email tier : string) (w : World) :
  store_typed (db w) ->
  db w !! k_user email = None ->
  exists rec w1,
    ensure_user clock to_iso email tier w = (Ok rec, w1) /\
    DEFAULT_FREE_CREDITS = 2 /\
    rec = mkUser (PyStr.lower email) 2 tier
                 (to_iso (clock (ticks w))) (to_iso (clock (ticks w))) /\
    user_created_at rec = user_last_login rec /\
    db w1 = <[k_user email := DUser rec]> (db w) /\
    (forall (v : AgentVisit) (wz : World) (recz : UserRecord),
       db wz !! k_user email = Some (DUser recz) ->
       user_credits recz <= 0 ->
       exists sent wz',
         visit_page url email v wz = (Ok (ViewNoCredits sent), wz') /\
         stored_credits (db wz') email = Some (user_credits recz)) /\
    (forall visits : list AgentVisit,
       (briefs_shown clock to_iso sha256_json url email visits w1 <= 2)%nat) /\
    (forall v1 v2 v3 : AgentVisit,
       in_run (visit_form v1) = true -> required_missing (visit_form v1) = false ->
       in_run (visit_form v2) = true -> required_missing (visit_form v2) = false ->
       (exists b, call_perplexity (visit_perplexity v1) (visit_form v1) = Ok b) ->
       (exists b, call_perplexity (visit_perplexity v2) (visit_form v2) = Ok b) ->
       exists b1 b2 sent w2 w3 w4,
         visit_page url email v1 w1 = (Ok (ViewBrief b1), w2) /\
         stored_credits (db w2) email = Some 1 /\
         visit_page url email v2 w2 = (Ok (ViewBrief b2), w3) /\
         stored_credits (db w3) email = Some 0 /\
         visit_page url email v3 w3 = (Ok (ViewNoCredits sent), w4) /\
         stored_credits (db w4) email = Some 0).
Proof.
  intros Hm Hnew.
  eexists _, _. split; [apply ensure_user_new; exact Hnew |].
  split; [reflexivity |]. split; [reflexivity |]. split; [reflexivity |].
  cbn [db]. split; [reflexivity |].
  set (rec := mkUser _ _ _ _ _).
  set (w1 := mkWorld _ _).
  assert (Hm1 : store_typed (db w1)).
  { apply store_typed_insert; [exact Hm | apply k_user_entry]. }
  assert (H1 : db w1 !! k_user email = Some (DUser rec)) by apply lookup_insert_eq.
  assert (Hc1 : user_credits rec = 2) by reflexivity.
  clearbody w1 rec.
  assert (Hrefuse : forall (v : AgentVisit) (wz : World) (recz : UserRecord),
             db wz !! k_user email = Some (DUser recz) ->
             user_credits recz <= 0 ->
             exists sent wz',
               visit_page url email v wz = (Ok (ViewNoCredits sent), wz') /\
               stored_credits (db wz') email = Some (user_credits recz)).
  { intros v wz recz Hz Hle.
    destruct (agent_refuses clock to_iso sha256_json (visit_requests_post v)
                (visit_perplexity v) url email (visit_tier v) (visit_contact v)
                (visit_form v) wz recz Hz Hle) as (sent & wz' & E & Hdb).
    exists sent, wz'. split; [exact E |].
    rewrite Hdb, stored_credits_insert, touched_credits. reflexivity. }
  split; [exact Hrefuse |].
  split.
  { intros visits.
    pose proof (briefs_bounded_by_credits url email visits w1 rec Hm1 H1) as Hb.
    rewrite Hc1 in Hb. exact Hb. }
  intros v1 v2 v3 Hrun1 Hreq1 Hrun2 Hreq2 [b1' Hapi1] [b2' Hapi2].
  destruct (agent_completed_run clock to_iso sha256_json (visit_requests_post v1)
              (visit_perplexity v1) url email (visit_tier v1) (visit_contact v1)
              (visit_form v1) w1 rec b1' Hm1 H1 ltac:(lia) Hrun1 Hreq1
              (fun _ => Hapi1))
    as (b1 & w2 & E1 & Hm2 & H2 & _).
  match type of H2 with _ = Some (DUser ?u) => set (rec2 := u) in * end.
  assert (Hc2 : user_credits rec2 = 1) by (subst rec2; cbn; lia).
  clearbody rec2.
  destruct (agent_completed_run clock to_iso sha256_json (visit_requests_post v2)
              (visit_perplexity v2) url email (visit_tier v2) (visit_contact v2)
              (visit_form v2) w2 rec2 b2' Hm2 H2 ltac:(lia) Hrun2 Hreq2
              (fun _ => Hapi2))
    as (b2 & w3 & E2 & Hm3 & H3 & _).
  match type of H3 with _ = Some (DUser ?u) => set (rec3 := u) in * end.
  assert (Hc3 : user_credits rec3 = 0) by (subst rec3; cbn; lia).
  clearbody rec3.
  destruct (Hrefuse v3 w3 rec3 H3 ltac:(lia)) as (sent & w4 & E3 & Hc4).
  exists b1, b2, sent, w2, w3, w4.
  split; [exact E1 |].
  split; [rewrite (stored_credits_lookup _ _ _ H2), Hc2; reflexivity |].
  split; [exact E2 |].
  split; [rewrite (stored_credits_lookup _ _ _ H3), Hc3; reflexivity |].
  split; [exact E3 | rewrite Hc4, Hc3; reflexivity].
Qed.

End VisitFacts.

(** ** Login codes *)
Section CodeFacts.

Variable clock : nat -> datetime.
Variable to_iso : datetime -> string.
Variable parse_iso : string -> option datetime.
Variable et_utcoffset : datetime -> Z.

Local Abbreviation validate := (validate_login_code clock parse_iso et_utcoffset).
Local Abbreviation expired := (expiry_passed parse_iso et_utcoffset).

Lemma validate_missing (email code : string) (w : World) :
  db w !! k_code code = None ->
  validate email code w = (Ok (LoginFailed "Invalid code."), w).
Proof.
  intros H. unfold validate_login_code, bind, db_get.
  rewrite k_code_strip, H. reflexivity.
Qed.

(** The checks of [validate_login_code] on a stored record, in order. *)
Lemma validate_found (email code : string) (w : World) (rec : CodeRecord) :
  db w !! k_code code = Some (DCode rec) ->
  let login := PyStr.strip (PyStr.lower email) in
  let dt := clock (ticks w) in
  let w1 := mkWorld (db w) (S (ticks w)) in
  validate email code w =
  if negb (String.eqb (code_week_id rec) (iso_week_id dt)) then
    (Ok (LoginFailed "Code expired (week changed). Request a new code."), w1)
  else
    match expired (code_expires_at rec) dt with
    | Ok true =>
        (Ok (LoginFailed "Code expired (time window ended). Request a new code."), w1)
    | Raise _ =>
        (Ok (LoginFailed "Code expiry is malformed. Ask the owner for a new code."), w1)
    | Stopped => (Stopped, w1)
    | Ok false =>
        if PyStr.truthy (code_email rec) then
          if negb (String.eqb (code_email rec) login) then
            (Ok (LoginFailed
              "Code does not match this email. Use the email you requested access with."),
             w1)
          else (Ok (LoginOk rec), w1)
        else
          (Ok (LoginOk (set_code_email rec login)),
           mkWorld (<[k_code code := DCode (set_code_email rec login)]> (db w))
                   (S (ticks w)))
    end.
Proof.
  intros H login dt w1. unfold validate_login_code, bind, db_get.
  rewrite k_code_strip, H. cbn [as_code ret now_et db ticks].
  fold dt. fold login.
  destruct (negb (String.eqb (code_week_id rec) (iso_week_id dt))); [reflexivity |].
  destruct (expired (code_expires_at rec) dt) as [[|] | e |]; try reflexivity.
  destruct (PyStr.truthy (code_email rec)); [| reflexivity].
  destruct (negb (String.eqb (code_email rec) login)); reflexivity.
Qed.

Lemma truthy_nonempty (s : string) : PyStr.truthy s = true <-> s <> "".
Proof. destruct s; simpl; split; intros H; congruence. Qed.

(** C2. [validate_login_code] fails when the stored record's week id differs
    from the ISO week id of the current time, and fails when the record's
    [expires_at] parses to a datetime earlier than the current time; in both
    cases the store is left as it was. When the code has no record it fails
    and the world is unchanged. *)
Theorem validate_login_code_rejects (email code : string) (w : World) :
  (db w !! k_code code = None ->
   validate email code w = (Ok (LoginFailed "Invalid code."), w)) /\
  (forall rec : CodeRecord,
     db w !! k_code code = Some (DCode rec) ->
     let dt := clock (ticks w) in
     (code_week_id rec <> iso_week_id dt ->
      exists msg w',
        validate email code w = (Ok (LoginFailed msg), w') /\ db w' = db w) /\
     (forall e : datetime,
        parse_iso (code_expires_at rec) = Some e ->
        dt_lt et_utcoffset e dt = Ok true ->
        exists msg w',
          validate email code w = (Ok (LoginFailed msg), w') /\ db w' = db w)).
Proof.
  split; [apply validate_missing |].
  intros rec H dt. split.
  - intros Hweek. rewrite (validate_found email code w rec H). fold dt.
    apply String.eqb_neq in Hweek. rewrite Hweek. cbn [negb].
    eexists _, _. split; reflexivity.
  - intros e Hparse Hlt. rewrite (validate_found email code w rec H). fold dt.
    unfold expiry_passed. rewrite Hparse, Hlt.
    destruct (negb _); eexists _, _; split; reflexivity.
Qed.

(** C3. For a stored record of the current ISO week whose expiry parses and
    is not earlier than the current time: with an empty email field the
    validation succeeds and stores the record bound to the lowercased,
    stripped login email; with a different non-empty email it fails and the
    store is unchanged; with the same email it succeeds and the store is
    unchanged. *)
Theorem validate_login_code_binding (email code : string) (w : World)
    (rec : CodeRecord) (e : datetime) :
  db w !! k_code code = Some (DCode rec) ->
  code_week_id rec = iso_week_id (clock (ticks w)) ->
  parse_iso (code_expires_at rec) = Some e ->
  dt_lt et_utcoffset e (clock (ticks w)) = Ok false ->
  let login := PyStr.strip (PyStr.lower email) in
  (code_email rec = "" ->
   exists w',
     validate email code w = (Ok (LoginOk (set_code_email rec login)), w') /\
     db w' = <[k_code code := DCode (set_code_email rec login)]> (db w) /\
     code_email (set_code_email rec login) = login) /\
  (code_email rec <> "" -> code_email rec <> login ->
   exists msg w',
     validate email code w = (Ok (LoginFailed msg), w') /\ db w' = db w) /\
  (code_email rec <> "" -> code_email rec = login ->
   exists w',
     validate email code w = (Ok (LoginOk rec), w') /\ db w' = db w).
Proof.
  intros H Hweek Hparse Hlt login.
  pose proof (validate_found email code w rec H) as V. cbv zeta in V. fold login in V.
  rewrite Hweek, String.eqb_refl in V. cbn [negb] in V.
  unfold expiry_passed in V. rewrite Hparse, Hlt in V.
  split; [| split].
  - intros Hempty. rewrite Hempty in V. cbn [PyStr.truthy] in V.
    eexists. split; [exact V |]. split; reflexivity.
  - intros Hbound Hdiff. apply truthy_nonempty in Hbound. rewrite Hbound in V.
    apply String.eqb_neq in Hdiff. rewrite Hdiff in V. cbn [negb] in V.
    eexists _, _. split; [exact V | reflexivity].
  - intros Hbound Hsame. apply truthy_nonempty in Hbound. rewrite Hbound in V.
    rewrite Hsame, String.eqb_refl in V. cbn [negb] in V.
    eexists. split; [rewrite <- Hsame; exact V | reflexivity].
Qed.

End CodeFacts.

(** ** Seeding the demo codes *)
Section SeedFacts.

Variable clock : nat -> datetime.
Variable to_iso : datetime -> string.

Lemma absent_filter_insert (m : gmap string dbval) (k : string) (v : dbval)
    (items : list (string * string)) :
  k ∉ map seed_key items ->
  filter (fun item => <[k := v]> m !! k_code (fst item) = None) items =
  filter (fun item => m !! k_code (fst item) = None) items.
Proof.
  induction items as [| it rest IH]; intros Hk; [reflexivity |].
  cbn [map] in Hk. apply not_elem_of_cons in Hk. destruct Hk as [Hne Hrest].
  rewrite !filter_cons. rewrite lookup_insert_ne by exact Hne.
  rewrite (IH Hrest). reflexivity.
Qed.

Lemma absent_filter_none (m : gmap string dbval) (items : list (string * string)) :
  (forall item, item ∈ items -> is_Some (m !! seed_key item)) ->
  filter (fun item => m !! k_code (fst item) = None) items = [].
Proof.
  induction items as [| it rest IH]; intros Hall; [reflexivity |].
  rewrite filter_cons_False.
  - apply IH. intros item Hin. apply Hall. right. exact Hin.
  - destruct (Hall it ltac:(left)) as [v Hv]. unfold seed_key in Hv. congruence.
Qed.

Lemma seed_loop_run (dt e : datetime) (items : list (string * string)) :
  forall (created : Z) (w : World),
    NoDup (map seed_key items) ->
    exists m',
      seed_loop to_iso items dt (iso_week_id dt) e created w =
        (Ok (created + Z.of_nat (length (filter
               (fun item => db w !! k_code (fst item) = None) items))),
         mkWorld m' (ticks w)) /\
      forall k, m' !! k = match db w !! k with
                          | Some v => Some v
                          | None => seed_entry to_iso dt e items k
                          end.
Proof.
  induction items as [| [code tier] rest IH]; intros created w Hnd.
  - exists (db w). split.
    + cbn. unfold ret. destruct w. f_equal. f_equal. lia.
    + intros k. destruct (db w !! k); reflexivity.
  - cbn [map] in Hnd. apply NoDup_cons in Hnd. destruct Hnd as [Hhead Hnd].
    cbn [seed_loop]. unfold bind at 1. unfold db_contains at 1.
    rewrite filter_cons. cbn [fst].
    destruct (db w !! k_code code) as [v |] eqn:E.
    + change (bool_decide (is_Some (Some v))) with true. cbn iota.
      destruct (IH created w Hnd) as (m' & Hrun & Hlook).
      exists m'. split.
      * rewrite Hrun. rewrite decide_False by discriminate. reflexivity.
      * intros k. rewrite Hlook. destruct (db w !! k) eqn:Ek; [reflexivity |].
        unfold seed_entry. cbn [find fst].
        rewrite bool_decide_eq_false_2; [reflexivity |].
        intros <-. congruence.
    + change (bool_decide (is_Some (@None dbval))) with false. cbn iota.
      unfold bind at 1. unfold db_set at 1.
      set (rec := mkCode code "" tier (iso_week_id dt) (to_iso e) (to_iso dt)).
      destruct (IH (created + 1)
                   (mkWorld (<[k_code code := DCode rec]> (db w)) (ticks w)) Hnd)
        as (m' & Hrun & Hlook).
      exists m'. split.
      * rewrite Hrun. cbn [db ticks]. rewrite decide_True by reflexivity.
        rewrite (absent_filter_insert _ _ _ _ Hhead). cbn [length].
        f_equal. f_equal. lia.
      * intros k. rewrite Hlook. cbn [db].
        unfold seed_entry. cbn [find fst].
        destruct (decide (k_code code = k)) as [<- | Hne].
        -- rewrite lookup_insert_eq, E, bool_decide_eq_true_2 by reflexivity.
           reflexivity.
        -- rewrite lookup_insert_ne by exact Hne.
           rewrite bool_decide_eq_false_2 by exact Hne. reflexivity.
Qed.

Lemma seed_keys_distinct : NoDup (map seed_key SEED_CODES).
Proof. apply (bool_decide_unpack (NoDup (map seed_key SEED_CODES))). vm_compute. exact I. Qed.

Lemma seed_entry_member (dt e : datetime) (items : list (string * string))
    (item : string * string) :
  NoDup (map seed_key items) ->
  item ∈ items ->
  seed_entry to_iso dt e items (seed_key item) = Some (DCode (seed_record to_iso dt e item)).
Proof.
  induction items as [| it rest IH]; intros Hnd Hin; [inversion Hin |].
  cbn [map] in Hnd. apply NoDup_cons in Hnd. destruct Hnd as [Hhead Hnd].
  unfold seed_entry. cbn [find].
  apply elem_of_cons in Hin. destruct Hin as [-> | Hin].
  - rewrite bool_decide_eq_true_2 by reflexivity. reflexivity.
  - rewrite bool_decide_eq_false_2.
    + apply (IH Hnd Hin).
    + intros Heq. apply Hhead. fold (seed_key it) in Heq. rewrite Heq.
      apply list_elem_of_In, in_map, list_elem_of_In. exact Hin.
Qed.

Lemma seed_entry_other (dt e : datetime) (items : list (string * string)) (k : string) :
  (forall item, item ∈ items -> seed_key item <> k) ->
  seed_entry to_iso dt e items k = None.
Proof.
  induction items as [| it rest IH]; intros Hk; [reflexivity |].
  unfold seed_entry. cbn [find].
  rewrite bool_decide_eq_false_2 by (apply Hk; left).
  apply IH. intros item Hin. apply Hk. right. exact Hin.
Qed.

Lemma seed_entry_key (dt e : datetime) (items : list (string * string)) (k : string)
    (v : dbval) :
  seed_entry to_iso dt e items k = Some v ->
  exists item, item ∈ items /\ seed_key item = k.
Proof.
  induction items as [| it rest IH]; [discriminate |].
  unfold seed_entry. cbn [find]. case_bool_decide as Hk.
  - intros _. exists it. split; [left | exact Hk].
  - intros H. destruct (IH H) as (item & Hin & Heq).
    exists item. split; [right; exact Hin | exact Heq].
Qed.

Lemma seed_run (w : World) (e : datetime) :
  week_expiry_sunday_235959 (clock (ticks w)) = Ok e ->
  let dt := clock (ticks w) in
  exists m',
    seed_demo_codes_if_missing clock to_iso w =
      (Ok (Z.of_nat (length (missing_seeds (db w))), iso_week_id dt, to_iso e),
       mkWorld m' (S (ticks w))) /\
    forall k, m' !! k = match db w !! k with
                        | Some v => Some v
                        | None => seed_entry to_iso dt e SEED_CODES k
                        end.
Proof.
  intros He dt. subst dt. unfold seed_demo_codes_if_missing.
  unfold bind at 1. unfold now_et at 1. cbn [db ticks].
  unfold bind at 1. unfold lift at 1. rewrite He.
  destruct (seed_loop_run (clock (ticks w)) e SEED_CODES 0
              (mkWorld (db w) (S (ticks w))) seed_keys_distinct)
    as (m' & Hrun & Hlook).
  exists m'. split.
  - unfold bind at 1. rewrite Hrun. reflexivity.
  - exact Hlook.
Qed.

Lemma seed_without_expiry (w : World) :
  (forall e, week_expiry_sunday_235959 (clock (ticks w)) <> Ok e) ->
  exists r, seed_demo_codes_if_missing clock to_iso w = (r, mkWorld (db w) (S (ticks w))).
Proof.
  intros Hno. unfold seed_demo_codes_if_missing.
  unfold bind at 1. unfold now_et at 1. cbn [db ticks].
  unfold bind at 1. unfold lift at 1.
  destruct (week_expiry_sunday_235959 (clock (ticks w))) as [e | err |].
  - destruct (Hno e eq_refl).
  - eexists. reflexivity.
  - eexists. reflexivity.
Qed.

(** C10. [seed_demo_codes_if_missing] keeps every entry the store already
    has, however it ends. When the expiry of the current week is
    representable it returns: for each item of [SEED_CODES] whose key was
    free it has stored an unbound record (empty email) carrying the item's
    tier, the current week id and that week's expiry; it has touched no other
    key and it returns the number of records it created. Run again on the
    resulting store, at any later time, it creates nothing and leaves the
    store unchanged. *)
Theorem seed_demo_codes_idempotent (w : World) :
  (forall r w1,
     seed_demo_codes_if_missing clock to_iso w = (r, w1) ->
     forall k v, db w !! k = Some v -> db w1 !! k = Some v) /\
  (forall e : datetime,
     week_expiry_sunday_235959 (clock (ticks w)) = Ok e ->
     let dt := clock (ticks w) in
     exists w1,
       seed_demo_codes_if_missing clock to_iso w =
         (Ok (Z.of_nat (length (missing_seeds (db w))), iso_week_id dt, to_iso e), w1) /\
       (forall code tier,
          (code, tier) ∈ SEED_CODES -> db w !! k_code code = None ->
          db w1 !! k_code code =
            Some (DCode (mkCode code "" tier (iso_week_id dt) (to_iso e) (to_iso dt)))) /\
       (forall k,
          (forall code tier, (code, tier) ∈ SEED_CODES -> k <> k_code code) ->
          db w1 !! k = db w !! k) /\
       (forall (w2 : World) (e2 : datetime),
          db w2 = db w1 ->
          week_expiry_sunday_235959 (clock (ticks w2)) = Ok e2 ->
          exists w3,
            seed_demo_codes_if_missing clock to_iso w2 =
              (Ok (0, iso_week_id (clock (ticks w2)), to_iso e2), w3) /\
            db w3 = db w1)).
Proof.
  split.
  { intros r w1 Hrun k v Hk.
    destruct (week_expiry_sunday_235959 (clock (ticks w))) as [e | err |] eqn:He.
    - destruct (seed_run w e He) as (m1 & Hrun1 & Hlook).
      rewrite Hrun1 in Hrun. injection Hrun as _ <-. cbn [db].
      rewrite Hlook, Hk. reflexivity.
    - destruct (seed_without_expiry w) as [r' Hr']; [intros e; congruence |].
      rewrite Hr' in Hrun. injection Hrun as _ <-. exact Hk.
    - destruct (seed_without_expiry w) as [r' Hr']; [intros e; congruence |].
      rewrite Hr' in Hrun. injection Hrun as _ <-. exact Hk. }
  intros e He dt.
  destruct (seed_run w e He) as (m1 & Hrun & Hlook). fold dt in Hrun, Hlook.
  eexists. split; [exact Hrun |]. cbn [db].
  assert (Hseeded : forall item, item ∈ SEED_CODES -> is_Some (m1 !! seed_key item)).
  { intros item Hin. rewrite Hlook. destruct (db w !! seed_key item); [eauto |].
    rewrite (seed_entry_member dt e SEED_CODES item seed_keys_distinct Hin). eauto. }
  split.
  { intros code tier Hin Hfree. rewrite Hlook, Hfree.
    exact (seed_entry_member dt e SEED_CODES (code, tier) seed_keys_distinct Hin). }
  split.
  { intros k Hk. rewrite Hlook. destruct (db w !! k); [reflexivity |].
    apply seed_entry_other. intros [code tier] Hin Heq.
    exact (Hk code tier Hin (eq_sym Heq)). }
  intros w2 e2 Hdb He2.
  destruct (seed_run w2 e2 He2) as (m3 & Hrun2 & Hlook2).
  assert (Hnone : missing_seeds (db w2) = []).
  { unfold missing_seeds. apply absent_filter_none. rewrite Hdb. exact Hseeded. }
  rewrite Hnone in Hrun2. eexists. split; [exact Hrun2 |]. cbn [db].
  rewrite <- Hdb. apply map_eq. intros k. rewrite Hlook2.
  destruct (db w2 !! k) eqn:Ek; [reflexivity |].
  destruct (seed_entry to_iso (clock (ticks w2)) e2 SEED_CODES k) eqn:Es; [| reflexivity].
  destruct (seed_entry_key _ _ _ _ _ Es) as (item & Hin & Heq).
  destruct (Hseeded item Hin) as [v Hv]. rewrite Heq, <- Hdb, Ek in Hv. discriminate.
Qed.

End SeedFacts.

(** ** The store stays well shaped

    On a store in which every key holds a value of its own shape, the
    operations on users and codes return without raising and leave such a
    store: the shape errors of the model are never met by the program's own
    data. *)
Section ShapeFacts.

Variable clock : nat -> datetime.
Variable to_iso : datetime -> string.
Variable parse_iso : string -> option datetime.
Variable et_utcoffset : datetime -> Z.

Lemma user_slot (m : gmap string dbval) (email : string) :
  store_typed m ->
  m !! k_user email = None \/ exists rec, m !! k_user email = Some (DUser rec).
Proof.
  intros Hm. destruct (m !! k_user email) as [v |] eqn:E; [right | left; reflexivity].
  destruct (k_user_typed email v (store_typed_lookup _ _ _ Hm E)) as [rec ->]. eauto.
Qed.

Lemma code_slot (m : gmap string dbval) (code : string) :
  store_typed m ->
  m !! k_code code = None \/ exists rec, m !! k_code code = Some (DCode rec).
Proof.
  intros Hm. destruct (m !! k_code code) as [v |] eqn:E; [right | left; reflexivity].
  destruct (k_code_typed code v (store_typed_lookup _ _ _ Hm E)) as [rec ->]. eauto.
Qed.

Lemma ensure_user_shape (email tier : string) (w : World) :
  store_typed (db w) ->
  exists rec w',
    ensure_user clock to_iso email tier w = (Ok rec, w') /\
    db w' !! k_user email = Some (DUser rec) /\
    store_typed (db w').
Proof.
  intros Hm. destruct (user_slot (db w) email Hm) as [E | [rec E]].
  - eexists _, _. split; [apply ensure_user_new; exact E |]. cbn [db].
    split; [apply lookup_insert_eq |].
    apply store_typed_insert; [exact Hm | apply k_user_entry].
  - eexists _, _. split; [apply ensure_user_existing; exact E |]. cbn [db].
    split; [apply lookup_insert_eq |].
    apply store_typed_insert; [exact Hm | apply k_user_entry].
Qed.

Lemma decrement_credit_shape (email : string) (w : World) :
  store_typed (db w) ->
  exists n w',
    decrement_credit clock to_iso email w = (Ok n, w') /\
    0 <= n /\ stored_credits (db w') email = Some n /\ store_typed (db w').
Proof.
  intros Hm. destruct (user_slot (db w) email Hm) as [E | [rec E]].
  - eexists _, _. split; [apply decrement_credit_missing; exact E |]. cbn [db].
    split; [unfold DEFAULT_FREE_CREDITS; lia |].
    split; [apply stored_credits_insert |].
    apply store_typed_insert; [exact Hm | apply k_user_entry].
  - eexists _, _. split; [apply decrement_credit_existing; exact E |]. cbn [db].
    split; [lia |]. split; [apply stored_credits_insert |].
    apply store_typed_insert; [exact Hm | apply k_user_entry].
Qed.

Lemma update_user_credits_shape (email : string) (n : Z) (w : World) :
  store_typed (db w) ->
  exists w',
    update_user_credits clock to_iso email n w = (Ok tt, w') /\
    stored_credits (db w') email = Some n /\ store_typed (db w').
Proof.
  intros Hm. destruct (user_slot (db w) email Hm) as [E | [rec E]].
  - eexists. split.
    { unfold update_user_credits, bind, db_get, db_set, ret, now_et.
      rewrite E. reflexivity. }
    cbn [db]. split; [apply stored_credits_insert |].
    apply store_typed_insert; [exact Hm | apply k_user_entry].
  - eexists. split; [apply update_user_credits_existing; exact E |]. cbn [db].
    split; [apply stored_credits_insert |].
    apply store_typed_insert; [exact Hm | apply k_user_entry].
Qed.

Lemma expiry_passed_returns (expires_at : string) (dt : datetime) :
  expiry_passed parse_iso et_utcoffset expires_at dt <> Stopped.
Proof.
  unfold expiry_passed, dt_lt. destruct (parse_iso expires_at) as [e |]; [| discriminate].
  destruct (same_tzinfo (tz e) (tz dt)); [discriminate |].
  destruct (utcoffset et_utcoffset e), (utcoffset et_utcoffset dt); try discriminate.
  destruct (_ =? _); discriminate.
Qed.

Lemma validate_login_code_shape (email code : string) (w : World) :
  store_typed (db w) ->
  exists r w',
    validate_login_code clock parse_iso et_utcoffset email code w = (Ok r, w') /\
    store_typed (db w').
Proof.
  intros Hm. destruct (code_slot (db w) code Hm) as [E | [rec E]].
  - rewrite validate_missing by exact E. eauto.
  - rewrite (validate_found clock parse_iso et_utcoffset email code w rec E).
    destruct (negb (String.eqb _ _)); [eauto |].
    pose proof (expiry_passed_returns (code_expires_at rec) (clock (ticks w))) as Hret.
    destruct (expiry_passed _ _ _ _) as [[|] | e |]; [eauto | | eauto | congruence].
    destruct (PyStr.truthy (code_email rec)).
    + destruct (negb (String.eqb _ _)); eauto.
    + eexists _, _. split; [reflexivity |]. cbn [db].
      apply store_typed_insert; [exact Hm | apply k_code_entry].
Qed.

Lemma bind_unbound_code_shape (code email : string) (w : World) :
  store_typed (db w) ->
  exists r w',
    bind_unbound_code_to_email code email w = (Ok r, w') /\ store_typed (db w').
Proof.
  intros Hm. unfold bind_unbound_code_to_email, bind, db_get.
  destruct (code_slot (db w) code Hm) as [E | [rec E]]; rewrite E.
  - eexists _, _. split; [reflexivity | exact Hm].
  - cbn [as_code ret]. destruct (PyStr.truthy (code_email rec)).
    + eexists _, _. split; [reflexivity | exact Hm].
    + eexists _, _. split; [reflexivity |]. cbn [db].
      apply store_typed_insert; [exact Hm | apply k_code_entry].
Qed.

Lemma create_code_shape (token email tier : string) (w : World) (e : datetime) :
  week_expiry_sunday_235959 (clock (ticks w)) = Ok e ->
  store_typed (db w) ->
  exists rec w',
    create_code_for_email clock to_iso token email tier w = (Ok rec, w') /\
    store_typed (db w').
Proof.
  intros He Hm. eexists _, _. split; [apply create_code_run; exact He |]. cbn [db].
  apply store_typed_insert; [exact Hm | apply k_code_entry].
Qed.

Lemma seed_demo_codes_shape (w : World) (e : datetime) :
  week_expiry_sunday_235959 (clock (ticks w)) = Ok e ->
  store_typed (db w) ->
  exists r w',
    seed_demo_codes_if_missing clock to_iso w = (Ok r, w') /\ store_typed (db w').
Proof.
  intros He Hm. destruct (seed_run clock to_iso w e He) as (m' & Hrun & Hlook).
  eexists _, _. split; [exact Hrun |]. cbn [db].
  intros k v Hk. rewrite Hlook in Hk.
  destruct (db w !! k) as [v0 |] eqn:E.
  - injection Hk as <-. exact (Hm k v0 E).
  - destruct (seed_entry_key to_iso _ _ _ _ _ Hk) as (item & _ & <-).
    unfold seed_entry in Hk. destruct (find _ _); [| discriminate].
    injection Hk as <-. apply k_code_entry.
Qed.

End ShapeFacts.

(** * Further properties of the code *)

(** ** Text wrapping *)
Section WrapFacts.

Lemma append_cons (c : ascii) (r s : string) : String c r ++ s = String c (r ++ s).
Proof. reflexivity. Qed.

Lemma append_empty_r (s : string) : s ++ "" = s.
Proof.
  induction s as [| c r IH]; [reflexivity |]. rewrite append_cons, IH. reflexivity.
Qed.

Lemma append_assoc (a b c : string) : (a ++ b) ++ c = a ++ (b ++ c).
Proof.
  induction a as [| x r IH]; [reflexivity |]. rewrite !append_cons, IH. reflexivity.
Qed.

Lemma length_append (a b : string) :
  String.length (a ++ b) = (String.length a + String.length b)%nat.
Proof.
  induction a as [| x r IH]; [reflexivity |].
  rewrite append_cons. cbn [String.length]. rewrite IH. reflexivity.
Qed.

Lemma truthy_append_l (a b : string) : PyStr.truthy a = true -> PyStr.truthy (a ++ b) = true.
Proof. destruct a; [discriminate | reflexivity]. Qed.

Lemma no_space_append (a b : string) :
  no_space (a ++ b) = no_space a && no_space b.
Proof.
  induction a as [| x r IH]; [reflexivity |].
  rewrite append_cons. cbn [no_space]. rewrite IH. destruct (PyStr.isspace x); reflexivity.
Qed.

Lemma split_from_word (w s acc : string) :
  no_space w = true -> split_from (w ++ s) acc = split_from s (acc ++ w).
Proof.
  revert acc. induction w as [| c r IH]; intros acc Hw.
  - rewrite append_empty_r. reflexivity.
  - cbn [no_space] in Hw. apply andb_true_iff in Hw. destruct Hw as [Hc Hr].
    apply negb_true_iff in Hc. rewrite append_cons. cbn [split_from].
    rewrite Hc, (IH _ Hr), append_assoc. reflexivity.
Qed.

Lemma split_from_words (s acc : string) :
  no_space acc = true -> Forall is_word (split_from s acc).
Proof.
  revert acc. induction s as [| c r IH]; intros acc Hacc; cbn [split_from].
  - destruct (PyStr.truthy acc) eqn:E; constructor; [split; assumption | constructor].
  - destruct (PyStr.isspace c) eqn:Ec.
    + destruct (PyStr.truthy acc) eqn:E.
      * constructor; [split; assumption | apply IH; reflexivity].
      * apply IH. reflexivity.
    + apply IH. rewrite no_space_append, Hacc. cbn [no_space andb]. rewrite Ec. reflexivity.
Qed.

Lemma str_split_words (s : string) : Forall is_word (str_split s).
Proof. apply split_from_words. reflexivity. Qed.

(** Splitting a line made of words gives the words back. *)
Lemma str_split_join (ws : list string) :
  Forall is_word ws -> str_split (str_join ws) = ws.
Proof.
  unfold str_split, str_join.
  induction ws as [| w rest IH]; intros Hws; [reflexivity |].
  apply Forall_cons in Hws. destruct Hws as [[Ht Hn] Hrest].
  destruct rest as [| x xs].
  - cbn [String.concat]. rewrite <- (append_empty_r w) at 1.
    rewrite (split_from_word w "" "" Hn). change ("" ++ w) with w.
    cbn [split_from]. rewrite Ht. reflexivity.
  - change (String.concat " " (w :: x :: xs))
      with (w ++ " " ++ String.concat " " (x :: xs)).
    rewrite (split_from_word w _ "" Hn).
    change ("" ++ w) with w.
    change (" " ++ String.concat " " (x :: xs))
      with (String " "%char (String.concat " " (x :: xs))).
    cbn [split_from]. change (PyStr.isspace " ") with true. cbn iota.
    rewrite Ht, (IH Hrest). reflexivity.
Qed.

Lemma wrap_loop_words (words : list string) (max_chars : Z) :
  forall (lines cur : list string) (count : Z),
    Forall is_word words -> Forall is_word cur ->
    flat_map str_split (wrap_loop words max_chars lines cur count)
    = (flat_map str_split lines ++ cur ++ words)%list.
Proof.
  induction words as [| w rest IH]; intros lines cur count Hwords Hcur.
  - cbn [wrap_loop]. rewrite app_nil_r.
    destruct cur as [| c cs]; cbn [nonempty]; [rewrite app_nil_r; reflexivity |].
    rewrite flat_map_app. cbn [flat_map]. rewrite app_nil_r.
    rewrite (str_split_join _ Hcur). reflexivity.
  - apply Forall_cons in Hwords. destruct Hwords as [Hw Hrest].
    cbn [wrap_loop]. destruct (_ >? _).
    + rewrite IH; [| exact Hrest | constructor; [exact Hw | constructor]].
      rewrite flat_map_app. cbn [flat_map]. rewrite app_nil_r.
      rewrite (str_split_join _ Hcur), <- app_assoc. reflexivity.
    + rewrite IH;
        [| exact Hrest
         | apply Forall_app; split; [exact Hcur | constructor; [exact Hw | constructor]]].
      rewrite <- app_assoc. reflexivity.
Qed.

(** X1. [wrap_text] keeps the words: the words of the lines it returns,
    read in order, are the words of the text. *)
Theorem wrap_text_keeps_words (text : string) (max_chars : Z) :
  flat_map str_split (wrap_text text max_chars) = str_split text.
Proof.
  unfold wrap_text.
  rewrite wrap_loop_words; [reflexivity | apply str_split_words | constructor].
Qed.

Lemma str_join_snoc (cur : list string) (w : string) :
  str_join (cur ++ [w]) = if nonempty cur then str_join cur ++ " " ++ w else w.
Proof.
  unfold str_join. induction cur as [| c cs IH]; [reflexivity |].
  cbn [nonempty]. destruct cs as [| d ds]; [reflexivity |].
  change (String.concat " " ((c :: d :: ds) ++ [w]))
    with (c ++ " " ++ String.concat " " ((d :: ds) ++ [w])).
  rewrite IH. cbn [nonempty].
  change (String.concat " " (c :: d :: ds))
    with (c ++ " " ++ String.concat " " (d :: ds)).
  rewrite !append_assoc. reflexivity.
Qed.

Lemma str_len_join_snoc (cur : list string) (w : string) :
  str_len (str_join (cur ++ [w]))
  = str_len (str_join cur) + (str_len w + (if nonempty cur then 1 else 0)).
Proof.
  rewrite str_join_snoc. unfold str_len.
  destruct (nonempty cur) eqn:E.
  - rewrite !length_append. cbn [String.length]. lia.
  - destruct cur; [cbn; lia | discriminate].
Qed.

Lemma wrap_loop_width (W : list string) (max_chars : Z) (words : list string) :
  forall (lines cur : list string) (count : Z),
    (forall w, In w words -> In w W) ->
    (forall w, In w cur -> In w W) ->
    count = str_len (str_join cur) ->
    count <= max_chars \/ (length cur <= 1)%nat ->
    (forall l, In l lines -> str_len l <= max_chars \/ l = "" \/ In l W) ->
    forall l, In l (wrap_loop words max_chars lines cur count) ->
              str_len l <= max_chars \/ l = "" \/ In l W.
Proof.
  assert (Hemit : forall (lines cur : list string) (count : Z),
             (forall w, In w cur -> In w W) ->
             count = str_len (str_join cur) ->
             count <= max_chars \/ (length cur <= 1)%nat ->
             (forall l, In l lines -> str_len l <= max_chars \/ l = "" \/ In l W) ->
             forall l, In l (lines ++ [str_join cur]) ->
                       str_len l <= max_chars \/ l = "" \/ In l W).
  { intros lines cur count Hcur Hcount Hfit Hlines l Hl.
    apply in_app_or in Hl. destruct Hl as [Hl | [<- | []]]; [auto |].
    destruct Hfit as [Hfit | Hone]; [left; lia |].
    destruct cur as [| c [| d ds]]; [right; left; reflexivity | | cbn in Hone; lia].
    right; right. apply Hcur. left. reflexivity. }
  induction words as [| w rest IH]; intros lines cur count Hwords Hcur Hcount Hfit Hlines.
  - cbn [wrap_loop]. destruct (nonempty cur); [| exact Hlines].
    exact (Hemit lines cur count Hcur Hcount Hfit Hlines).
  - cbn [wrap_loop]. destruct (Z.gtb_spec (count + (str_len w + (if nonempty cur then 1 else 0)))
                                          max_chars) as [Hover | Hfits].
    + apply IH.
      * intros x Hx. apply Hwords. right. exact Hx.
      * intros x [<- | []]. apply Hwords. left. reflexivity.
      * reflexivity.
      * right. cbn. lia.
      * exact (Hemit lines cur count Hcur Hcount Hfit Hlines).
    + apply IH.
      * intros x Hx. apply Hwords. right. exact Hx.
      * intros x Hx. apply in_app_or in Hx. destruct Hx as [Hx | [<- | []]].
        -- apply Hcur. exact Hx.
        -- apply Hwords. left. reflexivity.
      * rewrite str_len_join_snoc, Hcount. reflexivity.
      * left. lia.
      * exact Hlines.
Qed.

(** X2. With a non-negative width, a line returned by [wrap_text] is at
    most [max_chars] characters long unless it is a single word of the text
    (one that does not fit by itself). *)
Theorem wrap_text_line_width (text : string) (max_chars : Z) (line : string) :
  0 <= max_chars ->
  In line (wrap_text text max_chars) ->
  str_len line <= max_chars \/ In line (str_split text).
Proof.
  intros Hm Hin. unfold wrap_text in Hin.
  destruct (wrap_loop_width (str_split text) max_chars (str_split text) [] [] 0
              (fun w H => H) (fun w H => match H with end) eq_refl
              (or_introl Hm) (fun l H => match H with end) line Hin)
    as [H | [-> | H]]; [left; exact H | left; exact Hm | right; exact H].
Qed.

Lemma wrap_loop_prefix (max_chars : Z) (words : list string) :
  forall (lines cur : list string) (count : Z),
    wrap_loop words max_chars lines cur count
    = (lines ++ wrap_loop words max_chars [] cur count)%list.
Proof.
  induction words as [| w rest IH]; intros lines cur count; cbn [wrap_loop].
  - destruct (nonempty cur); [reflexivity | rewrite app_nil_r; reflexivity].
  - destruct (_ >? _).
    + rewrite IH, (IH ([] ++ [str_join cur])%list), <- app_assoc. reflexivity.
    + apply IH.
Qed.

Lemma str_join_truthy (cur : list string) :
  Forall is_word cur -> nonempty cur = true -> PyStr.truthy (str_join cur) = true.
Proof.
  intros Hcur Hne. destruct cur as [| c cs]; [discriminate |].
  apply Forall_cons in Hcur. destruct Hcur as [[Ht _] _].
  unfold str_join. destruct cs as [| d ds]; [exact Ht |].
  change (String.concat " " (c :: d :: ds))
    with (c ++ " " ++ String.concat " " (d :: ds)).
  apply truthy_append_l. exact Ht.
Qed.

Lemma wrap_loop_no_empty_line (max_chars : Z) (words : list string) :
  forall (cur : list string) (count : Z),
    Forall is_word words -> Forall is_word cur -> nonempty cur = true ->
    Forall (fun l => l <> "") (wrap_loop words max_chars [] cur count).
Proof.
  assert (Hline : forall cur, Forall is_word cur -> nonempty cur = true ->
                              str_join cur <> "").
  { intros cur Hcur Hne E. pose proof (str_join_truthy cur Hcur Hne) as Ht.
    rewrite E in Ht. discriminate. }
  induction words as [| w rest IH]; intros cur count Hwords Hcur Hne; cbn [wrap_loop].
  - rewrite Hne. constructor; [apply Hline; assumption | constructor].
  - apply Forall_cons in Hwords. destruct Hwords as [Hw Hrest].
    assert (H1 : Forall is_word [w]) by (constructor; [exact Hw | constructor]).
    destruct (_ >? _).
    + rewrite wrap_loop_prefix. cbn [app].
      constructor; [apply Hline; assumption |].
      apply IH; [exact Hrest | exact H1 | reflexivity].
    + apply IH; [exact Hrest | | destruct cur; reflexivity].
      apply Forall_app. split; assumption.
Qed.

(** X3. [wrap_text] returns no line for a text without words. It returns an
    empty line only when the first word is longer than [max_chars], and then
    only as the first line; when the first word fits, no line is empty. *)
Theorem wrap_text_empty_lines (text : string) (max_chars : Z) :
  (str_split text = [] -> wrap_text text max_chars = []) /\
  (forall w ws,
     str_split text = w :: ws ->
     (max_chars < str_len w ->
      exists rest, wrap_text text max_chars = "" :: rest /\
                   Forall (fun l => l <> "") rest) /\
     (str_len w <= max_chars ->
      Forall (fun l => l <> "") (wrap_text text max_chars))).
Proof.
  unfold wrap_text. split; [intros ->; reflexivity |].
  intros w ws E. rewrite E.
  pose proof (str_split_words text) as Hwords. rewrite E in Hwords.
  apply Forall_cons in Hwords. destruct Hwords as [Hw Hws].
  assert (H1 : Forall is_word [w]) by (constructor; [exact Hw | constructor]).
  cbn [wrap_loop nonempty]. split; intros Hlen.
  - destruct (Z.gtb_spec (0 + (str_len w + 0)) max_chars); [| lia].
    rewrite wrap_loop_prefix. cbn [app str_join String.concat].
    eexists. split; [reflexivity |].
    apply wrap_loop_no_empty_line; [exact Hws | exact H1 | reflexivity].
  - destruct (Z.gtb_spec (0 + (str_len w + 0)) max_chars); [lia |].
    apply wrap_loop_no_empty_line; [exact Hws | exact H1 | reflexivity].
Qed.

End WrapFacts.

(** ** Keys and normal forms *)
Section KeyFacts.
Import PyStr.

Lemma lower_ascii_idempotent (c : ascii) : lower_ascii (lower_ascii c) = lower_ascii c.
Proof. destruct c as [[] [] [] [] [] [] [] []]; reflexivity. Qed.

Lemma lower_idempotent (s : string) : lower (lower s) = lower s.
Proof.
  induction s as [| c r IH]; [reflexivity |].
  cbn [lower]. rewrite lower_ascii_idempotent, IH. reflexivity.
Qed.

(** The normal form of an email, [email.strip().lower()]. *)
Lemma normal_form_fixed (email : string) :
  lower (strip (lower (strip email))) = lower (strip email) /\
  strip (lower (strip (lower email))) = lower (strip email) /\
  strip (lower email) = lower (strip email).
Proof.
  split; [| split].
  - rewrite (strip_lower (strip email)), strip_idempotent, lower_idempotent.
    reflexivity.
  - rewrite (strip_lower email), lower_idempotent, (strip_lower (strip email)),
            strip_idempotent.
    reflexivity.
  - apply strip_lower.
Qed.

Lemma key_prefix_inj (p a b : string) : p ++ a = p ++ b -> a = b.
Proof. induction p as [| c r IH]; [auto |]. intros [= H]. exact (IH H). Qed.

Lemma same_letter_lower (c d : ascii) :
  same_letter c d = true -> lower_ascii c = lower_ascii d.
Proof.
  unfold same_letter, lower_ascii.
  pose proof (ascii_N_embedding c) as Hc. pose proof (ascii_N_embedding d) as Hd.
  set (n := N_of_ascii c) in *. set (m := N_of_ascii d) in *.
  intros H. apply orb_true_iff in H. destruct H as [H | H].
  - apply orb_true_iff in H. destruct H as [H | H].
    + apply N.eqb_eq in H. rewrite <- Hc, <- Hd, H. reflexivity.
    + apply andb_true_iff in H. destruct H as [Hr Hm]. rewrite Hr.
      apply N.eqb_eq in Hm. apply andb_true_iff in Hr. destruct Hr as [H1 H2].
      apply N.leb_le in H1, H2.
      replace ((65 <=? m) && (m <=? 90))%N with false.
      * rewrite <- Hd, Hm. reflexivity.
      * symmetry. apply andb_false_iff. right. apply N.leb_gt. lia.
  - apply andb_true_iff in H. destruct H as [Hr Hn]. rewrite Hr.
    apply N.eqb_eq in Hn. apply andb_true_iff in Hr. destruct Hr as [H1 H2].
    apply N.leb_le in H1, H2.
    replace ((65 <=? n) && (n <=? 90))%N with false.
    + rewrite <- Hc, Hn. reflexivity.
    + symmetry. apply andb_false_iff. right. apply N.leb_gt. lia.
Qed.

Lemma same_ignoring_case_lower (a b : string) :
  same_ignoring_case a b = true -> lower a = lower b.
Proof.
  revert b. induction a as [| c r IH]; intros [| d r'] H; try discriminate H.
  - reflexivity.
  - cbn [same_ignoring_case] in H. apply andb_true_iff in H. destruct H as [Hc Hr].
    cbn [lower]. rewrite (same_letter_lower c d Hc), (IH r' Hr). reflexivity.
Qed.

Lemma is_whitespace_isspace (c : ascii) : is_whitespace c = isspace c.
Proof. destruct c as [[] [] [] [] [] [] [] []]; reflexivity. Qed.

Lemma lstrip_padding (p s : string) : is_padding p = true -> lstrip (p ++ s) = lstrip s.
Proof.
  induction p as [| c r IH]; intros H; [reflexivity |].
  cbn [is_padding] in H. apply andb_true_iff in H. destruct H as [Hc Hr].
  rewrite append_cons. cbn [lstrip]. rewrite <- is_whitespace_isspace, Hc.
  exact (IH Hr).
Qed.

Lemma rstrip_only_padding (q : string) : is_padding q = true -> rstrip q = "".
Proof.
  induction q as [| c r IH]; intros H; [reflexivity |].
  cbn [is_padding] in H. apply andb_true_iff in H. destruct H as [Hc Hr].
  cbn [rstrip]. rewrite (IH Hr), <- is_whitespace_isspace, Hc. reflexivity.
Qed.

Lemma rstrip_padding (s q : string) : is_padding q = true -> rstrip (s ++ q) = rstrip s.
Proof.
  intros H. induction s as [| c r IH]; [exact (rstrip_only_padding q H) |].
  rewrite append_cons. cbn [rstrip]. rewrite IH. reflexivity.
Qed.

Lemma strip_padding (p s q : string) :
  is_padding p = true -> is_padding q = true -> strip (p ++ s ++ q) = strip s.
Proof.
  intros Hp Hq. unfold strip. rewrite (lstrip_padding p _ Hp). clear p Hp.
  induction s as [| c r IH].
  - change ("" ++ q) with q. rewrite <- (append_empty_r q) at 1.
    rewrite (lstrip_padding q "" Hq). reflexivity.
  - rewrite append_cons. cbn [lstrip]. destruct (isspace c); [exact IH |].
    rewrite <- append_cons. apply rstrip_padding, Hq.
Qed.

Lemma plain_lower (s : string) : plain s = true -> lower s = s.
Proof.
  induction s as [| c r IH]; intros H; [reflexivity |].
  cbn [plain] in H. apply andb_true_iff in H. destruct H as [H Hr].
  apply andb_true_iff in H. destruct H as [Hcap _].
  cbn [lower]. rewrite (IH Hr). unfold lower_ascii.
  unfold is_capital in Hcap. apply negb_true_iff in Hcap. rewrite Hcap. reflexivity.
Qed.

Lemma plain_strip (s : string) : plain s = true -> strip s = s.
Proof.
  intros H. unfold strip.
  assert (Hl : lstrip s = s).
  { destruct s as [| c r]; [reflexivity |]. cbn [plain] in H.
    apply andb_true_iff in H. destruct H as [H _].
    apply andb_true_iff in H. destruct H as [_ Hws].
    apply negb_true_iff in Hws. cbn [lstrip].
    rewrite <- is_whitespace_isspace, Hws. reflexivity. }
  rewrite Hl. clear Hl. induction s as [| c r IH]; [reflexivity |].
  cbn [plain] in H. apply andb_true_iff in H. destruct H as [H Hr].
  apply andb_true_iff in H. destruct H as [_ Hws]. apply negb_true_iff in Hws.
  cbn [rstrip]. rewrite (IH Hr). destruct r; [| reflexivity].
  rewrite <- is_whitespace_isspace, Hws. reflexivity.
Qed.


End KeyFacts.

(** ** Week identifiers *)
Section WeekFacts.
Import Calendar.

Lemma iso_week_number_range (o : Z) :
  1 <= snd (fst (isocalendar_ord o)) <= 53.
Proof.
  rewrite isocalendar_by_thursday. cbn [fst snd]. rewrite first_day.
  pose proof (ord2year_spec (thursday_of o)) as S.
  pose proof (year_length (ord2year (thursday_of o))) as L.
  revert S L. generalize (days_before_year (ord2year (thursday_of o) + 1)).
  generalize (days_before_year (ord2year (thursday_of o))).
  intros D1 D2 S L. Z.div_mod_to_equations. lia.
Qed.

Lemma pad2_two_digits (w : Z) :
  0 <= w < 100 ->
  String.length (PyStr.pad2 w) = 2%nat /\ Ref.digits_val (PyStr.pad2 w) 0 = Some w.
Proof.
  intros Hw.
  assert (Hall : forallb (fun n => Nat.eqb (String.length (PyStr.pad2 (Z.of_nat n))) 2
                                   && bool_decide (Ref.digits_val (PyStr.pad2 (Z.of_nat n)) 0
                                                   = Some (Z.of_nat n)))
                         (seq 0 100) = true) by (vm_compute; reflexivity).
  rewrite forallb_forall in Hall.
  specialize (Hall (Z.to_nat w)). rewrite Z2Nat.id in Hall by lia.
  assert (Hin : In (Z.to_nat w) (seq 0 100)) by (apply in_seq; lia).
  apply Hall, andb_true_iff in Hin. destruct Hin as [H1 H2].
  apply Nat.eqb_eq in H1. apply bool_decide_eq_true in H2. split; assumption.
Qed.

Lemma append_inj_length (a1 b1 a2 b2 : string) :
  a1 ++ b1 = a2 ++ b2 -> String.length b1 = String.length b2 -> a1 = a2 /\ b1 = b2.
Proof.
  revert a2. induction a1 as [| c r IH]; intros a2 E L.
  - destruct a2 as [| c2 r2]; [split; [reflexivity | exact E] |].
    exfalso. apply (f_equal String.length) in E.
    change ("" ++ b1) with b1 in E. rewrite length_append in E. cbn in E. lia.
  - destruct a2 as [| c2 r2].
    + exfalso. apply (f_equal String.length) in E.
      change ("" ++ b2) with b2 in E. rewrite length_append in E. cbn in E. lia.
    + rewrite !append_cons in E. injection E as -> E.
      destruct (IH r2 E L) as [-> ->]. split; reflexivity.
Qed.

Lemma iso_week_id_inj (a b : datetime) :
  iso_week_id a = iso_week_id b -> fst (isocalendar a) = fst (isocalendar b).
Proof.
  unfold iso_week_id, isocalendar.
  pose proof (iso_week_number_range (ordinal a)) as Ra.
  pose proof (iso_week_number_range (ordinal b)) as Rb.
  destruct (isocalendar_ord (ordinal a)) as [[ya wa] da].
  destruct (isocalendar_ord (ordinal b)) as [[yb wb] db0].
  cbn [fst snd] in *. intros E.
  destruct (pad2_two_digits wa ltac:(lia)) as [La Pa].
  destruct (pad2_two_digits wb ltac:(lia)) as [Lb Pb].
  apply append_inj_length in E.
  - destruct E as [Ey Ew]. apply (inj pretty) in Ey.
    apply (key_prefix_inj "W") in Ew.
    rewrite Ew in Pa. rewrite Pa in Pb. injection Pb as ->. rewrite Ey. reflexivity.
  - rewrite !append_cons. cbn [String.length]. change ("" ++ PyStr.pad2 wa) with (PyStr.pad2 wa).
    change ("" ++ PyStr.pad2 wb) with (PyStr.pad2 wb). rewrite La, Lb. reflexivity.
Qed.

Lemma thursday_by_year_week (o1 o2 : Z) :
  fst (isocalendar_ord o1) = fst (isocalendar_ord o2) -> thursday_of o1 = thursday_of o2.
Proof.
  rewrite !isocalendar_by_thursday, !first_day. intros [= Ey Ew].
  rewrite <- Ey in Ew.
  revert Ew. generalize (days_before_year (ord2year (thursday_of o1))). intros D Ew.
  assert (H1 : thursday_of o1 mod 7 = 4).
  { unfold thursday_of, isoweekday_ord.
    destruct (Z.eqb_spec (o1 mod 7) 0); Z.div_mod_to_equations; lia. }
  assert (H2 : thursday_of o2 mod 7 = 4).
  { unfold thursday_of, isoweekday_ord.
    destruct (Z.eqb_spec (o2 mod 7) 0); Z.div_mod_to_equations; lia. }
  revert H1 H2 Ew. generalize (thursday_of o1) (thursday_of o2). intros T1 T2 H1 H2 Ew.
  Z.div_mod_to_equations. lia.
Qed.

(** X6. Two datetimes carry the same week id exactly when they lie in the
    same Monday-to-Sunday week; the ISO week number is between 1 and 53 and
    the days of one week are at most six days apart. *)
Theorem iso_week_id_same_week (a b : datetime) :
  (iso_week_id a = iso_week_id b <-> monday_of (ordinal a) = monday_of (ordinal b)) /\
  1 <= snd (fst (isocalendar a)) <= 53 /\
  (iso_week_id a = iso_week_id b -> -6 <= ordinal a - ordinal b <= 6).
Proof.
  assert (Hiff : iso_week_id a = iso_week_id b
                 <-> monday_of (ordinal a) = monday_of (ordinal b)).
  { split.
    - intros E. apply iso_week_id_inj in E. apply thursday_by_year_week in E.
      unfold thursday_of in E. unfold monday_of. lia.
    - intros E. apply iso_week_id_of_year_week. unfold isocalendar.
      rewrite !isocalendar_by_thursday.
      replace (thursday_of (ordinal a)) with (thursday_of (ordinal b))
        by (unfold thursday_of; unfold monday_of in E; lia).
      reflexivity. }
  split; [exact Hiff |]. split; [apply iso_week_number_range |].
  intros E. apply Hiff in E. unfold monday_of in E.
  pose proof (isoweekday_range (ordinal a)). pose proof (isoweekday_range (ordinal b)).
  lia.
Qed.

(** X7. The expiry depends only on the week and the tzinfo: datetimes of
    the same ISO week (with the same tzinfo) get the same result from
    [week_expiry_sunday_235959], and an expiry is its own expiry. *)
Theorem week_expiry_same_for_week (a b : datetime) :
  (iso_week_id a = iso_week_id b -> tz a = tz b ->
   week_expiry_sunday_235959 a = week_expiry_sunday_235959 b) /\
  (forall e, week_expiry_sunday_235959 a = Ok e -> week_expiry_sunday_235959 e = Ok e).
Proof.
  split.
  - intros E Htz. apply iso_week_id_inj in E. apply thursday_by_year_week in E.
    unfold week_expiry_sunday_235959, add_days, isoweekday, replace_time.
    unfold thursday_of in E.
    replace (ordinal a + (7 - isoweekday_ord (ordinal a)))
      with (ordinal b + (7 - isoweekday_ord (ordinal b))) by lia.
    destruct (_ && _); cbn [ordinal tz]; rewrite ?Htz; reflexivity.
  - intros e He. unfold week_expiry_sunday_235959, add_days, isoweekday in He.
    destruct ((0 <? _) && (_ <=? _)) eqn:Hrange; [| discriminate].
    injection He as <-. unfold replace_time. cbn [ordinal tz].
    unfold week_expiry_sunday_235959, add_days, isoweekday, replace_time.
    cbn [ordinal tz hour minute second microsecond].
    rewrite sunday_isoweekday.
    replace (ordinal a + (7 - isoweekday_ord (ordinal a)) + (7 - 7))
      with (ordinal a + (7 - isoweekday_ord (ordinal a))) by lia.
    rewrite Hrange. reflexivity.
Qed.

End WeekFacts.

(** ** Access codes: what validation and binding guarantee *)
Section CodeGuarantees.

Variable clock : nat -> datetime.
Variable to_iso : datetime -> string.
Variable parse_iso : string -> option datetime.
Variable et_utcoffset : datetime -> Z.

Local Abbreviation validate := (validate_login_code clock parse_iso et_utcoffset).

(** Every outcome of [validate_login_code]: either nothing is written, and a
    success then returns a stored record already bound to the login email;
    or the stored record was unbound and is written back bound. In both
    cases a success means the record is of the current week and its expiry
    was read and found not passed. *)
Lemma validate_summary (email code : string) (w w' : World) (r : Res login_result) :
  validate email code w = (r, w') ->
  let login := PyStr.strip (PyStr.lower email) in
  let current rec :=
    code_week_id rec = iso_week_id (clock (ticks w)) /\
    expiry_passed parse_iso et_utcoffset (code_expires_at rec) (clock (ticks w))
      = Ok false in
  (db w' = db w /\
   forall rec, r = Ok (LoginOk rec) ->
     db w !! k_code code = Some (DCode rec) /\ current rec /\
     PyStr.truthy (code_email rec) = true /\ code_email rec = login /\
     w' = mkWorld (db w) (S (ticks w)))
  \/
  (exists rec0,
     db w !! k_code code = Some (DCode rec0) /\ current rec0 /\
     code_email rec0 = "" /\
     r = Ok (LoginOk (set_code_email rec0 login)) /\
     w' = mkWorld (<[k_code code := DCode (set_code_email rec0 login)]> (db w))
                  (S (ticks w))).
Proof.
  intros Hv login current.
  destruct (db w !! k_code code) as [v |] eqn:E.
  2:{ rewrite (validate_missing clock parse_iso et_utcoffset email code w E) in Hv.
      injection Hv as <- <-. left. split; [reflexivity |]. intros rec [=]. }
  destruct v as [u | rec | h | b].
  2:{ rewrite (validate_found clock parse_iso et_utcoffset email code w rec E) in Hv.
      fold login in Hv.
      destruct (String.eqb_spec (code_week_id rec) (iso_week_id (clock (ticks w))))
        as [Hweek | Hweek]; cbn [negb] in Hv.
      2:{ injection Hv as <- <-. left. split; [reflexivity |]. intros rec' [=]. }
      destruct (expiry_passed parse_iso et_utcoffset (code_expires_at rec)
                              (clock (ticks w))) as [[|] | e |] eqn:Hexp.
      1,3,4: injection Hv as <- <-; left; (split; [reflexivity |]); intros rec' [=].
      destruct (PyStr.truthy (code_email rec)) eqn:Ht.
      - destruct (String.eqb_spec (code_email rec) login) as [Hsame | Hdiff];
          cbn [negb] in Hv; injection Hv as <- <-; left; (split; [reflexivity |]).
        + intros rec' [= <-]. repeat split; auto.
        + intros rec' [=].
      - injection Hv as <- <-. right. exists rec.
        split; [reflexivity |]. split; [split; assumption |].
        split; [destruct (code_email rec); [reflexivity | discriminate] |].
        split; reflexivity. }
  all: unfold validate_login_code, bind, db_get in Hv; rewrite k_code_strip, E in Hv;
       cbn [as_code raise] in Hv; injection Hv as <- <-;
       left; (split; [reflexivity |]); intros rec' [=].
Qed.

(** X8. A successful [validate_login_code] returns the record that is
    stored under the code afterwards; that record is bound to the normalised
    login email, belongs to the current ISO week, and its expiry was parsed
    and found not earlier than the current time. The only key that can have
    changed is the key of the code. *)
Theorem validate_login_code_sound (email code : string) (w w' : World)
    (rec : CodeRecord) :
  validate email code w = (Ok (LoginOk rec), w') ->
  db w' !! k_code code = Some (DCode rec) /\
  code_email rec = PyStr.strip (PyStr.lower email) /\
  code_week_id rec = iso_week_id (clock (ticks w)) /\
  (exists e, parse_iso (code_expires_at rec) = Some e /\
             dt_lt et_utcoffset e (clock (ticks w)) = Ok false) /\
  (forall k, k <> k_code code -> db w' !! k = db w !! k).
Proof.
  intros Hv. apply validate_summary in Hv. cbv zeta in Hv.
  assert (Hexp : forall s, expiry_passed parse_iso et_utcoffset s (clock (ticks w))
                           = Ok false ->
                 exists e, parse_iso s = Some e /\
                           dt_lt et_utcoffset e (clock (ticks w)) = Ok false).
  { intros s H. unfold expiry_passed in H.
    destruct (parse_iso s) as [e |]; [| discriminate]. exists e. split; [reflexivity | exact H]. }
  destruct Hv as [[Hdb Hok] | (rec0 & E & [Hweek Hcur] & Hempty & Hr & ->)].
  - destruct (Hok rec eq_refl) as (E & [Hweek Hcur] & _ & Hmail & ->). cbn [db].
    split; [exact E |]. split; [exact Hmail |]. split; [exact Hweek |].
    split; [apply Hexp; exact Hcur | reflexivity].
  - injection Hr as ->. cbn [db].
    split; [apply lookup_insert_eq |]. split; [reflexivity |].
    split; [exact Hweek |]. split; [apply Hexp; exact Hcur |].
    intros k Hk. apply lookup_insert_ne. congruence.
Qed.

Lemma bind_summary (code email : string) (w w' : World) (r : Res (bool * string)) :
  bind_unbound_code_to_email code email w = (r, w') ->
  (db w' = db w /\ r <> Ok (true, "Bound successfully."))
  \/
  (exists rec0,
     db w !! k_code code = Some (DCode rec0) /\ code_email rec0 = "" /\
     r = Ok (true, "Bound successfully.") /\
     w' = mkWorld (<[k_code code :=
                       DCode (set_code_email rec0 (PyStr.strip (PyStr.lower email)))]>
                     (db w)) (ticks w)).
Proof.
  unfold bind_unbound_code_to_email, bind, db_get. intros Hb.
  destruct (db w !! k_code code) as [[u | rec | h | b] |] eqn:E;
    cbn [as_code raise ret] in Hb.
  2:{ destruct (PyStr.truthy (code_email rec)) eqn:Ht.
      - injection Hb as <- <-. left. split; [reflexivity | discriminate].
      - injection Hb as <- <-. right. exists rec. split; [reflexivity |].
        split; [destruct (code_email rec); [reflexivity | discriminate] |].
        split; reflexivity. }
  all: injection Hb as <- <-; left; split; [reflexivity | discriminate].
Qed.

(** X9. A code bound to a non-empty email stays bound to it: neither
    [validate_login_code] nor [bind_unbound_code_to_email], with any
    arguments and whatever they return, changes its record. *)
Theorem bound_code_stays_bound (k : string) (rec : CodeRecord) (w : World) :
  db w !! k = Some (DCode rec) ->
  code_email rec <> "" ->
  (forall email code r w',
     validate email code w = (r, w') -> db w' !! k = Some (DCode rec)) /\
  (forall code email r w',
     bind_unbound_code_to_email code email w = (r, w') ->
     db w' !! k = Some (DCode rec)).
Proof.
  intros Hk Hbound. split.
  - intros email code r w' Hv. apply validate_summary in Hv. cbv zeta in Hv.
    destruct Hv as [[-> _] | (rec0 & E & _ & Hempty & _ & ->)]; [exact Hk |].
    cbn [db]. destruct (decide (k_code code = k)) as [<- | Hne].
    + rewrite E in Hk. injection Hk as ->. contradiction.
    + rewrite lookup_insert_ne by exact Hne. exact Hk.
  - intros code email r w' Hb. apply bind_summary in Hb.
    destruct Hb as [[-> _] | (rec0 & E & Hempty & _ & ->)]; [exact Hk |].
    cbn [db]. destruct (decide (k_code code = k)) as [<- | Hne].
    + rewrite E in Hk. injection Hk as ->. contradiction.
    + rewrite lookup_insert_ne by exact Hne. exact Hk.
Qed.

(** X10. The first valid use of a code is exclusive: once
    [validate_login_code] has succeeded for a non-empty login email, every
    later validation of that code with an email of another normal form
    fails and writes nothing, at whatever time it is made. *)
Theorem first_use_excludes_other_emails (email code : string) (w w1 : World)
    (rec : CodeRecord) :
  validate email code w = (Ok (LoginOk rec), w1) ->
  PyStr.strip (PyStr.lower email) <> "" ->
  forall (other : string) (w2 : World),
    db w2 = db w1 ->
    PyStr.strip (PyStr.lower other) <> PyStr.strip (PyStr.lower email) ->
    exists msg w3,
      validate other code w2 = (Ok (LoginFailed msg), w3) /\ db w3 = db w2.
Proof.
  intros Hv Hne other w2 Hdb Hother.
  assert (Hst : db w1 !! k_code code = Some (DCode rec)
                /\ code_email rec = PyStr.strip (PyStr.lower email)).
  { apply validate_summary in Hv. cbv zeta in Hv.
    destruct Hv as [[_ Hok] | (rec0 & _ & _ & _ & Hr & ->)].
    - destruct (Hok rec eq_refl) as (E & _ & _ & Hmail & ->). split; assumption.
    - injection Hr as ->. cbn [db]. split; [apply lookup_insert_eq | reflexivity]. }
  destruct Hst as [Hst Hmail]. rewrite <- Hdb in Hst.
  rewrite (validate_found clock parse_iso et_utcoffset other code w2 rec Hst).
  destruct (negb (String.eqb _ _)); [eexists _, _; split; reflexivity |].
  pose proof (expiry_passed_returns parse_iso et_utcoffset (code_expires_at rec)
                (clock (ticks w2))) as Hret.
  destruct (expiry_passed _ _ _ _) as [[|] | e |];
    [eexists _, _; split; reflexivity | | eexists _, _; split; reflexivity | congruence].
  rewrite Hmail.
  rewrite (proj2 (truthy_nonempty _) Hne).
  destruct (String.eqb_spec (PyStr.strip (PyStr.lower email))
                            (PyStr.strip (PyStr.lower other))) as [Heq | Hneq].
  - exfalso. apply Hother. symmetry. exact Heq.
  - cbn [negb]. eexists _, _. split; reflexivity.
Qed.

(** X11. A record whose expiry text cannot be parsed, or parses to a
    datetime without UTC offset, never logs anyone in: while the clock is
    the aware clock of the program, [validate_login_code] fails on it and
    writes nothing. *)
Theorem unreadable_expiry_never_logs_in (email code : string) (w : World)
    (rec : CodeRecord) :
  db w !! k_code code = Some (DCode rec) ->
  tz (clock (ticks w)) = ZoneET ->
  (parse_iso (code_expires_at rec) = None \/
   exists e, parse_iso (code_expires_at rec) = Some e /\ tz e = Naive) ->
  exists msg w',
    validate email code w = (Ok (LoginFailed msg), w') /\ db w' = db w.
Proof.
  intros Hst Htz Hbad.
  rewrite (validate_found clock parse_iso et_utcoffset email code w rec Hst).
  destruct (negb (String.eqb _ _)); [eexists _, _; split; reflexivity |].
  assert (Hraise : exists e, expiry_passed parse_iso et_utcoffset (code_expires_at rec)
                               (clock (ticks w)) = Raise e).
  { unfold expiry_passed. destruct Hbad as [-> | (e & -> & He)]; [eauto |].
    unfold dt_lt, utcoffset. rewrite He, Htz. cbn. eauto. }
  destruct Hraise as [e ->]. eexists _, _. split; reflexivity.
Qed.

Lemma insert_same_record (m : gmap string dbval) (k : string) (v : dbval) :
  m !! k = Some v -> <[k := v]> m = m.
Proof. apply insert_id. Qed.

(** X12. A code issued by [create_code_for_email] works for its addressee
    and for nobody else: in any later world with the same store, during the
    week of issue and while the stored expiry reads back as not passed,
    validating the issued code with the addressee's email succeeds with the
    issued record and writes nothing new, and (the addressee's email not
    being blank) any email of another normal form is refused. Once the week
    id of the clock differs, everybody is refused. *)
Theorem issued_code_logs_in_addressee (token email tier : string) (w : World)
    (e : datetime) :
  week_expiry_sunday_235959 (clock (ticks w)) = Ok e ->
  exists rec w1,
    create_code_for_email clock to_iso token email tier w = (Ok rec, w1) /\
    code_email rec = PyStr.strip (PyStr.lower email) /\
    (forall (w2 : World) (e' : datetime),
       db w2 = db w1 ->
       iso_week_id (clock (ticks w2)) = iso_week_id (clock (ticks w)) ->
       parse_iso (to_iso e) = Some e' ->
       dt_lt et_utcoffset e' (clock (ticks w2)) = Ok false ->
       (exists w3,
          validate email (code_code rec) w2 = (Ok (LoginOk rec), w3) /\
          db w3 = db w2) /\
       (forall other,
          PyStr.strip (PyStr.lower email) <> "" ->
          PyStr.strip (PyStr.lower other) <> PyStr.strip (PyStr.lower email) ->
          exists msg w3,
            validate other (code_code rec) w2 = (Ok (LoginFailed msg), w3) /\
            db w3 = db w2)) /\
    (forall (w2 : World) (anyone : string),
       db w2 = db w1 ->
       iso_week_id (clock (ticks w2)) <> iso_week_id (clock (ticks w)) ->
       exists msg w3,
         validate anyone (code_code rec) w2 = (Ok (LoginFailed msg), w3) /\
         db w3 = db w2).
Proof.
  intros He. eexists _, _. split; [apply create_code_run; exact He |].
  set (rec := mkCode _ _ _ _ _ _). cbn [db].
  assert (Hst : forall w2, db w2 = <[k_code (code_code rec) := DCode rec]> (db w) ->
                           db w2 !! k_code (code_code rec) = Some (DCode rec)).
  { intros w2 ->. apply lookup_insert_eq. }
  split; [reflexivity |]. split.
  - intros w2 e' Hdb Hweek Hparse Hlt.
    assert (Hfound := fun who =>
              validate_found clock parse_iso et_utcoffset who (code_code rec) w2 rec
                             (Hst w2 Hdb)).
    cbv zeta in Hfound.
    assert (Hw : code_week_id rec = iso_week_id (clock (ticks w2)))
      by (rewrite Hweek; reflexivity).
    assert (Hexp : expiry_passed parse_iso et_utcoffset (code_expires_at rec)
                                 (clock (ticks w2)) = Ok false).
    { unfold expiry_passed. cbn [code_expires_at rec]. rewrite Hparse. exact Hlt. }
    split.
    + rewrite Hfound, Hw, String.eqb_refl, Hexp. cbn [negb].
      change (code_email rec) with (PyStr.strip (PyStr.lower email)).
      rewrite String.eqb_refl. cbn [negb].
      destruct (PyStr.truthy (PyStr.strip (PyStr.lower email))) eqn:Ht.
      * eexists. split; reflexivity.
      * eexists. split; [reflexivity |]. cbn [db].
        apply insert_same_record. exact (Hst w2 Hdb).
    + intros other Hne Hother.
      rewrite Hfound, Hw, String.eqb_refl, Hexp. cbn [negb].
      change (code_email rec) with (PyStr.strip (PyStr.lower email)).
      rewrite (proj2 (truthy_nonempty _) Hne).
      destruct (String.eqb_spec (PyStr.strip (PyStr.lower email))
                                (PyStr.strip (PyStr.lower other))) as [Heq | Hneq].
      * exfalso. apply Hother. symmetry. exact Heq.
      * cbn [negb]. eexists _, _. split; reflexivity.
  - intros w2 anyone Hdb Hweek.
    rewrite (validate_found clock parse_iso et_utcoffset anyone (code_code rec) w2 rec
               (Hst w2 Hdb)).
    destruct (String.eqb_spec (code_week_id rec) (iso_week_id (clock (ticks w2))))
      as [Heq | Hneq].
    + exfalso. apply Hweek. rewrite <- Heq. reflexivity.
    + cbn [negb]. eexists _, _. split; reflexivity.
Qed.

(** X13. A code bound by [bind_unbound_code_to_email] logs in the email it
    was bound to, whatever its case and padding: the call on an unbound
    record stores the record with the normalised email, and while that
    record is current a validation with an email of the same normal form
    succeeds and writes nothing. *)
Theorem admin_binding_then_login (code email : string) (w : World) (rec0 : CodeRecord) :
  db w !! k_code code = Some (DCode rec0) ->
  code_email rec0 = "" ->
  PyStr.strip (PyStr.lower email) <> "" ->
  let rec := set_code_email rec0 (PyStr.strip (PyStr.lower email)) in
  exists w1,
    bind_unbound_code_to_email code email w = (Ok (true, "Bound successfully."), w1) /\
    db w1 = <[k_code code := DCode rec]> (db w) /\
    forall (w2 : World) (login : string) (e : datetime),
      db w2 = db w1 ->
      code_week_id rec0 = iso_week_id (clock (ticks w2)) ->
      parse_iso (code_expires_at rec0) = Some e ->
      dt_lt et_utcoffset e (clock (ticks w2)) = Ok false ->
      PyStr.strip (PyStr.lower login) = PyStr.strip (PyStr.lower email) ->
      exists w3,
        validate login code w2 = (Ok (LoginOk rec), w3) /\ db w3 = db w2.
Proof.
  intros Hst Hempty Hne rec. eexists. split.
  { unfold bind_unbound_code_to_email, bind, db_get. rewrite Hst.
    cbn [as_code ret]. rewrite Hempty. reflexivity. }
  cbn [db]. split; [reflexivity |].
  intros w2 login e Hdb Hweek Hparse Hlt Hlogin.
  assert (Hst2 : db w2 !! k_code code = Some (DCode rec))
    by (rewrite Hdb; apply lookup_insert_eq).
  rewrite (validate_found clock parse_iso et_utcoffset login code w2 rec Hst2).
  change (code_week_id rec) with (code_week_id rec0).
  change (code_expires_at rec) with (code_expires_at rec0).
  change (code_email rec) with (PyStr.strip (PyStr.lower email)).
  rewrite Hweek, String.eqb_refl. cbn [negb].
  unfold expiry_passed. rewrite Hparse, Hlt.
  rewrite (proj2 (truthy_nonempty _) Hne), Hlogin, String.eqb_refl. cbn [negb].
  eexists. split; reflexivity.
Qed.

Lemma code_key_prefix (code : string) : String.prefix "code:" (k_code code) = true.
Proof. unfold k_code. simpl. apply prefix_empty. Qed.

Lemma lookup_insert_code (m : gmap string dbval) (code k : string) (v : dbval) :
  String.prefix "code:" k = false -> <[k_code code := v]> m !! k = m !! k.
Proof.
  intros Hk. apply lookup_insert_ne. intros <-. rewrite code_key_prefix in Hk.
  discriminate.
Qed.

Lemma create_code_outcome (token email tier : string) (w w' : World)
    (r : Res CodeRecord) :
  create_code_for_email clock to_iso token email tier w = (r, w') ->
  db w' = db w \/ exists code rec, db w' = <[k_code code := DCode rec]> (db w).
Proof.
  unfold create_code_for_email. unfold bind at 1. unfold now_et at 1. cbn [db ticks].
  unfold bind at 1. unfold lift at 1.
  destruct (week_expiry_sunday_235959 (clock (ticks w))) as [e | err |].
  - unfold bind, db_set, ret. cbn [db ticks]. intros [= <- <-]. right. eauto.
  - intros [= <- <-]. left. reflexivity.
  - intros [= <- <-]. left. reflexivity.
Qed.

(** X5. The operations on access codes write code keys only: whatever
    [validate_login_code], [bind_unbound_code_to_email],
    [create_code_for_email] and [seed_demo_codes_if_missing] are given and
    however they end, every key outside the "code:" namespace holds what it
    held before; in particular no credit balance and no history changes. *)
Theorem code_operations_write_code_keys_only (w w' : World) :
  (exists email code r, validate email code w = (r, w')) \/
  (exists code email r, bind_unbound_code_to_email code email w = (r, w')) \/
  (exists token email tier r,
     create_code_for_email clock to_iso token email tier w = (r, w')) \/
  (exists r, seed_demo_codes_if_missing clock to_iso w = (r, w')) ->
  (forall k, String.prefix "code:" k = false -> db w' !! k = db w !! k) /\
  (forall email, stored_credits (db w') email = stored_credits (db w) email) /\
  (forall email, stored_history (db w') email = stored_history (db w) email).
Proof.
  intros Hop.
  assert (Hkeys : forall k, String.prefix "code:" k = false -> db w' !! k = db w !! k).
  { intros k Hk.
    destruct Hop as [(email & code & r & Hv) | [(code & email & r & Hb)
                    | [(token & email & tier & r & Hc) | (r & Hs)]]].
    - apply validate_summary in Hv. cbv zeta in Hv.
      destruct Hv as [[-> _] | (rec0 & _ & _ & _ & _ & ->)]; [reflexivity |].
      apply lookup_insert_code. exact Hk.
    - apply bind_summary in Hb.
      destruct Hb as [[-> _] | (rec0 & _ & _ & _ & ->)]; [reflexivity |].
      apply lookup_insert_code. exact Hk.
    - apply create_code_outcome in Hc.
      destruct Hc as [-> | (code & rec & ->)]; [reflexivity |].
      apply lookup_insert_code. exact Hk.
    - destruct (week_expiry_sunday_235959 (clock (ticks w))) as [e | err |] eqn:He.
      + destruct (seed_run clock to_iso w e He) as (m1 & Hrun & Hlook).
        rewrite Hrun in Hs. injection Hs as _ <-. cbn [db]. rewrite Hlook.
        destruct (db w !! k); [reflexivity |].
        destruct (seed_entry to_iso (clock (ticks w)) e SEED_CODES k) eqn:Es;
          [| reflexivity].
        destruct (seed_entry_key to_iso _ _ _ _ _ Es) as (item & _ & <-).
        unfold seed_key in Hk. rewrite code_key_prefix in Hk. discriminate.
      + destruct (seed_without_expiry clock to_iso w) as [r' Hr'];
          [intros e; congruence |].
        rewrite Hr' in Hs. injection Hs as _ <-. reflexivity.
      + destruct (seed_without_expiry clock to_iso w) as [r' Hr'];
          [intros e; congruence |].
        rewrite Hr' in Hs. injection Hs as _ <-. reflexivity. }
  split; [exact Hkeys |]. split.
  - intros email. unfold stored_credits. rewrite Hkeys; reflexivity.
  - intros email. unfold stored_history. rewrite Hkeys; reflexivity.
Qed.

End CodeGuarantees.

(** ** Credits and history over time *)
Section AccountingFacts.

Variable clock : nat -> datetime.
Variable to_iso : datetime -> string.
Variable sha256_json : list (string * string) -> string.

(** One rendering, exactly: a credit is taken when a brief is shown or the
    script is stopped inside the run, and the balance is otherwise left as it
    was; on a well-shaped store the page never raises. *)
Lemma visit_step_exact (url email : string) (v : AgentVisit) (w w' : World)
    (rec : UserRecord) (r : Res agent_view) :
  store_typed (db w) ->
  db w !! k_user email = Some (DUser rec) ->
  visit clock to_iso sha256_json url email v w = (r, w') ->
  store_typed (db w') /\
  (forall e, r <> Raise e) /\
  exists rec',
    db w' !! k_user email = Some (DUser rec') /\
    user_credits rec' = user_credits rec - Z.of_nat (takes_credit r) /\
    (takes_credit r = 1%nat -> 1 <= user_credits rec).
Proof.
  intros Hm H Hv. unfold visit in Hv.
  assert (Hins : forall u, store_typed (<[k_user email := DUser u]> (db w))).
  { intros u. apply store_typed_insert; [exact Hm | apply k_user_entry]. }
  destruct (Z.leb_spec (user_credits rec) 0) as [Hz | Hpos].
  { destruct (agent_refuses clock to_iso sha256_json (visit_requests_post v)
                (visit_perplexity v) url email (visit_tier v) (visit_contact v)
                (visit_form v) w rec H Hz) as (sent & w1 & E & Hdb).
    rewrite E in Hv. injection Hv as <- <-. rewrite Hdb.
    split; [apply Hins |]. split; [discriminate |].
    eexists. split; [apply lookup_insert_eq |].
    rewrite touched_credits. cbn. split; [lia | discriminate]. }
  assert (Hc : 1 <= user_credits rec) by lia.
  destruct (in_run (visit_form v)) eqn:Hrun;
    [destruct (required_missing (visit_form v)) eqn:Hreq |].
  2:{ destruct (db w !! k_cache (sha256_json (cache_raw (visit_form v)
                   (iso_week_id (clock (S (ticks w))))))) as [c0 |] eqn:Ecache;
        [| destruct (call_perplexity (visit_perplexity v) (visit_form v))
             as [b | e |] eqn:Hapi].
      - destruct (agent_completed_run clock to_iso sha256_json (visit_requests_post v)
                    (visit_perplexity v) url email (visit_tier v) (visit_contact v)
                    (visit_form v) w rec "" Hm H Hc Hrun Hreq)
          as (brief & w1 & E & Hm1 & Hrec & _).
        { intros Hnone. rewrite Hnone in Ecache. discriminate. }
        rewrite E in Hv. injection Hv as <- <-.
        split; [exact Hm1 |]. split; [discriminate |].
        eexists. split; [exact Hrec |]. cbn. split; [lia | intros _; exact Hc].
      - destruct (agent_completed_run clock to_iso sha256_json (visit_requests_post v)
                    (visit_perplexity v) url email (visit_tier v) (visit_contact v)
                    (visit_form v) w rec b Hm H Hc Hrun Hreq)
          as (brief & w1 & E & Hm1 & Hrec & _).
        { intros _. exact Hapi. }
        rewrite E in Hv. injection Hv as <- <-.
        split; [exact Hm1 |]. split; [discriminate |].
        eexists. split; [exact Hrec |]. cbn. split; [lia | intros _; exact Hc].
      - rewrite (agent_failed_run clock to_iso sha256_json (visit_requests_post v)
                   (visit_perplexity v) url email (visit_tier v) (visit_contact v)
                   (visit_form v) w rec e H Hc Hrun Hreq Ecache Hapi) in Hv.
        injection Hv as <- <-. cbn [db].
        split; [apply Hins |]. split; [discriminate |].
        eexists. split; [apply lookup_insert_eq |].
        cbn. split; [lia | discriminate].
      - rewrite (agent_stopped_run clock to_iso sha256_json (visit_requests_post v)
                   (visit_perplexity v) url email (visit_tier v) (visit_contact v)
                   (visit_form v) w rec H Hc Hrun Hreq Ecache Hapi) in Hv.
        injection Hv as <- <-. cbn [db].
        split; [apply Hins |]. split; [discriminate |].
        eexists. split; [apply lookup_insert_eq |].
        cbn. split; [lia | intros _; exact Hc]. }
  all: rewrite (agent_idle clock to_iso sha256_json (visit_requests_post v)
                  (visit_perplexity v) url email (visit_tier v) (visit_contact v)
                  (visit_form v) w rec H Hc) in Hv by (rewrite ?Hrun, ?Hreq; auto);
       injection Hv as <- <-; cbn [db];
       (split; [apply Hins |]); (split; [discriminate |]);
       eexists; (split; [apply lookup_insert_eq |]);
       rewrite Hrun; cbn [negb takes_credit]; rewrite touched_credits;
       (split; [cbn; lia | discriminate]).
Qed.

(** X14. Credit accounting of the agent page. Over any sequence of
    renderings for a user of a well-shaped store, the balance left is the
    starting balance minus the number of renderings that showed a brief or
    were stopped inside the run; failed, refused and idle renderings cost
    nothing. The balance never grows, and a non-negative balance never
    becomes negative. *)
Theorem agent_page_credit_accounting (url email : string) (visits : list AgentVisit) :
  forall (w : World) (rec : UserRecord),
    store_typed (db w) ->
    db w !! k_user email = Some (DUser rec) ->
    exists rec',
      db (snd (visits_outcome clock to_iso sha256_json url email visits w))
        !! k_user email = Some (DUser rec') /\
      user_credits rec' =
        user_credits rec
        - Z.of_nat (fst (visits_outcome clock to_iso sha256_json url email visits w)) /\
      user_credits rec' <= user_credits rec /\
      (0 <= user_credits rec -> 0 <= user_credits rec') /\
      store_typed (db (snd (visits_outcome clock to_iso sha256_json url email visits w))).
Proof.
  induction visits as [| v rest IH]; intros w rec Hm H; cbn [visits_outcome].
  - exists rec. cbn. repeat split; [exact H | lia | lia | auto | exact Hm].
  - destruct (visit clock to_iso sha256_json url email v w) as [r w1] eqn:Ev.
    destruct (visit_step_exact url email v w w1 rec r Hm H Ev)
      as (Hm1 & _ & rec1 & H1 & Hc1 & Hpos).
    destruct (IH w1 rec1 Hm1 H1) as (rec' & Hf & Hcf & Hle & Hnn & Hmf).
    destruct (visits_outcome clock to_iso sha256_json url email rest w1) as [n wf].
    cbn [fst snd] in *. exists rec'. split; [exact Hf |].
    split; [lia |]. split; [lia |]. split; [| exact Hmf].
    intros H0. apply Hnn.
    destruct (takes_credit r) as [| [| k]] eqn:Et; [lia | | ].
    + specialize (Hpos eq_refl). lia.
    + destruct r as [[] | |]; cbn in Et; discriminate.
Qed.

Lemma firstn_app_firstn {A} (a b : list A) :
  forall n m : nat, (n <= m)%nat -> firstn n (a ++ firstn m b) = firstn n (a ++ b).
Proof.
  induction a as [| x a' IH]; intros n m Hnm; cbn [app].
  - rewrite firstn_firstn. f_equal. lia.
  - destruct n as [| n']; [reflexivity |]. cbn [firstn].
    rewrite (IH n' m) by lia. reflexivity.
Qed.

Lemma save_all_bounded (email : string) (payloads : list RunRecord) :
  forall w : World,
    history_slot_ok (db w) email ->
    (length (stored_history (db w) email) <= 25)%nat ->
    exists w',
      save_all email payloads w = (Ok tt, w') /\
      stored_history (db w') email
      = firstn 25 (rev payloads ++ stored_history (db w) email) /\
      forall k, k <> k_history email -> db w' !! k = db w !! k.
Proof.
  induction payloads as [| p rest IH]; intros w Hok Hlen; cbn [save_all].
  - exists w. split; [reflexivity |]. cbn [rev app].
    rewrite firstn_all2 by exact Hlen. split; reflexivity.
  - erewrite bind_ok by (apply save_history_run; exact Hok).
    set (w1 := mkWorld _ _).
    assert (Hh1 : stored_history (db w1) email
                  = firstn 25 (p :: stored_history (db w) email)).
    { unfold w1. cbn [db]. apply stored_history_insert. }
    destruct (IH w1) as (w' & Hrun & Hhist & Hframe).
    { apply history_slot_insert. }
    { rewrite Hh1. apply firstn_le_length. }
    exists w'. split; [exact Hrun |]. split.
    + rewrite Hhist, Hh1. cbn [rev]. rewrite <- app_assoc. cbn [app].
      apply firstn_app_firstn. lia.
    + intros k Hk. rewrite (Hframe k Hk).
      unfold w1. cbn [db]. apply lookup_insert_ne. congruence.
Qed.

(** X15. The history is the list of the 25 most recent runs, newest first:
    saving one payload after the other leaves the first 25 entries of the
    payloads in reverse order followed by the previous history, and changes
    no other key. *)
Theorem history_keeps_newest_first (email : string) (p : RunRecord)
    (payloads : list RunRecord) (w : World) :
  history_slot_ok (db w) email ->
  exists w',
    save_all email (p :: payloads) w = (Ok tt, w') /\
    stored_history (db w') email
    = firstn 25 (rev (p :: payloads) ++ stored_history (db w) email) /\
    (length (stored_history (db w') email) <= 25)%nat /\
    forall k, k <> k_history email -> db w' !! k = db w !! k.
Proof.
  intros Hok. cbn [save_all].
  erewrite bind_ok by (apply save_history_run; exact Hok).
  set (w1 := mkWorld _ _).
  assert (Hh1 : stored_history (db w1) email
                = firstn 25 (p :: stored_history (db w) email)).
  { unfold w1. cbn [db]. apply stored_history_insert. }
  destruct (save_all_bounded email payloads w1) as (w' & Hrun & Hhist & Hframe).
  { apply history_slot_insert. }
  { rewrite Hh1. apply firstn_le_length. }
  exists w'. split; [exact Hrun |].
  assert (Hfinal : stored_history (db w') email
                   = firstn 25 (rev (p :: payloads) ++ stored_history (db w) email)).
  { rewrite Hhist, Hh1. cbn [rev]. rewrite <- app_assoc. cbn [app].
    apply firstn_app_firstn. lia. }
  split; [exact Hfinal |]. split.
  - rewrite Hfinal. apply firstn_le_length.
  - intros k Hk. rewrite (Hframe k Hk).
    unfold w1. cbn [db]. apply lookup_insert_ne. congruence.
Qed.

End AccountingFacts.

(** ** The login, admin and request-access pages *)
Section PageFacts.

Variable clock : nat -> datetime.
Variable to_iso : datetime -> string.
Variable parse_iso : string -> option datetime.
Variable et_utcoffset : datetime -> Z.

Local Abbreviation login := (render_login clock to_iso parse_iso et_utcoffset).

Lemma k_user_ne_k_code (email code : string) : k_user email <> k_code code.
Proof. discriminate. Qed.

(** X16. A rendering of the login form that ends without logging in (the
    form not submitted, a blank field, or a refused code) leaves the session
    and the store as they were. *)
Theorem login_failure_changes_nothing (owner_email owner_code email_input code_input
    : string) (submitted : bool) (s s' : Session) (w w' : World) (v : login_view) :
  login owner_email owner_code email_input code_input submitted s w = (Ok v, s', w') ->
  (forall msg, v <> LoginRerun msg) ->
  s' = s /\ db w' = db w.
Proof.
  unfold render_login. intros Hl Hv.
  destruct (negb submitted); [injection Hl as <- <- <-; split; reflexivity |].
  destruct (negb _ || negb _); [injection Hl as <- <- <-; split; reflexivity |].
  destruct (_ && _).
  - destruct (ensure_user _ _ _ _ _) as [[u | e |] w1]; try discriminate.
    injection Hl as <- <- <-. destruct (Hv _ eq_refl).
  - destruct (validate_login_code _ _ _ _ _ _) as [[[msg | rec] | e |] w1] eqn:Ev;
      try discriminate.
    + injection Hl as <- <- <-. split; [reflexivity |].
      apply validate_summary in Ev. cbv zeta in Ev.
      destruct Ev as [[Hdb _] | (rec0 & _ & _ & _ & Hr & _)]; [exact Hdb | discriminate].
    + destruct (ensure_user _ _ _ _ _) as [[u | e |] w2]; try discriminate.
      injection Hl as <- <- <-. destruct (Hv _ eq_refl).
Qed.

(** X17. A login by access code on a well-shaped store: the session is
    logged in under the normalised email and is not an admin session; the
    code is stored bound to that email; the session tier is the tier of the
    stored user record. An account that existed keeps its credits, its
    creation time and its non-empty tier, whatever the tier of the code; a
    new account starts with [DEFAULT_FREE_CREDITS] and the tier of the
    code. *)
Theorem code_login_keeps_existing_account (owner_email owner_code email_input
    code_input : string) (submitted : bool) (s s' : Session) (w w' : World)
    (msg : string) :
  store_typed (db w) ->
  login owner_email owner_code email_input code_input submitted s w
    = (Ok (LoginRerun msg), s', w') ->
  is_admin s' = false ->
  let email := PyStr.lower (PyStr.strip email_input) in
  logged_in s' = true /\ sess_email s' = email /\
  exists user code_rec,
    db w' !! k_user email = Some (DUser user) /\
    sess_tier s' = user_tier user /\
    db w' !! k_code code_input = Some (DCode code_rec) /\
    code_email code_rec = email /\
    (forall old, db w !! k_user email = Some (DUser old) ->
       user_credits user = user_credits old /\
       user_created_at user = user_created_at old /\
       (user_tier old <> "" -> user_tier user = user_tier old)) /\
    (db w !! k_user email = None ->
       user_credits user = DEFAULT_FREE_CREDITS /\ user_tier user = code_tier code_rec).
Proof.
  intros Hm Hl Hadm email. unfold render_login in Hl. fold email in Hl.
  destruct (negb submitted); [discriminate |].
  destruct (negb _ || negb _); [discriminate |].
  destruct (_ && _).
  { destruct (ensure_user _ _ _ _ _) as [[u | e |] w1]; try discriminate.
    injection Hl as _ <- _. discriminate. }
  destruct (validate_login_code _ _ _ _ _ _) as [[[m | rec] | e |] w1] eqn:Ev;
    try discriminate.
  pose proof Ev as Hsum. apply validate_summary in Hsum. cbv zeta in Hsum.
  assert (Hnorm : PyStr.strip (PyStr.lower email) = email).
  { unfold email. rewrite lower_idempotent, strip_lower, strip_idempotent. reflexivity. }
  rewrite Hnorm, k_code_strip in Hsum.
  assert (Hw1 : db w1 !! k_code code_input = Some (DCode rec) /\ code_email rec = email
                /\ (forall k, k <> k_code code_input -> db w1 !! k = db w !! k)
                /\ store_typed (db w1)).
  { destruct Hsum as [[Hdb Hok] | (rec0 & E & _ & _ & Hr & ->)].
    - destruct (Hok rec eq_refl) as (E & _ & _ & Hmail & _).
      rewrite Hdb. repeat split; [exact E | exact Hmail | exact Hm].
    - injection Hr as ->. cbn [db]. split; [apply lookup_insert_eq |].
      split; [reflexivity |].
      split; [intros k Hk; apply lookup_insert_ne; congruence |].
      apply store_typed_insert; [exact Hm | apply k_code_entry]. }
  destruct Hw1 as (Hcode & Hmail & Hframe & Hm1).
  assert (Hslot : db w1 !! k_user email = db w !! k_user email)
    by (apply Hframe, k_user_ne_k_code).
  destruct (user_slot (db w1) email Hm1) as [Enew | [old Eold]].
  - rewrite (ensure_user_new clock to_iso email (code_tier rec) w1 Enew) in Hl.
    injection Hl as _ <- <-. cbn [db logged_in sess_email sess_tier].
    split; [reflexivity |]. split; [reflexivity |].
    eexists _, rec. split; [apply lookup_insert_eq |]. split; [reflexivity |].
    split; [rewrite lookup_insert_ne by apply k_user_ne_k_code; exact Hcode |].
    split; [exact Hmail |]. split.
    + intros old0 Hold. rewrite <- Hslot, Enew in Hold. discriminate.
    + intros _. split; reflexivity.
  - rewrite (ensure_user_existing clock to_iso email (code_tier rec) w1 old Eold) in Hl.
    injection Hl as _ <- <-. cbn [db logged_in sess_email sess_tier].
    split; [reflexivity |]. split; [reflexivity |].
    eexists _, rec. split; [apply lookup_insert_eq |]. split; [reflexivity |].
    split; [rewrite lookup_insert_ne by apply k_user_ne_k_code; exact Hcode |].
    split; [exact Hmail |]. split.
    + intros old0 Hold. rewrite <- Hslot, Eold in Hold. injection Hold as <-.
      unfold touched. cbn.
      destruct (PyStr.truthy (user_tier old)) eqn:Ht.
      * rewrite andb_false_r. repeat split; reflexivity.
      * destruct (PyStr.truthy (code_tier rec)); cbn;
          (split; [reflexivity |]); (split; [reflexivity |]);
          intros Hne; apply truthy_nonempty in Hne; congruence.
    + intros Hnone. rewrite <- Hslot, Eold in Hnone. discriminate.
Qed.

(** X18. The login form makes a session an admin session only through the
    owner credentials: if the session is admin afterwards and was not
    before, the normalised email is the owner's and the code is the owner
    code; the session then carries the tier "owner" and no key but the
    owner's user key has changed. Conversely the owner credentials always
    give the admin session, without any access code being stored. *)
Theorem admin_session_needs_owner_credentials (owner_email owner_code email_input
    code_input : string) (submitted : bool) (s : Session) (w : World) :
  let email := PyStr.lower (PyStr.strip email_input) in
  let code := PyStr.strip code_input in
  (forall r s' w',
     login owner_email owner_code email_input code_input submitted s w = (r, s', w') ->
     is_admin s = false -> is_admin s' = true ->
     submitted = true /\ email <> "" /\ code <> "" /\
     email = PyStr.strip (PyStr.lower owner_email) /\ code = owner_code /\
     s' = mkSession true email "owner" true /\
     (forall k, k <> k_user email -> db w' !! k = db w !! k)) /\
  (submitted = true -> email <> "" -> code <> "" ->
   email = PyStr.strip (PyStr.lower owner_email) -> code = owner_code ->
   exists r w',
     login owner_email owner_code email_input code_input submitted s w
       = (r, mkSession true email "owner" true, w')).
Proof.
  intros email code. split.
  - intros r s' w' Hl Hs Hs'. unfold render_login in Hl. fold email code in Hl.
    destruct submitted; cbn [negb] in Hl;
      [| injection Hl as _ <- _; congruence].
    destruct (PyStr.truthy email) eqn:Hte; cbn [negb orb] in Hl;
      [| injection Hl as _ <- _; congruence].
    destruct (PyStr.truthy code) eqn:Htc; cbn [negb] in Hl;
      [| injection Hl as _ <- _; congruence].
    apply truthy_nonempty in Hte, Htc.
    destruct (String.eqb_spec email (PyStr.strip (PyStr.lower owner_email)))
      as [He | He]; cbn [andb] in Hl.
    + destruct (String.eqb_spec code owner_code) as [Hc | Hc].
      * assert (Hframe : forall r0 w0,
                  ensure_user clock to_iso email "owner" w = (r0, w0) ->
                  forall k, k <> k_user email -> db w0 !! k = db w !! k).
        { intros r0 w0 Heu k Hk. revert Heu.
          unfold ensure_user, bind, now_et, db_contains, db_get, db_set, ret.
          cbn [db ticks].
          destruct (db w !! k_user email) as [[u | c | h | b] |] eqn:E.
          - change (bool_decide (is_Some (Some (DUser u)))) with true.
            cbn [negb db ticks]. rewrite E. cbn [as_user ret db ticks].
            rewrite lookup_insert_eq. cbn [as_user ret].
            intros [= <- <-]. cbn [db]. apply lookup_insert_ne. congruence.
          - change (bool_decide (is_Some (Some (DCode c)))) with true.
            cbn [negb db ticks]. rewrite E. cbn [as_user raise].
            intros [= <- <-]. reflexivity.
          - change (bool_decide (is_Some (Some (DHistory h)))) with true.
            cbn [negb db ticks]. rewrite E. cbn [as_user raise].
            intros [= <- <-]. reflexivity.
          - change (bool_decide (is_Some (Some (DCache b)))) with true.
            cbn [negb db ticks]. rewrite E. cbn [as_user raise].
            intros [= <- <-]. reflexivity.
          - change (bool_decide (is_Some (@None dbval))) with false.
            cbn [negb db ticks]. rewrite lookup_insert_eq. cbn [as_user ret].
            intros [= <- <-]. cbn [db]. apply lookup_insert_ne. congruence. }
        destruct (ensure_user clock to_iso email "owner" w) as [r0 w0] eqn:Heu.
        assert (Hs1 : s' = mkSession true email "owner" true /\ w' = w0).
        { destruct r0; injection Hl as _ <- <-; split; reflexivity. }
        destruct Hs1 as [-> ->].
        repeat split; try assumption. exact (Hframe r0 w0 eq_refl).
      * exfalso.
        destruct (validate_login_code _ _ _ _ _ _) as [[[m | rec] | e |] w1];
          try (injection Hl as _ <- _; congruence).
        destruct (ensure_user _ _ _ _ _) as [[u | e |] w2];
          injection Hl as _ <- _; try congruence. cbn in Hs'. discriminate.
    + exfalso.
      destruct (validate_login_code _ _ _ _ _ _) as [[[m | rec] | e |] w1];
        try (injection Hl as _ <- _; congruence).
      destruct (ensure_user _ _ _ _ _) as [[u | e |] w2];
        injection Hl as _ <- _; try congruence. cbn in Hs'. discriminate.
  - intros -> Hte Htc He Hc. unfold render_login. fold email code.
    apply truthy_nonempty in Hte, Htc. rewrite Hte, Htc. cbn [negb orb].
    rewrite <- He, <- Hc, !String.eqb_refl. cbn [andb].
    destruct (ensure_user clock to_iso email "owner" w) as [[u | e |] w1];
      eexists _, _; reflexivity.
Qed.

Local Abbreviation admin := (render_admin clock to_iso).

(** X19. The admin page is closed without the password and writes only on
    request: with a wrong password it shows the lock alone and leaves the
    world untouched, whatever is filled in; with the right password and no
    action requested (seed button not pressed, no form submitted, or the
    create form submitted with a blank email) it returns and the store is
    unchanged. *)
Theorem admin_page_writes_only_on_action (admin_password : string) (inp : AdminInputs)
    (w : World) :
  (adm_pw inp <> admin_password ->
   admin admin_password inp w = (Ok [AdminLocked], w)) /\
  (adm_seed inp = false ->
   adm_create_submit inp = false \/ PyStr.strip (adm_create_email inp) = "" ->
   adm_bind_submit inp = false ->
   adm_credits_submit inp = false ->
   exists events w',
     admin admin_password inp w = (Ok events, w') /\ db w' = db w).
Proof.
  split.
  - intros Hpw. unfold render_admin. apply String.eqb_neq in Hpw. rewrite Hpw.
    reflexivity.
  - intros Hseed Hcreate Hbind Hcredits. unfold render_admin.
    destruct (negb (String.eqb (adm_pw inp) admin_password));
      [eexists _, _; split; reflexivity |].
    rewrite Hseed, Hbind, Hcredits.
    assert (Hev2 : exists ev2,
               (if adm_create_submit inp
                then if negb (PyStr.truthy (PyStr.strip (adm_create_email inp)))
                     then ret [AdminEmailRequired]
                     else do rec <- create_code_for_email clock to_iso (adm_token inp)
                                      (PyStr.strip (adm_create_email inp))
                                      (adm_create_tier inp);
                          ret [AdminCodeCreated (code_code rec)]
                else ret []) = ret ev2).
    { destruct Hcreate as [-> | ->]; [eauto |].
      destruct (adm_create_submit inp); eauto. }
    destruct Hev2 as [ev2 ->].
    unfold bind, ret, db_get.
    destruct (PyStr.truthy (PyStr.strip (adm_lookup inp)));
      eexists _, _; split; reflexivity.
Qed.

(** X20. The credits form of the admin page overrides the balance: with the
    right password and only that form submitted, on a well-shaped store, the
    balance stored for the email (whatever its case and padding) becomes the
    number entered, an existing record keeps its other fields, and no other
    key changes. *)
Theorem admin_credits_form_sets_balance (admin_password : string) (inp : AdminInputs)
    (w : World) :
  store_typed (db w) ->
  adm_pw inp = admin_password ->
  adm_seed inp = false -> adm_create_submit inp = false ->
  adm_bind_submit inp = false -> adm_credits_submit inp = true ->
  let email := adm_credits_email inp in
  exists events w',
    admin admin_password inp w = (Ok events, w') /\
    In AdminCreditsUpdated events /\
    stored_credits (db w') email = Some (adm_credits inp) /\
    (forall old, db w !! k_user email = Some (DUser old) ->
       db w' !! k_user email = Some (DUser (set_user_credits old (adm_credits inp)))) /\
    (forall k, k <> k_user email -> db w' !! k = db w !! k).
Proof.
  intros Hm Hpw Hseed Hcreate Hbind Hcredits email. unfold render_admin.
  rewrite Hpw, String.eqb_refl, Hseed, Hcreate, Hbind, Hcredits. cbn [negb].
  assert (Hkey : k_user (PyStr.strip email) = k_user email).
  { unfold k_user. rewrite strip_idempotent. reflexivity. }
  assert (Hup : exists w1,
             update_user_credits clock to_iso (PyStr.strip email) (adm_credits inp) w
               = (Ok tt, w1) /\
             (exists rec1, db w1 = <[k_user email := DUser rec1]> (db w) /\
                           user_credits rec1 = adm_credits inp /\
                           forall old, db w !! k_user email = Some (DUser old) ->
                                       rec1 = set_user_credits old (adm_credits inp))).
  { destruct (user_slot (db w) email Hm) as [E | [old E]].
    - eexists. split.
      { unfold update_user_credits, bind, db_get, db_set, ret, now_et.
        rewrite Hkey, E. reflexivity. }
      cbn [db]. eexists. split; [reflexivity |]. split; [reflexivity |].
      intros old Hold. rewrite E in Hold. discriminate.
    - eexists. split.
      { unfold update_user_credits, bind, db_get, db_set, ret.
        rewrite Hkey, E. reflexivity. }
      cbn [db]. eexists. split; [reflexivity |]. split; [reflexivity |].
      intros old0 Hold. rewrite E in Hold. injection Hold as <-. reflexivity. }
  destruct Hup as (w1 & Hrun & rec1 & Hdb & Hc & Hold).
  unfold bind at 1. unfold ret at 1. unfold bind at 1. unfold ret at 1.
  unfold bind at 1. unfold ret at 1. unfold bind at 1.
  unfold bind at 1. fold email. rewrite Hrun. unfold ret at 1.
  unfold bind, ret, db_get.
  assert (Hpost : stored_credits (db w1) email = Some (adm_credits inp) /\
                  (forall old, db w !! k_user email = Some (DUser old) ->
                     db w1 !! k_user email
                     = Some (DUser (set_user_credits old (adm_credits inp)))) /\
                  (forall k, k <> k_user email -> db w1 !! k = db w !! k)).
  { rewrite Hdb. split; [rewrite stored_credits_insert, Hc; reflexivity |].
    split.
    - intros old Ho. rewrite lookup_insert_eq, (Hold old Ho). reflexivity.
    - intros k Hk. apply lookup_insert_ne. congruence. }
  destruct (PyStr.truthy (PyStr.strip (adm_lookup inp)));
    eexists _, _; (split; [reflexivity |]); cbn [app];
    (split; [left; reflexivity | exact Hpost]).
Qed.

Local Abbreviation request_access := (render_request_access clock to_iso).

(** X21. The request-access form never touches the store. It reports
    success only when the form was submitted with every required field
    filled and the webhook request completed with a status from 200 to 299,
    and it does report success when the endpoint answers so; with a blank
    field nothing is sent, whatever the network would do. *)
Theorem request_access_reports_http_status
    (requests_post : string -> Payload -> http_outcome) (url : string)
    (inp : AccessInputs) (w : World) :
  let blank :=
    existsb (fun x => negb (PyStr.truthy (PyStr.strip x)))
            [acc_first inp; acc_last inp; acc_email inp; acc_company inp;
             acc_title inp; acc_linkedin inp; acc_reason inp] in
  exists view w',
    request_access requests_post url inp w = (Ok view, w') /\
    db w' = db w /\
    (view = AccessSubmitted ->
       acc_submitted inp = true /\ blank = false /\
       exists payload status body,
         requests_post url payload = HttpResponse status body /\ 200 <= status < 300) /\
    (acc_submitted inp = true -> blank = false ->
       (forall payload, exists status body,
          requests_post url payload = HttpResponse status body /\ 200 <= status < 300) ->
       view = AccessSubmitted) /\
    (acc_submitted inp = true -> blank = true ->
       view = AccessMissing /\ w' = w /\
       forall other_post,
         request_access other_post url inp w = (Ok AccessMissing, w)).
Proof.
  intros blank. unfold render_request_access. fold blank.
  destruct (acc_submitted inp); cbn [negb].
  2:{ eexists _, _. split; [reflexivity |]. split; [reflexivity |].
      repeat split; discriminate. }
  destruct blank eqn:Hblank.
  { eexists _, _. split; [reflexivity |]. split; [reflexivity |].
    split; [discriminate |]. split; [discriminate |].
    intros _ _. repeat split; reflexivity. }
  unfold bind at 1. unfold now_et at 1. cbn [db ticks].
  unfold bind at 1. rewrite post_webhook_total.
  set (payload := _ :: _).
  destruct (requests_post url payload) as [status body | e] eqn:Hpost.
  - destruct (negb (status =? 0) && ((200 <=? status) && (status <? 300))) eqn:Hok.
    + eexists _, _. split; [reflexivity |]. split; [reflexivity |].
      split; [| split; [reflexivity | discriminate]].
      intros _. split; [reflexivity |]. split; [reflexivity |].
      exists payload, status, body. split; [exact Hpost |].
      apply andb_true_iff in Hok. destruct Hok as [_ Hok].
      apply andb_true_iff in Hok. destruct Hok as [H1 H2].
      apply Z.leb_le in H1. apply Z.ltb_lt in H2. lia.
    + eexists _, _. split; [reflexivity |]. split; [reflexivity |].
      split; [discriminate |]. split; [| discriminate].
      intros _ _ Hall. exfalso.
      destruct (Hall payload) as (st & bd & Hp & Hrange).
      rewrite Hpost in Hp. injection Hp as <- <-.
      destruct (Z.eqb_spec status 0); [lia |].
      destruct (Z.leb_spec 200 status); [| lia].
      destruct (Z.ltb_spec status 300); [| lia].
      discriminate.
  - cbn. eexists _, _. split; [reflexivity |]. split; [reflexivity |].
    split; [discriminate |]. split; [| discriminate].
    intros _ _ Hall. exfalso.
    destruct (Hall payload) as (st & bd & Hp & _). rewrite Hpost in Hp. discriminate.
Qed.

End PageFacts.

(** ** The script as a whole *)
Section ScriptFacts.

Variable clock : nat -> datetime.
Variable to_iso : datetime -> string.
Variable parse_iso : string -> option datetime.
Variable et_utcoffset : datetime -> Z.
Variable sha256_json : list (string * string) -> string.
Variable getenv : string -> option string.
Variable requests_post : string -> Payload -> http_outcome.
Variable perplexity_brief :
  string -> string -> string -> string -> string -> string -> string -> string ->
  Res Brief.

Local Abbreviation script :=
  (main clock to_iso parse_iso et_utcoffset sha256_json getenv requests_post
        perplexity_brief).

Lemma writes_only_ret {A} (P : string -> Prop) (a : A) : writes_only P (ret a).
Proof. intros w r w' [= <- <-] k _. reflexivity. Qed.

Lemma writes_only_raise {A} (P : string -> Prop) (e : exn) :
  writes_only P (@raise A e).
Proof. intros w r w' [= <- <-] k _. reflexivity. Qed.

Lemma writes_only_lift {A} (P : string -> Prop) (x : Res A) : writes_only P (lift x).
Proof. intros w r w' [= <- <-] k _. reflexivity. Qed.

Lemma writes_only_now_et (P : string -> Prop) : writes_only P (now_et clock).
Proof. intros w r w' [= <- <-] k _. reflexivity. Qed.

Lemma writes_only_db_get (P : string -> Prop) (key : string) :
  writes_only P (db_get key).
Proof. intros w r w' [= <- <-] k _. reflexivity. Qed.

Lemma writes_only_db_contains (P : string -> Prop) (key : string) :
  writes_only P (db_contains key).
Proof. intros w r w' [= <- <-] k _. reflexivity. Qed.

Lemma writes_only_db_set (P : string -> Prop) (key : string) (v : dbval) :
  P key -> writes_only P (db_set key v).
Proof.
  intros HP w r w' [= <- <-] k Hk. cbn [db].
  apply lookup_insert_ne. intros ->. exact (Hk HP).
Qed.

Lemma writes_only_bind {A B} (P : string -> Prop) (m : M A) (f : A -> M B) :
  writes_only P m -> (forall a, writes_only P (f a)) -> writes_only P (bind m f).
Proof.
  intros Hm Hf w r w' Hrun k Hk. unfold bind in Hrun.
  destruct (m w) as [[a | e |] w1] eqn:E.
  - rewrite (Hf a w1 r w' Hrun k Hk). exact (Hm w _ w1 E k Hk).
  - injection Hrun as <- <-. exact (Hm w _ w1 E k Hk).
  - injection Hrun as <- <-. exact (Hm w _ w1 E k Hk).
Qed.

Lemma writes_only_try_except {A} (P : string -> Prop) (body : M A)
    (handler : exn -> M A) :
  writes_only P body -> (forall e, writes_only P (handler e)) ->
  writes_only P (try_except body handler).
Proof.
  intros Hb Hh w r w' Hrun k Hk. unfold try_except in Hrun.
  destruct (body w) as [[a | e |] w1] eqn:E.
  - injection Hrun as <- <-. exact (Hb w _ w1 E k Hk).
  - rewrite (Hh e w1 r w' Hrun k Hk). exact (Hb w _ w1 E k Hk).
  - injection Hrun as <- <-. exact (Hb w _ w1 E k Hk).
Qed.

Lemma writes_only_weaken {A} (P Q : string -> Prop) (m : M A) :
  (forall k, P k -> Q k) -> writes_only P m -> writes_only Q m.
Proof. intros HPQ Hm w r w' Hrun k Hk. apply (Hm w r w' Hrun). auto. Qed.

Ltac footprint :=
  repeat first
    [ apply writes_only_ret | apply writes_only_raise | apply writes_only_lift
    | apply writes_only_now_et | apply writes_only_db_get
    | apply writes_only_db_contains
    | apply writes_only_bind; [| intros ?]
    | apply writes_only_try_except; [| intros ?]
    | apply writes_only_db_set
    | match goal with
      | |- writes_only _ (match ?x with _ => _ end) => destruct x
      end ].

Lemma ensure_user_footprint (email tier : string) :
  writes_only (eq (k_user email)) (ensure_user clock to_iso email tier).
Proof. unfold ensure_user, as_user. footprint; reflexivity. Qed.

Lemma update_user_credits_footprint (email : string) (n : Z) :
  writes_only (eq (k_user email)) (update_user_credits clock to_iso email n).
Proof. unfold update_user_credits, as_user. footprint; reflexivity. Qed.

Lemma decrement_credit_footprint (email : string) :
  writes_only (eq (k_user email)) (decrement_credit clock to_iso email).
Proof. unfold decrement_credit, as_user. footprint; reflexivity. Qed.

Lemma save_history_footprint (email : string) (payload : RunRecord) :
  writes_only (eq (k_history email)) (save_history email payload).
Proof. unfold save_history, as_history. footprint; reflexivity. Qed.

Lemma get_history_footprint (P : string -> Prop) (email : string) :
  writes_only P (get_history email).
Proof. unfold get_history, as_history. footprint. Qed.

Lemma post_webhook_footprint (P : string -> Prop) (url : string) (payload : Payload) :
  writes_only P (post_webhook requests_post url payload).
Proof. unfold post_webhook. footprint. Qed.

Lemma cache_key_prefix (h : string) : String.prefix "cache:" (k_cache h) = true.
Proof. unfold k_cache. simpl. apply prefix_empty. Qed.

Lemma own_user_key (email : string) (k : string) :
  k_user email = k -> own_key email k.
Proof. intros <-. left. reflexivity. Qed.

Lemma own_history_key (email : string) (k : string) :
  k_history email = k -> own_key email k.
Proof. intros <-. right. left. reflexivity. Qed.

Lemma render_agent_footprint (url email tier : string) (contact : ContactInputs)
    (form : AgentInputs) :
  writes_only (own_key email)
    (render_agent clock to_iso sha256_json requests_post perplexity_brief url
                  email tier contact form).
Proof.
  unfold render_agent.
  apply writes_only_bind.
  { apply (writes_only_weaken _ _ _ (own_user_key email)), ensure_user_footprint. }
  intros user. destruct (user_credits user <=? 0).
  { destruct (contact_submit contact); footprint. }
  destruct (negb (in_run form)); [footprint |].
  destruct (required_missing form); [footprint |].
  apply writes_only_bind; [footprint |]. intros t.
  apply writes_only_bind.
  { apply (writes_only_weaken _ _ _ (own_user_key email)), decrement_credit_footprint. }
  intros remaining. apply writes_only_try_except.
  - apply writes_only_bind; [footprint |]. intros cached.
    apply writes_only_bind.
    { destruct cached as [v |]; [unfold as_brief; footprint |].
      footprint. right. right. apply cache_key_prefix. }
    intros brief. apply writes_only_bind; [footprint |]. intros t'.
    apply writes_only_bind; [| intros _; footprint].
    apply (writes_only_weaken _ _ _ (own_history_key email)), save_history_footprint.
  - intros e. apply writes_only_bind; [| intros _; footprint].
    apply (writes_only_weaken _ _ _ (own_user_key email)),
      update_user_credits_footprint.
Qed.

Lemma must_env_missing (key : string) :
  getenv key = None \/ getenv key = Some "" -> must_env getenv key = None.
Proof. unfold must_env. intros [-> | ->]; reflexivity. Qed.

(** X22. A missing secret stops the script before anything else happens:
    when one of the five required names is unset or set to the empty string,
    [main] stops with the session state only initialised and the world
    untouched, whatever the session and the widgets hold. *)
Theorem main_stops_on_missing_secret (key : string) (state : option Session)
    (ui : MainInputs) (w : World) :
  In key ["MAKE_WEBHOOK_SIGNUP_URL"; "MAKE_WEBHOOK_CONTACT_URL"; "OWNER_EMAIL";
          "OWNER_ACCESS_CODE"; "ADMIN_PASSWORD"] ->
  getenv key = None \/ getenv key = Some "" ->
  script state ui w = (Stopped, init_state state, w).
Proof.
  intros Hin Hmiss. apply must_env_missing in Hmiss.
  assert (Hnone : required_secrets getenv = None).
  { unfold required_secrets. cbn [In] in Hin.
    destruct Hin as [<- | [<- | [<- | [<- | [<- | []]]]]]; rewrite Hmiss;
      repeat (destruct (must_env getenv _); try reflexivity). }
  unfold main. rewrite Hnone. reflexivity.
Qed.

Lemma app_pages_footprint (secrets : Secrets) (s : Session) (ui : MainInputs) :
  is_admin s = false ->
  writes_only (own_key (sess_email s))
    (app_pages clock to_iso sha256_json requests_post perplexity_brief secrets s ui).
Proof.
  intros Hadm. unfold app_pages. rewrite Hadm.
  apply writes_only_bind; [apply writes_only_ret |]. intros admin.
  apply writes_only_bind; [apply render_agent_footprint |]. intros agent.
  apply writes_only_bind; [apply get_history_footprint |]. intros history.
  apply writes_only_ret.
Qed.

Lemma k_history_ne_k_code (email code : string) : k_history email <> k_code code.
Proof. discriminate. Qed.

Lemma k_history_same_user (a b : string) : k_history a = k_history b -> k_user a = k_user b.
Proof.
  unfold k_history, k_user. intros H.
  apply (key_prefix_inj "history:") in H. rewrite H. reflexivity.
Qed.

Lemma code_key_not_own (email code : string) : ~ own_key email (k_code code).
Proof.
  intros [H | [H | H]].
  - symmetry in H. exact (k_user_ne_k_code _ _ H).
  - symmetry in H. exact (k_history_ne_k_code _ _ H).
  - discriminate H.
Qed.

(** X23. A logged-in session that is not an admin session writes its own
    records only: whatever the widgets hold (the admin widgets and the login
    form included) and however the script ends, the session is left as it
    was or reset by the logout button, and every key other than the user's
    own user key, the user's own history key and the cache keys holds what
    it held before. No access code changes, and no other user's balance or
    history changes. *)
Theorem member_session_writes_own_records (s s' : Session) (ui : MainInputs)
    (w w' : World) (r : Res main_view) :
  logged_in s = true ->
  is_admin s = false ->
  script (Some s) ui w = (r, s', w') ->
  (s' = s \/ s' = fresh_session) /\
  (forall k, ~ own_key (sess_email s) k -> db w' !! k = db w !! k) /\
  (forall code, db w' !! k_code code = db w !! k_code code) /\
  (forall other, k_user other <> k_user (sess_email s) ->
     stored_credits (db w') other = stored_credits (db w) other /\
     stored_history (db w') other = stored_history (db w) other).
Proof.
  intros Hlog Hadm Hrun.
  assert (Hmain : (s' = s \/ s' = fresh_session) /\
                  forall k, ~ own_key (sess_email s) k -> db w' !! k = db w !! k).
  { unfold main in Hrun. cbn [init_state] in Hrun.
    destruct (required_secrets getenv) as [secrets |].
    2:{ injection Hrun as <- <- <-. auto. }
    rewrite Hlog in Hrun. destruct (ui_logout ui).
    { injection Hrun as <- <- <-. split; [right; reflexivity | auto]. }
    destruct (app_pages _ _ _ _ _ _ _ _ _) as [r1 w1] eqn:E.
    injection Hrun as <- <- <-. split; [left; reflexivity |].
    exact (app_pages_footprint secrets s ui Hadm w r1 w1 E). }
  destruct Hmain as [Hs Hframe]. split; [exact Hs |]. split; [exact Hframe |].
  split.
  - intros code. apply Hframe, code_key_not_own.
  - intros other Hother. split.
    + unfold stored_credits. rewrite Hframe; [reflexivity |].
      intros [H | [H | H]]; [exact (Hother H) | | discriminate H].
      exact (k_user_ne_k_history _ _ H).
    + unfold stored_history. rewrite Hframe; [reflexivity |].
      intros [H | [H | H]]; [| | discriminate H].
      * symmetry in H. exact (k_user_ne_k_history _ _ H).
      * exact (Hother (k_history_same_user _ _ H)).
Qed.

Lemma ensure_user_keeps_credits (email tier : string) (w w' : World)
    (r : Res UserRecord) :
  ensure_user clock to_iso email tier w = (r, w') ->
  forall e c, stored_credits (db w) e = Some c -> stored_credits (db w') e = Some c.
Proof.
  intros Hrun e c Hc. unfold stored_credits in *.
  destruct (db w !! k_user email) as [v |] eqn:E.
  - destruct v as [rec | cr | h | b].
    1:{ rewrite (ensure_user_existing clock to_iso email tier w rec E) in Hrun.
        injection Hrun as <- <-. cbn [db].
        destruct (decide (k_user e = k_user email)) as [Heq | Hne].
        - rewrite Heq in *. rewrite lookup_insert_eq, touched_credits.
          rewrite E in Hc. exact Hc.
        - rewrite lookup_insert_ne by (intros H; exact (Hne (eq_sym H))). exact Hc. }
    all: unfold ensure_user, bind, now_et, db_contains, db_get, db_set, ret in Hrun;
      cbn [db ticks] in Hrun; rewrite E in Hrun;
      change (bool_decide (is_Some (Some ?x))) with true in Hrun;
      cbn [negb db ticks] in Hrun; rewrite E in Hrun;
      cbn [as_user raise] in Hrun; injection Hrun as <- <-; exact Hc.
  - rewrite (ensure_user_new clock to_iso email tier w E) in Hrun.
    injection Hrun as <- <-. cbn [db].
    destruct (decide (k_user e = k_user email)) as [Heq | Hne].
    + rewrite Heq, E in Hc. discriminate.
    + rewrite lookup_insert_ne by (intros H; exact (Hne (eq_sym H))). exact Hc.
Qed.

Lemma validate_keeps_users (email code : string) (w w' : World)
    (r : Res login_result) :
  validate_login_code clock parse_iso et_utcoffset email code w = (r, w') ->
  forall k, k <> k_code code -> db w' !! k = db w !! k.
Proof.
  intros Hrun k Hk.
  destruct (validate_summary clock parse_iso et_utcoffset email code w w' r Hrun)
    as [[Hdb _] | (rec0 & _ & _ & _ & _ & ->)].
  - rewrite Hdb. reflexivity.
  - cbn [db]. apply lookup_insert_ne. intros H. exact (Hk (eq_sym H)).
Qed.

Lemma stored_credits_frame (m m' : gmap string dbval) :
  (forall email, m' !! k_user email = m !! k_user email) ->
  forall e c, stored_credits m e = Some c -> stored_credits m' e = Some c.
Proof. intros H e c. unfold stored_credits. rewrite H. auto. Qed.

(** What a rendering of the login form can change in the store. *)
Lemma render_login_effect (owner_email owner_code email_input code_input : string)
    (submitted : bool) (s s' : Session) (w w' : World) (r : Res login_view) :
  render_login clock to_iso parse_iso et_utcoffset owner_email owner_code
               email_input code_input submitted s w = (r, s', w') ->
  (forall k, k <> k_user (PyStr.lower (PyStr.strip email_input)) ->
             k <> k_code (PyStr.strip code_input) -> db w' !! k = db w !! k) /\
  (forall e c, stored_credits (db w) e = Some c -> stored_credits (db w') e = Some c).
Proof.
  unfold render_login. intros Hrun.
  set (email := PyStr.lower (PyStr.strip email_input)) in *.
  set (code := PyStr.strip code_input) in *.
  destruct (negb submitted); [injection Hrun as <- <- <-; auto |].
  destruct (negb (PyStr.truthy email) || negb (PyStr.truthy code));
    [injection Hrun as <- <- <-; auto |].
  destruct (String.eqb email _ && String.eqb code owner_code).
  { destruct (ensure_user clock to_iso email "owner" w) as [r1 w1] eqn:E.
    assert (w' = w1) as -> by (destruct r1; injection Hrun as <- <- <-; reflexivity).
    split.
    - intros k Hk _. apply (ensure_user_footprint email "owner" w r1 w1 E).
      intros H. exact (Hk (eq_sym H)).
    - exact (ensure_user_keeps_credits email "owner" w w1 r1 E). }
  destruct (validate_login_code clock parse_iso et_utcoffset email code w)
    as [r1 w1] eqn:Ev.
  pose proof (validate_keeps_users email code w w1 r1 Ev) as Hcode.
  assert (Hcred1 : forall e c, stored_credits (db w) e = Some c ->
                               stored_credits (db w1) e = Some c).
  { apply stored_credits_frame. intros e. apply Hcode, k_user_ne_k_code. }
  destruct r1 as [[msg | code_rec] | e |].
  1,3,4: injection Hrun as <- <- <-; split; [intros k _ Hk; apply Hcode, Hk | exact Hcred1].
  destruct (ensure_user clock to_iso email (code_tier code_rec) w1) as [r2 w2] eqn:E.
  assert (w' = w2) as -> by (destruct r2; injection Hrun as <- <- <-; reflexivity).
  split.
  - intros k Hu Hc.
    rewrite (ensure_user_footprint email (code_tier code_rec) w1 r2 w2 E k)
      by (intros H; exact (Hu (eq_sym H))).
    apply Hcode, Hc.
  - intros e c Hc. apply (ensure_user_keeps_credits email _ w1 w2 r2 E), Hcred1, Hc.
Qed.

Lemma render_request_access_footprint (url : string) (inp : AccessInputs) :
  writes_only (fun _ => False)
    (render_request_access clock to_iso requests_post url inp).
Proof.
  unfold render_request_access.
  destruct (negb (acc_submitted inp)); [apply writes_only_ret |].
  destruct (existsb _ _); [apply writes_only_ret |].
  footprint.
Qed.

(** X24. A visitor who is not logged in cannot change a balance or a
    history: whatever the request-access and login forms hold and however
    the script ends, the only keys that can change are the user key of the
    email typed into the login form and the key of the code typed with it;
    every stored history is as before, and every account that existed keeps
    its credits, the account logged into included. *)
Theorem visitor_cannot_change_balances (state : option Session) (ui : MainInputs)
    (w w' : World) (r : Res main_view) (s' : Session) :
  logged_in (init_state state) = false ->
  script state ui w = (r, s', w') ->
  (forall k, k <> k_user (PyStr.lower (PyStr.strip (ui_login_email ui))) ->
             k <> k_code (PyStr.strip (ui_login_code ui)) ->
             db w' !! k = db w !! k) /\
  (forall email, stored_history (db w') email = stored_history (db w) email) /\
  (forall email c, stored_credits (db w) email = Some c ->
                   stored_credits (db w') email = Some c).
Proof.
  intros Hlog Hrun.
  assert (Hmain :
    (forall k, k <> k_user (PyStr.lower (PyStr.strip (ui_login_email ui))) ->
               k <> k_code (PyStr.strip (ui_login_code ui)) ->
               db w' !! k = db w !! k) /\
    (forall email c, stored_credits (db w) email = Some c ->
                     stored_credits (db w') email = Some c)).
  { unfold main in Hrun. destruct (required_secrets getenv) as [secrets |].
    2:{ injection Hrun as <- <- <-. auto. }
    rewrite Hlog in Hrun.
    destruct (render_request_access _ _ _ _ _ w) as [r1 w1] eqn:Ea.
    pose proof (render_request_access_footprint _ _ w r1 w1 Ea) as Hsame.
    assert (Hdb : db w1 = db w).
    { apply map_eq. intros k. apply Hsame. intros []. }
    destruct r1 as [access | e |].
    2-3: injection Hrun as <- <- <-; rewrite Hdb; auto.
    destruct (render_login _ _ _ _ _ _ _ _ _ _ w1) as [[r2 s2] w2] eqn:El.
    injection Hrun as <- <- <-.
    destruct (render_login_effect _ _ _ _ _ _ _ _ _ _ El) as [Hkeys Hcred].
    rewrite Hdb in Hkeys, Hcred. auto. }
  destruct Hmain as [Hkeys Hcred]. split; [exact Hkeys |]. split; [| exact Hcred].
  intros email. unfold stored_history. rewrite Hkeys; [reflexivity | |].
  - intros H. symmetry in H. exact (k_user_ne_k_history _ _ H).
  - apply k_history_ne_k_code.
Qed.

(** A rendering of the agent page that shows a brief, on a well-shaped
    store: a credit was there and was taken, and the run is the first entry
    of the stored history. *)
Lemma agent_brief_exact (url email tier : string) (contact : ContactInputs)
    (form : AgentInputs) (w w' : World) (rec : UserRecord) (brief : Brief) :
  store_typed (db w) ->
  db w !! k_user email = Some (DUser rec) ->
  render_agent clock to_iso sha256_json requests_post perplexity_brief url
               email tier contact form w = (Ok (ViewBrief brief), w') ->
  1 <= user_credits rec /\
  store_typed (db w') /\
  stored_credits (db w') email = Some (user_credits rec - 1) /\
  hd_error (stored_history (db w') email) =
    Some (mkRun (to_iso (clock (S (S (ticks w))))) (PyStr.strip (in_company form))
                (PyStr.strip (in_persona form)) (in_model form)
                (user_credits rec - 1) brief).
Proof.
  intros Hm H Hv.
  destruct (Z.leb_spec (user_credits rec) 0) as [Hz | Hpos].
  { destruct (agent_refuses clock to_iso sha256_json requests_post perplexity_brief
                url email tier contact form w rec H Hz) as (sent & w1 & E & _).
    rewrite E in Hv. discriminate. }
  assert (Hc : 1 <= user_credits rec) by lia.
  destruct (in_run form) eqn:Hrun; [destruct (required_missing form) eqn:Hreq |].
  2:{ assert (Hdone : forall b,
          (db w !! k_cache (sha256_json (cache_raw form
                              (iso_week_id (clock (S (ticks w)))))) = None ->
           call_perplexity perplexity_brief form = Ok b) ->
          1 <= user_credits rec /\ store_typed (db w') /\
          stored_credits (db w') email = Some (user_credits rec - 1) /\
          hd_error (stored_history (db w') email) =
            Some (mkRun (to_iso (clock (S (S (ticks w)))))
                        (PyStr.strip (in_company form)) (PyStr.strip (in_persona form))
                        (in_model form) (user_credits rec - 1) brief)).
      { intros b Hapi.
        destruct (agent_completed_run clock to_iso sha256_json requests_post
                    perplexity_brief url email tier contact form w rec b
                    Hm H Hc Hrun Hreq Hapi) as (brief' & w1 & E & Hm1 & Hrec & Hhd).
        rewrite E in Hv. injection Hv as <- <-.
        split; [exact Hc |]. split; [exact Hm1 |]. split; [| exact Hhd].
        unfold stored_credits. rewrite Hrec. reflexivity. }
      destruct (db w !! k_cache (sha256_json (cache_raw form
                  (iso_week_id (clock (S (ticks w))))))) as [c0 |] eqn:Ecache;
        [| destruct (call_perplexity perplexity_brief form) as [b | e |] eqn:Hapi].
      - apply (Hdone ""). intros [=].
      - apply (Hdone b). intros _. reflexivity.
      - rewrite (agent_failed_run clock to_iso sha256_json requests_post
                   perplexity_brief url email tier contact form w rec e
                   H Hc Hrun Hreq Ecache Hapi) in Hv. discriminate.
      - rewrite (agent_stopped_run clock to_iso sha256_json requests_post
                   perplexity_brief url email tier contact form w rec
                   H Hc Hrun Hreq Ecache Hapi) in Hv. discriminate. }
  all: rewrite (agent_idle clock to_iso sha256_json requests_post perplexity_brief
                  url email tier contact form w rec H Hc) in Hv
         by (rewrite ?Hrun, ?Hreq; auto);
       rewrite Hrun in Hv; discriminate.
Qed.

(** X25. The run just completed heads the history tab of the same
    rendering. When the script of a logged-in, non-admin user with a stored
    record (well-shaped store) shows a brief, a credit was there and has
    been taken, and the history displayed below is the stored history; its
    first entry is that run: it carries the brief shown, the stripped
    company and persona of the form, and as [credits_remaining_after] the
    balance now stored. *)
Theorem completed_run_heads_history (s s' : Session) (ui : MainInputs) (w w' : World)
    (rec : UserRecord) (admin : option (list admin_event)) (brief : Brief)
    (history : list RunRecord) :
  logged_in s = true ->
  is_admin s = false ->
  store_typed (db w) ->
  db w !! k_user (sess_email s) = Some (DUser rec) ->
  script (Some s) ui w = (Ok (MainApp admin (ViewBrief brief) history), s', w') ->
  admin = None /\ s' = s /\ 1 <= user_credits rec /\
  history = stored_history (db w') (sess_email s) /\
  exists run rest,
    history = run :: rest /\
    run_brief run = brief /\
    run_company run = PyStr.strip (in_company (ui_form ui)) /\
    run_persona run = PyStr.strip (in_persona (ui_form ui)) /\
    run_credits_remaining_after run = user_credits rec - 1 /\
    stored_credits (db w') (sess_email s) = Some (run_credits_remaining_after run).
Proof.
  intros Hlog Hadm Hm H Hrun. unfold main in Hrun. cbn [init_state] in Hrun.
  destruct (required_secrets getenv) as [secrets |]; [| discriminate].
  rewrite Hlog in Hrun. destruct (ui_logout ui); [discriminate |].
  destruct (app_pages _ _ _ _ _ _ _ _ _) as [r1 w1] eqn:E.
  injection Hrun as -> <- <-.
  unfold app_pages in E. rewrite Hadm in E.
  unfold bind at 1 in E. unfold ret at 1 in E.
  unfold bind at 1 in E.
  destruct (render_agent _ _ _ _ _ _ _ _ _ _ w) as [[view | e |] w2] eqn:Ea;
    [| discriminate | discriminate].
  unfold bind at 1 in E. unfold render_history in E.
  destruct (get_history (sess_email s) w2) as [[hist | e |] w3] eqn:Eh;
    [| discriminate | discriminate].
  unfold ret in E. injection E as <- -> <- <-.
  destruct (agent_brief_exact _ _ _ _ _ _ _ _ _ Hm H Ea) as (Hc & Hm2 & Hcred & Hhd).
  rewrite (get_history_run (sess_email s) w2 (history_slot_typed _ _ Hm2)) in Eh.
  injection Eh as <- <-.
  split; [reflexivity |]. split; [reflexivity |]. split; [exact Hc |].
  split; [reflexivity |].
  destruct (stored_history (db w2) (sess_email s)) as [| run rest]; [discriminate |].
  cbn [hd_error] in Hhd. injection Hhd as ->.
  eexists _, _. split; [reflexivity |]. cbn.
  repeat (split; [reflexivity |]). exact Hcred.
Qed.

End ScriptFacts.

(** * Worked instances

    The statements above, applied in the reference environment. *)



Lemma validate_login_code_rejects_witness :
  validate_login_code Ref.clock Ref.fromisoformat Ref.et_utcoffset
      "alice@example.com" "NOPE-0000" Ref.world_codes
    = (Ok (LoginFailed "Invalid code."), Ref.world_codes) /\
  exists msg w',
    validate_login_code Ref.clock Ref.fromisoformat Ref.et_utcoffset
        "alice@example.com" " GEN-2026W01-0A1B2C " Ref.world_codes
      = (Ok (LoginFailed msg), w') /\
    db w' = db Ref.world_codes.
Proof.
  split.
  - exact (proj1 (validate_login_code_rejects Ref.clock Ref.fromisoformat
                    Ref.et_utcoffset "alice@example.com" "NOPE-0000" Ref.world_codes)
                 eq_refl).
  - destruct (validate_login_code_rejects Ref.clock Ref.fromisoformat Ref.et_utcoffset
                "alice@example.com" " GEN-2026W01-0A1B2C " Ref.world_codes)
      as [_ Hfound].
    destruct (Hfound Ref.stale_code eq_refl) as [Hweek Htime].
    exact (Htime (mkDatetime 739620 23 59 59 0 (FixedOffset (-18000))) eq_refl eq_refl).
Defined.

Lemma validate_login_code_binding_witness :
  exists w',
    validate_login_code Ref.clock Ref.fromisoformat Ref.et_utcoffset
        Ref.alice "GEN-2026W02-2J9L4C " Ref.world_codes
      = (Ok (LoginOk (set_code_email Ref.open_code "alice@example.com")), w') /\
    db w' !! k_code "GEN-2026W02-2J9L4C"
      = Some (DCode (set_code_email Ref.open_code "alice@example.com")).
Proof.
  destruct (validate_login_code_binding Ref.clock Ref.fromisoformat Ref.et_utcoffset
              Ref.alice "GEN-2026W02-2J9L4C " Ref.world_codes Ref.open_code
              (mkDatetime 739627 23 59 59 0 (FixedOffset (-18000)))
              eq_refl eq_refl eq_refl eq_refl) as [Hbind _].
  destruct (Hbind eq_refl) as (w' & Hrun & Hdb & _).
  exists w'. split; [exact Hrun |].
  rewrite Hdb. apply lookup_insert_eq.
Defined.

Lemma decrement_credit_floor_witness :
  (exists w', decrement_credit Ref.clock Ref.isoformat Ref.alice Ref.world_alice
              = (Ok 1, w') /\ stored_credits (db w') Ref.alice = Some 1) /\
  (exists w', decrement_credit Ref.clock Ref.isoformat Ref.alice Ref.world_empty
              = (Ok 1, w') /\ stored_credits (db w') Ref.alice = Some 1).
Proof.
  destruct (decrement_credit_floor Ref.clock Ref.isoformat Ref.alice Ref.world_alice)
    as [Hexisting _].
  destruct (decrement_credit_floor Ref.clock Ref.isoformat Ref.alice Ref.world_empty)
    as [_ Hmissing].
  split.
  - destruct (Hexisting Ref.alice_record eq_refl) as (w' & Hrun & _ & Hstored & _).
    exists w'. split; [exact Hrun | exact Hstored].
  - destruct (Hmissing eq_refl) as (w' & rec' & Hrun & _ & _ & _ & _ & Hstored).
    exists w'. split; [exact Hrun | exact Hstored].
Defined.

Lemma ensure_user_existing_frame_witness :
  exists rec' w',
    ensure_user Ref.clock Ref.isoformat Ref.alice "vip" Ref.world_alice = (Ok rec', w') /\
    user_credits rec' = 2 /\ user_tier rec' = "general" /\
    user_last_login rec' = "2026-01-07T10:00:00-05:00".
Proof.
  destruct (ensure_user_existing_frame Ref.clock Ref.isoformat Ref.alice "vip"
              Ref.world_alice Ref.alice_record eq_refl)
    as (rec' & w' & Hrun & _ & _ & Hcredits & _ & _ & Hlogin & Htier).
  exists rec', w'. split; [exact Hrun |].
  split; [exact Hcredits |]. split; [exact Htier | exact Hlogin].
Defined.

Lemma post_webhook_never_raises_witness :
  post_webhook Ref.post_unreachable "https://hook.example/signup" [] Ref.world_empty
  = (Ok (0, "Max retries exceeded"), Ref.world_empty).
Proof.
  destruct (post_webhook_never_raises Ref.post_unreachable "https://hook.example/signup"
              [] Ref.world_empty) as (status & body & Hrun & _ & Hraises).
  rewrite Hrun. rewrite (Hraises _ eq_refl). reflexivity.
Defined.

Lemma store_typed_empty : store_typed ∅.
Proof. apply map_Forall_empty. Qed.

Lemma new_user_gets_two_free_runs_witness :
  exists rec w1,
    ensure_user Ref.clock Ref.isoformat Ref.alice "general" Ref.world_empty
      = (Ok rec, w1) /\
    user_credits rec = 2 /\
    (briefs_shown Ref.clock Ref.isoformat Ref.sha256_json "https://hook.example/contact"
       Ref.alice [Ref.run_visit; Ref.run_visit; Ref.run_visit; Ref.run_visit] w1
     <= 2)%nat.
Proof.
  destruct (new_user_gets_two_free_runs Ref.clock Ref.isoformat Ref.sha256_json
              "https://hook.example/contact" Ref.alice "general" Ref.world_empty
              store_typed_empty eq_refl)
    as (rec & w1 & Hrun & _ & Hrec & _ & _ & _ & Hbound & _).
  exists rec, w1. split; [exact Hrun |].
  split; [rewrite Hrec; reflexivity | apply Hbound].
Defined.

Lemma save_history_keeps_last_25_witness :
  exists w',
    save_history Ref.alice Ref.run_record Ref.world_alice = (Ok tt, w') /\
    stored_history (db w') Ref.alice = [Ref.run_record].
Proof.
  destruct (save_history_keeps_last_25 Ref.alice Ref.run_record Ref.world_alice I)
    as (w' & Hrun & Hhist & _).
  exists w'. split; [exact Hrun | exact Hhist].
Defined.

Lemma seed_demo_codes_idempotent_witness :
  exists w1,
    seed_demo_codes_if_missing Ref.clock Ref.isoformat Ref.world_codes
      = (Ok (7, "2026W02", "2026-01-11T23:59:59-05:00"), w1) /\
    db w1 !! k_code "VIP-2026W02-5K2Y9N" = Some (DCode Ref.bob_code) /\
    exists w2,
      seed_demo_codes_if_missing Ref.clock Ref.isoformat w1
        = (Ok (0, "2026W02", "2026-01-11T23:59:59-05:00"), w2) /\
      db w2 = db w1.
Proof.
  destruct (seed_demo_codes_idempotent Ref.clock Ref.isoformat Ref.world_codes)
    as [Hkeep Hseed].
  destruct (Hseed (mkDatetime 739627 23 59 59 0 ZoneET) eq_refl)
    as (w1 & Hrun & _ & _ & Hagain).
  exists w1. split; [exact Hrun |].
  split; [apply (Hkeep _ _ Hrun); reflexivity |].
  assert (Hticks : ticks w1 = 1%nat).
  { apply (f_equal snd) in Hrun. cbn in Hrun. rewrite <- Hrun. reflexivity. }
  destruct (Hagain w1 (mkDatetime 739627 23 59 59 0 ZoneET) eq_refl) as (w2 & Hrun2 & Hdb).
  { rewrite Hticks. reflexivity. }
  exists w2. split; [| exact Hdb].
  rewrite Hrun2, Hticks. reflexivity.
Defined.

(** ** Instances of the further properties *)

Lemma wrap_text_line_width_witness :
  wrap_text "alpha beta  gamma delta" 10 = ["alpha beta"; "gamma"; "delta"] /\
  (str_len "gamma" <= 10 \/ In "gamma" (str_split "alpha beta  gamma delta")).
Proof.
  split; [reflexivity |].
  apply (wrap_text_line_width "alpha beta  gamma delta" 10 "gamma").
  - lia.
  - right. left. reflexivity.
Defined.

Lemma wrap_text_empty_lines_witness :
  wrap_text "   " 10 = [] /\
  (exists rest, wrap_text "extraordinarily long" 5 = "" :: rest /\
                Forall (fun l => l <> "") rest) /\
  Forall (fun l => l <> "") (wrap_text "short words only" 5).
Proof.
  split; [exact (proj1 (wrap_text_empty_lines "   " 10) eq_refl) |].
  split.
  - exact (proj1 (proj2 (wrap_text_empty_lines "extraordinarily long" 5)
                        "extraordinarily" ["long"] eq_refl)
                 ltac:(vm_compute; reflexivity)).
  - exact (proj2 (proj2 (wrap_text_empty_lines "short words only" 5)
                        "short" ["words"; "only"] eq_refl)
                 ltac:(vm_compute; discriminate)).
Defined.


Lemma iso_week_id_same_week_witness :
  iso_week_id (Ref.clock 0) = iso_week_id Ref.sunday_2026_01_11 /\
  monday_of (ordinal (Ref.clock 0)) = 739621.
Proof.
  destruct (iso_week_id_same_week (Ref.clock 0) Ref.sunday_2026_01_11) as [Hiff _].
  split; [apply Hiff; reflexivity | reflexivity].
Defined.

Lemma week_expiry_same_for_week_witness :
  week_expiry_sunday_235959 (Ref.clock 0)
  = week_expiry_sunday_235959 Ref.sunday_2026_01_11.
Proof.
  exact (proj1 (week_expiry_same_for_week (Ref.clock 0) Ref.sunday_2026_01_11)
               eq_refl eq_refl).
Defined.

Lemma code_operations_write_code_keys_only_witness :
  stored_credits
    (db (snd (validate_login_code Ref.clock Ref.fromisoformat Ref.et_utcoffset
                Ref.alice "GEN-2026W02-2J9L4C" Demo.world_login)))
    Ref.alice
  = Some 2.
Proof.
  destruct (code_operations_write_code_keys_only Ref.clock Ref.isoformat
              Ref.fromisoformat Ref.et_utcoffset Demo.world_login
              (snd (validate_login_code Ref.clock Ref.fromisoformat Ref.et_utcoffset
                      Ref.alice "GEN-2026W02-2J9L4C" Demo.world_login)))
    as (_ & Hcredits & _).
  - left. eexists Ref.alice, "GEN-2026W02-2J9L4C", _. apply surjective_pairing.
  - rewrite Hcredits. reflexivity.
Defined.

Lemma validate_login_code_sound_witness :
  exists rec w',
    validate_login_code Ref.clock Ref.fromisoformat Ref.et_utcoffset
      Ref.alice "GEN-2026W02-2J9L4C" Ref.world_codes = (Ok (LoginOk rec), w') /\
    db w' !! k_code "GEN-2026W02-2J9L4C" = Some (DCode rec) /\
    code_email rec = "alice@example.com".
Proof.
  exists (set_code_email Ref.open_code "alice@example.com").
  exists (snd (validate_login_code Ref.clock Ref.fromisoformat Ref.et_utcoffset
                 Ref.alice "GEN-2026W02-2J9L4C" Ref.world_codes)).
  assert (Hrun : validate_login_code Ref.clock Ref.fromisoformat Ref.et_utcoffset
                   Ref.alice "GEN-2026W02-2J9L4C" Ref.world_codes
                 = (Ok (LoginOk (set_code_email Ref.open_code "alice@example.com")),
                    snd (validate_login_code Ref.clock Ref.fromisoformat
                           Ref.et_utcoffset Ref.alice "GEN-2026W02-2J9L4C"
                           Ref.world_codes))) by reflexivity.
  split; [exact Hrun |].
  destruct (validate_login_code_sound Ref.clock Ref.fromisoformat Ref.et_utcoffset
              Ref.alice "GEN-2026W02-2J9L4C" Ref.world_codes _ _ Hrun)
    as (Hstored & Hmail & _).
  split; [exact Hstored | exact Hmail].
Defined.

Lemma bound_code_stays_bound_witness :
  db (snd (validate_login_code Ref.clock Ref.fromisoformat Ref.et_utcoffset
             Ref.alice "VIP-2026W02-5K2Y9N" Ref.world_codes))
    !! k_code "VIP-2026W02-5K2Y9N" = Some (DCode Ref.bob_code) /\
  db (snd (bind_unbound_code_to_email "VIP-2026W02-5K2Y9N" Ref.alice Ref.world_codes))
    !! k_code "VIP-2026W02-5K2Y9N" = Some (DCode Ref.bob_code).
Proof.
  destruct (bound_code_stays_bound Ref.clock Ref.fromisoformat Ref.et_utcoffset
              (k_code "VIP-2026W02-5K2Y9N") Ref.bob_code Ref.world_codes
              eq_refl ltac:(discriminate)) as [Hvalidate Hbind].
  split.
  - eapply Hvalidate. apply surjective_pairing.
  - eapply Hbind. apply surjective_pairing.
Defined.

Lemma first_use_excludes_other_emails_witness :
  exists msg w3,
    validate_login_code Ref.clock Ref.fromisoformat Ref.et_utcoffset
      "bob@example.com" "GEN-2026W02-2J9L4C"
      (snd (validate_login_code Ref.clock Ref.fromisoformat Ref.et_utcoffset
              Ref.alice "GEN-2026W02-2J9L4C" Ref.world_codes))
    = (Ok (LoginFailed msg), w3).
Proof.
  destruct (first_use_excludes_other_emails Ref.clock Ref.fromisoformat Ref.et_utcoffset
              Ref.alice "GEN-2026W02-2J9L4C" Ref.world_codes
              (snd (validate_login_code Ref.clock Ref.fromisoformat Ref.et_utcoffset
                      Ref.alice "GEN-2026W02-2J9L4C" Ref.world_codes))
              (set_code_email Ref.open_code "alice@example.com")
              eq_refl ltac:(discriminate)
              "bob@example.com" _ eq_refl ltac:(discriminate))
    as (msg & w3 & Hrun & _).
  exists msg, w3. exact Hrun.
Defined.

Lemma unreadable_expiry_never_logs_in_witness :
  exists msg w',
    validate_login_code Ref.clock Ref.fromisoformat Ref.et_utcoffset
      Ref.alice "GEN-2026W02-BADEXP" Demo.world_broken = (Ok (LoginFailed msg), w').
Proof.
  destruct (unreadable_expiry_never_logs_in Ref.clock Ref.fromisoformat Ref.et_utcoffset
              Ref.alice "GEN-2026W02-BADEXP" Demo.world_broken Demo.broken_code
              eq_refl eq_refl (or_introl eq_refl))
    as (msg & w' & Hrun & _).
  exists msg, w'. exact Hrun.
Defined.

Lemma issued_code_logs_in_addressee_witness :
  exists rec w1 w3,
    create_code_for_email Ref.clock Ref.isoformat "A1B2C3" " Carol@X.org" "vip"
      Ref.world_empty = (Ok rec, w1) /\
    validate_login_code Ref.clock Ref.fromisoformat Ref.et_utcoffset
      "carol@x.org" (code_code rec) w1 = (Ok (LoginOk rec), w3).
Proof.
  destruct (issued_code_logs_in_addressee Ref.clock Ref.isoformat Ref.fromisoformat
              Ref.et_utcoffset "A1B2C3" " Carol@X.org" "vip" Ref.world_empty
              (mkDatetime 739627 23 59 59 0 ZoneET) eq_refl)
    as (rec & w1 & Hcreate & _ & Hweek & _).
  assert (Hw1 : w1 = snd (create_code_for_email Ref.clock Ref.isoformat "A1B2C3"
                            " Carol@X.org" "vip" Ref.world_empty))
    by (rewrite Hcreate; reflexivity).
  destruct (Hweek w1 (mkDatetime 739627 23 59 59 0 (FixedOffset (-18000))) eq_refl)
    as [(w3 & Hlogin & _) _].
  - rewrite Hw1. reflexivity.
  - reflexivity.
  - rewrite Hw1. reflexivity.
  - exists rec, w1, w3. split; [exact Hcreate |].
    assert (Hnorm : validate_login_code Ref.clock Ref.fromisoformat Ref.et_utcoffset
                      "carol@x.org" (code_code rec) w1
                    = validate_login_code Ref.clock Ref.fromisoformat Ref.et_utcoffset
                        " Carol@X.org" (code_code rec) w1) by reflexivity.
    rewrite Hnorm. exact Hlogin.
Defined.

Lemma admin_binding_then_login_witness :
  exists w1 w3,
    bind_unbound_code_to_email "GEN-2026W02-2J9L4C" " Alice@Example.com"
      Ref.world_codes = (Ok (true, "Bound successfully."), w1) /\
    validate_login_code Ref.clock Ref.fromisoformat Ref.et_utcoffset
      "ALICE@example.com" "GEN-2026W02-2J9L4C" w1
    = (Ok (LoginOk (set_code_email Ref.open_code "alice@example.com")), w3).
Proof.
  destruct (admin_binding_then_login Ref.clock Ref.fromisoformat Ref.et_utcoffset
              "GEN-2026W02-2J9L4C" " Alice@Example.com" Ref.world_codes Ref.open_code
              eq_refl eq_refl ltac:(discriminate))
    as (w1 & Hbind & Hdb & Hlogin).
  assert (Hticks : ticks w1 = 0%nat).
  { apply (f_equal (fun p => ticks (snd p))) in Hbind. cbn in Hbind.
    rewrite <- Hbind. reflexivity. }
  destruct (Hlogin w1 "ALICE@example.com"
              (mkDatetime 739627 23 59 59 0 (FixedOffset (-18000))) eq_refl)
    as (w3 & Hrun & _).
  - rewrite Hticks. reflexivity.
  - reflexivity.
  - rewrite Hticks. reflexivity.
  - reflexivity.
  - exists w1, w3. split; [exact Hbind | exact Hrun].
Defined.

Lemma store_typed_world_alice : store_typed (db Ref.world_alice).
Proof. apply store_typed_insert; [apply store_typed_empty | reflexivity]. Qed.

Lemma store_typed_world_login : store_typed (db Demo.world_login).
Proof.
  repeat (apply store_typed_insert; [| reflexivity]). apply store_typed_empty.
Qed.

Lemma agent_page_credit_accounting_witness :
  exists rec',
    db (snd (visits_outcome Ref.clock Ref.isoformat Ref.sha256_json
               "https://hook.example/contact" Ref.alice
               [Demo.failing_visit; Ref.run_visit; Demo.failing_visit] Ref.world_alice))
      !! k_user Ref.alice = Some (DUser rec') /\
    user_credits rec' = 0.
Proof.
  destruct (agent_page_credit_accounting Ref.clock Ref.isoformat Ref.sha256_json
              "https://hook.example/contact" Ref.alice
              [Demo.failing_visit; Ref.run_visit; Demo.failing_visit]
              Ref.world_alice Ref.alice_record store_typed_world_alice eq_refl)
    as (rec' & Hstored & Hcredits & _).
  exists rec'. split; [exact Hstored |]. rewrite Hcredits. vm_compute. reflexivity.
Defined.

Lemma history_keeps_newest_first_witness :
  exists w',
    save_all Ref.alice [Demo.older_run; Ref.run_record] Ref.world_alice = (Ok tt, w') /\
    stored_history (db w') Ref.alice = [Ref.run_record; Demo.older_run].
Proof.
  destruct (history_keeps_newest_first Ref.alice Demo.older_run [Ref.run_record]
              Ref.world_alice I) as (w' & Hrun & Hhist & _).
  exists w'. split; [exact Hrun |]. rewrite Hhist. reflexivity.
Defined.

Lemma login_failure_changes_nothing_witness :
  let '(r, s', w') :=
    render_login Ref.clock Ref.isoformat Ref.fromisoformat Ref.et_utcoffset
      Demo.owner_email Demo.owner_code "alice@example.com" "VIP-2026W02-5K2Y9N" true
      fresh_session Demo.world_login in
  r = Ok (LoginError
            "Code does not match this email. Use the email you requested access with.")
  /\ s' = fresh_session /\ db w' = db Demo.world_login.
Proof.
  destruct (render_login Ref.clock Ref.isoformat Ref.fromisoformat Ref.et_utcoffset
              Demo.owner_email Demo.owner_code "alice@example.com" "VIP-2026W02-5K2Y9N"
              true fresh_session Demo.world_login) as [[r s'] w'] eqn:Hrun.
  assert (Hr : r = Ok (LoginError
     "Code does not match this email. Use the email you requested access with.")).
  { apply (f_equal (fun p => fst (fst p))) in Hrun. cbn [fst] in Hrun.
    rewrite <- Hrun. reflexivity. }
  split; [exact Hr |]. subst r.
  exact (login_failure_changes_nothing Ref.clock Ref.isoformat Ref.fromisoformat
           Ref.et_utcoffset Demo.owner_email Demo.owner_code "alice@example.com"
           "VIP-2026W02-5K2Y9N" true fresh_session s' Demo.world_login w' _ Hrun
           ltac:(discriminate)).
Defined.

Lemma code_login_keeps_existing_account_witness :
  let '(r, s', w') :=
    render_login Ref.clock Ref.isoformat Ref.fromisoformat Ref.et_utcoffset
      Demo.owner_email Demo.owner_code " Alice@Example.com" "GEN-2026W02-2J9L4C " true
      fresh_session Demo.world_login in
  r = Ok (LoginRerun "Logged in.") /\
  s' = mkSession true "alice@example.com" "general" false /\
  stored_credits (db w') Ref.alice = Some 2.
Proof.
  destruct (render_login Ref.clock Ref.isoformat Ref.fromisoformat Ref.et_utcoffset
              Demo.owner_email Demo.owner_code " Alice@Example.com"
              "GEN-2026W02-2J9L4C " true fresh_session Demo.world_login)
    as [[r s'] w'] eqn:Hrun.
  assert (Hr : r = Ok (LoginRerun "Logged in.")
               /\ s' = mkSession true "alice@example.com" "general" false).
  { split.
    - apply (f_equal (fun p => fst (fst p))) in Hrun. cbn [fst] in Hrun.
      rewrite <- Hrun. reflexivity.
    - apply (f_equal (fun p => snd (fst p))) in Hrun. cbn [fst snd] in Hrun.
      rewrite <- Hrun. reflexivity. }
  destruct Hr as [-> ->]. split; [reflexivity |]. split; [reflexivity |].
  destruct (code_login_keeps_existing_account Ref.clock Ref.isoformat Ref.fromisoformat
              Ref.et_utcoffset Demo.owner_email Demo.owner_code " Alice@Example.com"
              "GEN-2026W02-2J9L4C " true fresh_session _ Demo.world_login w' _
              store_typed_world_login Hrun eq_refl)
    as (_ & _ & user & code_rec & Hstored & _ & _ & _ & Hold & _).
  destruct (Hold Ref.alice_record eq_refl) as (Hcredits & _).
  unfold stored_credits.
  change (k_user Ref.alice) with (k_user (PyStr.lower (PyStr.strip " Alice@Example.com"))).
  rewrite Hstored, Hcredits. reflexivity.
Defined.

Lemma admin_session_needs_owner_credentials_witness :
  exists r w',
    render_login Ref.clock Ref.isoformat Ref.fromisoformat Ref.et_utcoffset
      Demo.owner_email Demo.owner_code " owner@example.com" "KBUILDSAI2026" true
      fresh_session Ref.world_empty
    = (r, mkSession true "owner@example.com" "owner" true, w').
Proof.
  exact (proj2 (admin_session_needs_owner_credentials Ref.clock Ref.isoformat
                  Ref.fromisoformat Ref.et_utcoffset Demo.owner_email Demo.owner_code
                  " owner@example.com" "KBUILDSAI2026" true fresh_session
                  Ref.world_empty)
               eq_refl ltac:(discriminate) ltac:(discriminate) eq_refl eq_refl).
Defined.

Lemma admin_page_writes_only_on_action_witness :
  render_admin Ref.clock Ref.isoformat "another" Demo.set_credits_action Demo.world_login
    = (Ok [AdminLocked], Demo.world_login) /\
  exists events w',
    render_admin Ref.clock Ref.isoformat Demo.admin_password Demo.no_admin_action
      Demo.world_login = (Ok events, w') /\
    db w' = db Demo.world_login.
Proof.
  split.
  - exact (proj1 (admin_page_writes_only_on_action Ref.clock Ref.isoformat "another"
                    Demo.set_credits_action Demo.world_login) ltac:(discriminate)).
  - exact (proj2 (admin_page_writes_only_on_action Ref.clock Ref.isoformat
                    Demo.admin_password Demo.no_admin_action Demo.world_login)
                 eq_refl (or_intror eq_refl) eq_refl eq_refl).
Defined.

Lemma admin_credits_form_sets_balance_witness :
  exists events w',
    render_admin Ref.clock Ref.isoformat Demo.admin_password Demo.set_credits_action
      Demo.world_login = (Ok events, w') /\
    stored_credits (db w') " Alice@Example.com" = Some 5.
Proof.
  destruct (admin_credits_form_sets_balance Ref.clock Ref.isoformat Demo.admin_password
              Demo.set_credits_action Demo.world_login store_typed_world_login
              eq_refl eq_refl eq_refl eq_refl eq_refl)
    as (events & w' & Hrun & _ & Hcredits & _).
  exists events, w'. split; [exact Hrun | exact Hcredits].
Defined.

Lemma request_access_reports_http_status_witness :
  (exists w', render_request_access Ref.clock Ref.isoformat Ref.post_accepted
                "https://hook.example/signup" Demo.access_request Ref.world_empty
              = (Ok AccessSubmitted, w')) /\
  render_request_access Ref.clock Ref.isoformat Ref.post_accepted
    "https://hook.example/signup" Demo.blank_request Ref.world_empty
  = (Ok AccessMissing, Ref.world_empty).
Proof.
  split.
  - destruct (request_access_reports_http_status Ref.clock Ref.isoformat
                Ref.post_accepted "https://hook.example/signup" Demo.access_request
                Ref.world_empty) as (view & w' & Hrun & _ & _ & Hok & _).
    exists w'. rewrite Hrun. rewrite Hok; [reflexivity | reflexivity | reflexivity |].
    intros payload. exists 200, "Accepted". split; [reflexivity | lia].
  - destruct (request_access_reports_http_status Ref.clock Ref.isoformat
                Ref.post_accepted "https://hook.example/signup" Demo.blank_request
                Ref.world_empty) as (view & w' & _ & _ & _ & _ & Hblank).
    destruct (Hblank eq_refl eq_refl) as (_ & _ & Hany).
    exact (Hany Ref.post_accepted).
Defined.

Lemma main_stops_on_missing_secret_witness :
  main Ref.clock Ref.isoformat Ref.fromisoformat Ref.et_utcoffset Ref.sha256_json
       Demo.getenv_blank_password Ref.post_accepted Ref.api_up
       (Some Demo.alice_session) Demo.run_click Demo.world_login
  = (Stopped, Demo.alice_session, Demo.world_login).
Proof.
  exact (main_stops_on_missing_secret Ref.clock Ref.isoformat Ref.fromisoformat
           Ref.et_utcoffset Ref.sha256_json Demo.getenv_blank_password
           Ref.post_accepted Ref.api_up "ADMIN_PASSWORD" (Some Demo.alice_session)
           Demo.run_click Demo.world_login
           ltac:(cbn [In]; auto 6) (or_intror eq_refl)).
Defined.

Lemma member_session_writes_own_records_witness :
  let w' := snd (main Ref.clock Ref.isoformat Ref.fromisoformat Ref.et_utcoffset
                   Ref.sha256_json Demo.getenv Ref.post_accepted Ref.api_up
                   (Some Demo.alice_session) Demo.run_click Demo.world_login) in
  db w' !! k_code "VIP-2026W02-5K2Y9N" = Some (DCode Ref.bob_code) /\
  stored_credits (db w') "bob@example.com" = None.
Proof.
  destruct (member_session_writes_own_records Ref.clock Ref.isoformat
              Ref.fromisoformat Ref.et_utcoffset Ref.sha256_json Demo.getenv
              Ref.post_accepted Ref.api_up Demo.alice_session _ Demo.run_click
              Demo.world_login _ _ eq_refl eq_refl
              ltac:(apply surjective_pairing || (rewrite <- surjective_pairing;
                                                 apply surjective_pairing)))
    as (_ & _ & Hcode & Hother).
  cbn zeta. split.
  - rewrite Hcode. reflexivity.
  - rewrite (proj1 (Hother "bob@example.com" ltac:(discriminate))). reflexivity.
Defined.

Lemma visitor_cannot_change_balances_witness :
  let out := main Ref.clock Ref.isoformat Ref.fromisoformat Ref.et_utcoffset
               Ref.sha256_json Demo.getenv Ref.post_accepted Ref.api_up
               None Demo.visitor_click Demo.world_login in
  stored_credits (db (snd out)) Ref.alice = Some 2 /\
  stored_history (db (snd out)) Ref.alice = [].
Proof.
  destruct (main Ref.clock Ref.isoformat Ref.fromisoformat Ref.et_utcoffset
              Ref.sha256_json Demo.getenv Ref.post_accepted Ref.api_up
              None Demo.visitor_click Demo.world_login) as [[r s'] w'] eqn:Hrun.
  destruct (visitor_cannot_change_balances Ref.clock Ref.isoformat Ref.fromisoformat
              Ref.et_utcoffset Ref.sha256_json Demo.getenv Ref.post_accepted
              Ref.api_up None Demo.visitor_click Demo.world_login w' r s'
              eq_refl Hrun) as (_ & Hhist & Hcred).
  cbn [snd]. split.
  - apply Hcred. reflexivity.
  - rewrite Hhist. reflexivity.
Defined.

Lemma completed_run_heads_history_witness :
  let out := main Ref.clock Ref.isoformat Ref.fromisoformat Ref.et_utcoffset
               Ref.sha256_json Demo.getenv Ref.post_accepted Ref.api_up
               (Some Demo.alice_session) Demo.run_click Demo.world_login in
  exists run rest,
    fst (fst out) = Ok (MainApp None (ViewBrief "{company: BioMarin}") (run :: rest)) /\
    run_credits_remaining_after run = 1 /\
    stored_credits (db (snd out)) "alice@example.com" = Some 1.
Proof.
  destruct (main Ref.clock Ref.isoformat Ref.fromisoformat Ref.et_utcoffset
              Ref.sha256_json Demo.getenv Ref.post_accepted Ref.api_up
              (Some Demo.alice_session) Demo.run_click Demo.world_login)
    as [[r s'] w'] eqn:Hrun.
  assert (Hr : exists history,
             r = Ok (MainApp None (ViewBrief "{company: BioMarin}") history)).
  { apply (f_equal (fun p => fst (fst p))) in Hrun. cbn [fst] in Hrun.
    rewrite <- Hrun. vm_compute. eexists. reflexivity. }
  destruct Hr as [history ->].
  destruct (completed_run_heads_history Ref.clock Ref.isoformat Ref.fromisoformat
              Ref.et_utcoffset Ref.sha256_json Demo.getenv Ref.post_accepted
              Ref.api_up Demo.alice_session s' Demo.run_click Demo.world_login w'
              Ref.alice_record None "{company: BioMarin}" history
              eq_refl eq_refl store_typed_world_login eq_refl Hrun)
    as (_ & _ & _ & _ & run & rest & -> & _ & _ & _ & Hafter & Hstored).
  exists run, rest. cbn [fst snd]. split; [reflexivity |].
  split; [rewrite Hafter; reflexivity |].
  change "alice@example.com" with (sess_email Demo.alice_session).
  rewrite Hstored, Hafter. reflexivity.
Defined.
